(** * The partitioned account registry of server.js

    A shallow embedding of the account-registry part of [server.js]: the two
    JSONBin documents that hold the user accounts, the helpers
    [fetchAllUserRecords] and [findUserAndBin], and the request handlers that
    read and write accounts through them; then of the features that keep
    one array in a bin of their own (applications, game submissions and
    published games, hangman lobbies, .imac websites, videos) and of the
    view generation job.

    Conventions.
    - JavaScript numbers that the handlers treat as integers (ids, token
      balances, prices) are [Z]; a request field that may be missing is an
      [option], and [falsy] is the test behind [!x].
    - An object property that may be missing or falsy ([friends],
      [record.users], ...) is an [option].
    - The remote store is a function from bin id to what [GET <bin>/latest]
      answers; a [PUT] replaces the whole document of one bin.
    - Accounts are well-typed records: a numeric [id] and [authTokens], a
      string [username]; a request field that is present has the type the
      handler expects.
    - What the clock and [Math.random] give to a request are parameters of
      its handler.
    - Text is ASCII: [toLowerCase] and [toUpperCase] change the 26 letters. *)

From Stdlib Require Import ZArith List String Bool Lia PeanoNat.
Import ListNotations.

Local Open Scope string_scope.
Local Open Scope list_scope.
Local Open Scope Z_scope.

(** ** Data model *)

Record FriendRequest := mkFriendRequest {
  req_from : Z;
  req_fromUsername : string
}.

Record User := mkUser {
  user_id : Z;
  username : string;
  bio : option string;
  pfp : option string;
  authTokens : Z;
  friends : option (list Z);
  friendRequests : option (list FriendRequest);
  gamepasses : option (list (string * bool))
}.

Record Group := mkGroup {
  group_id : Z;
  group_name : string;
  group_description : string;
  group_iconUrl : string;
  group_ownerId : Z;
  group_members : list Z;
  group_createdAt : string
}.

Record Ownership := mkOwnership {
  own_userId : Z;
  own_gamepasses : list string
}.

Record Gamepass := mkGamepass {
  gp_id : Z;
  gp_ownerId : Z;
  gp_name : string;
  gp_price : Z
}.

Record BoardEntry := mkBoardEntry {
  entry_id : Z;
  entry_username : string;
  entry_amount : Z
}.

(** The [record] of a bin: a JSON object with the keys the handlers use. *)
Record Document := mkDocument {
  doc_users : option (list User);
  doc_groups : option (list Group);
  doc_ownership : option (list Ownership);
  doc_gamepasses : option (list Gamepass);
  doc_donated : option (list BoardEntry);
  doc_raised : option (list BoardEntry)
}.

Definition empty_document : Document := mkDocument None None None None None None.

(** What [res.json()] yields: JSON [null], or an object whose [record] may be
    missing; [revision] stands for the [metadata] the backend sends along,
    bumped by the backend at every stored write. *)
Inductive Body :=
| JsonNull
| JsonObject (record : option Document) (revision : nat).

(** What [fetch] yields: the promise rejects (network failure), or resolves to
    a response with its [ok] flag and a body that parses ([Some]) or not. *)
Inductive Fetch :=
| Rejected
| Resolved (ok : bool) (json : option Body).

Inductive Donation := mkDonation (buyer seller : string) (amount : Z).

Record World := mkWorld {
  latest : string -> Fetch;
  broadcasts : list Donation
}.

(** ** Configuration *)

Definition ALL_USERS_BIN_IDS : list string :=
  ["68deea1543b1c97be95856b2"; "68e395a643b1c97be95c2bc3"]%string.

Definition USER_GROUPS_BIN_ID := "68e18ff743b1c97be95a7ce7"%string.
Definition DODGE_GAMEPASS_BIN_ID := "68e28e47d0ea881f40962fed"%string.
Definition AUTHDONATE_GAMEPASS_BIN_ID := "68e1a74043b1c97be95a8bb1"%string.
Definition FLOORISLAVA_GAMEPASS_BIN_ID := "68f1a2b3d4ea881f40a5c3d4"%string.
Definition DONATED_LEADERBOARD_BIN_ID := "68e1a753ae596e708f064328"%string.
Definition RAISED_LEADERBOARD_BIN_ID := "68e1a76d43b1c97be95a8bcb"%string.

(** ** JavaScript helpers *)

Class Falsy (A : Type) := falsy : A -> bool.

#[global] Instance falsy_Z : Falsy Z := fun z => z =? 0.
#[global] Instance falsy_string : Falsy string := fun s => String.eqb s "".
#[global] Instance falsy_option {A} `{Falsy A} : Falsy (option A) :=
  fun o => match o with None => true | Some a => falsy a end.

(** [Array.prototype.findIndex]; [None] is the source's [-1]. *)
Fixpoint findIndex {A : Type} (p : A -> bool) (l : list A) : option nat :=
  match l with
  | [] => None
  | x :: rest =>
      if p x then Some O
      else match findIndex p rest with
           | Some i => Some (S i)
           | None => None
           end
  end.

(** [Promise.all]: one rejection rejects the whole. *)
Fixpoint await_all {A : Type} (l : list (option A)) : option (list A) :=
  match l with
  | [] => Some []
  | None :: _ => None
  | Some a :: rest =>
      match await_all rest with
      | Some r => Some (a :: r)
      | None => None
      end
  end.

(** [Map.prototype.set]: overwrite the entry of the key, or append one;
    iteration follows insertion order. *)
Fixpoint map_set {V : Type} (m : list (string * V)) (k : string) (v : V)
  : list (string * V) :=
  match m with
  | [] => [(k, v)]
  | (k', v') :: rest =>
      if String.eqb k' k then (k, v) :: rest else (k', v') :: map_set rest k v
  end.

(** ** The registry reader *)

Record BinRecord := mkBinRecord {
  users : list User;
  fetchedData : Body
}.

Definition BinRecords := list (string * BinRecord).

Record UserRecords := mkUserRecords {
  allUsers : list User;
  binRecords : BinRecords
}.

(** [(data[i].record && data[i].record.users) ? data[i].record.users : []];
    reading [.record] of [null] throws. *)
Definition record_users (d : Body) : option (list User) :=
  match d with
  | JsonNull => None
  | JsonObject None _ => Some []
  | JsonObject (Some doc) _ =>
      match doc_users doc with
      | Some us => Some us
      | None => Some []
      end
  end.

(** The [for] loop of [fetchAllUserRecords] over the bin ids and [data]. *)
Fixpoint merge_bins (ids : list string) (data : list Body) (acc : UserRecords)
  : option UserRecords :=
  match ids, data with
  | binId :: ids', d :: data' =>
      match record_users d with
      | None => None
      | Some binUsers =>
          merge_bins ids' data'
            (mkUserRecords (allUsers acc ++ binUsers)
               (map_set (binRecords acc) binId (mkBinRecord binUsers d)))
      end
  | _, _ => Some acc
  end.

Definition fetchAllUserRecords (w : World) : option UserRecords :=
  let fetchPromises :=
    map (fun binId =>
           match latest w binId with
           | Rejected => None
           | res => Some res
           end) ALL_USERS_BIN_IDS in
  match await_all fetchPromises with
  | None => None
  | Some responses =>
      match await_all
              (map (fun res =>
                      match res with
                      | Resolved true (Some d) => Some d
                      | _ => None
                      end) responses) with
      | None => None
      | Some data => merge_bins ALL_USERS_BIN_IDS data (mkUserRecords [] [])
      end
  end.

(** ** The locator *)

(** The object [findUserAndBin] returns.  Its [users] property is a reference
    to the array held in [binRecords] under [binId]: the handlers mutate the
    accounts through it, so it is read back from the records (see
    [bin_users]) instead of being copied here. *)
Record Located := mkLocated {
  binId : string;
  userIndex : nat
}.

(** The returned literal has the properties [binId], [users] and [userIndex]
    only; reading its [user] property gives [undefined]. *)
Definition Located_user (l : Located) : option User := None.

Fixpoint findUserAndBin_entries (entries : BinRecords) (userId : Z)
  : option Located :=
  match entries with
  | [] => None
  | (b, record) :: rest =>
      match findIndex (fun u => user_id u =? userId) (users record) with
      | Some i => Some (mkLocated b i)
      | None => findUserAndBin_entries rest userId
      end
  end.

Definition findUserAndBin (allRecords : UserRecords) (userId : Z)
  : option Located :=
  findUserAndBin_entries (binRecords allRecords) userId.

(** The array behind the [users] reference of a located account. *)
Fixpoint bin_users (recs : BinRecords) (b : string) : list User :=
  match recs with
  | [] => []
  | (b', record) :: rest =>
      if String.eqb b' b then users record else bin_users rest b
  end.

(** [users[i] = f(users[i])] on the array of bin [b], in place. *)
Fixpoint update_nth {A : Type} (i : nat) (f : A -> A) (l : list A) {struct l}
  : list A :=
  match l, i with
  | [], _ => []
  | x :: rest, O => f x :: rest
  | x :: rest, S i' => x :: update_nth i' f rest
  end.

Fixpoint modify_user (recs : BinRecords) (b : string) (i : nat)
  (f : User -> User) : BinRecords :=
  match recs with
  | [] => []
  | (b', record) :: rest =>
      if String.eqb b' b
      then (b', mkBinRecord (update_nth i f (users record)) (fetchedData record))
             :: rest
      else (b', record) :: modify_user rest b i f
  end.

Definition located_users (recs : BinRecords) (l : Located) : list User :=
  bin_users recs (binId l).

Definition located_account (recs : BinRecords) (l : Located) : option User :=
  nth_error (located_users recs l) (userIndex l).

Definition modify_located (recs : BinRecords) (l : Located) (f : User -> User)
  : BinRecords :=
  modify_user recs (binId l) (userIndex l) f.

Definition set_authTokens (u : User) (t : Z) : User :=
  mkUser (user_id u) (username u) (bio u) (pfp u) t (friends u)
    (friendRequests u) (gamepasses u).

Definition set_friends (u : User) (f : option (list Z)) : User :=
  mkUser (user_id u) (username u) (bio u) (pfp u) (authTokens u) f
    (friendRequests u) (gamepasses u).

Definition set_friendRequests (u : User) (r : option (list FriendRequest))
  : User :=
  mkUser (user_id u) (username u) (bio u) (pfp u) (authTokens u) (friends u)
    r (gamepasses u).

Definition set_gamepasses (u : User) (g : option (list (string * bool)))
  : User :=
  mkUser (user_id u) (username u) (bio u) (pfp u) (authTokens u) (friends u)
    (friendRequests u) g.

(** [u.authTokens -= amount] and [u.authTokens += amount]. *)
Definition debit (amount : Z) (u : User) : User :=
  set_authTokens u (authTokens u - amount).

Definition credit (amount : Z) (u : User) : User :=
  set_authTokens u (authTokens u + amount).

(** ** Requests, replies and the environment *)

Record PublicUser := mkPublicUser {
  pub_id : Z;
  pub_username : string;
  pub_bio : option string;
  pub_pfp : option string;
  pub_friends : Z
}.

Inductive Extra :=
| NoExtra
| NewGroup (newGroup : Group)
| FoundUser (user : PublicUser)
| NewAuthTokens (newAuthTokens : Z).

(** [res.status(status).json({ success, message, ... })]. *)
Record Reply := mkReply {
  status : Z;
  success : bool;
  message : string;
  extra : Extra
}.

(** How the backend treats one [PUT]: it stores the document and answers ok;
    it answers with an error status and stores nothing; or the request fails
    on the network and the promise rejects. *)
Inductive PutOutcome := PutStored | PutRefused | PutRejected.

(** What a handler does not control: the fate of its writes, what other
    requests do to the store between its reads and its writes, the clock. *)
Record Env := mkEnv {
  put_outcome : string -> PutOutcome;
  concurrent : World -> World;
  now : string
}.

(** ** The handler monad: the store as state, early [return res...], [throw] *)

Inductive Step (A : Type) :=
| Next (a : A)
| Respond (r : Reply)
| Raise.

Arguments Next {A} a.
Arguments Respond {A} r.
Arguments Raise {A}.

Definition M (A : Type) := World -> Step A * World.

Definition ret {A : Type} (a : A) : M A := fun w => (Next a, w).

Definition bind {A B : Type} (m : M A) (k : A -> M B) : M B :=
  fun w =>
    match m w with
    | (Next a, w') => k a w'
    | (Respond r, w') => (Respond r, w')
    | (Raise, w') => (Raise, w')
    end.

Definition respond {A : Type} (r : Reply) : M A := fun w => (Respond r, w).

Definition throw {A : Type} : M A := fun w => (Raise, w).

(** A value whose absence makes the source throw (a rejected promise, a
    property read on [undefined] or [null]). *)
Definition or_throw {A : Type} (o : option A) : M A :=
  match o with
  | Some a => ret a
  | None => throw
  end.

Declare Scope handler_scope.
Delimit Scope handler_scope with handler.

Notation "x <- m ;; k" := (bind m (fun x => k))
  (at level 100, m at next level, right associativity) : handler_scope.
Notation "m ;;; k" := (bind m (fun _ => k))
  (at level 100, right associativity) : handler_scope.

Local Open Scope handler_scope.

(** [try { body } catch (error) { res.status(500).json(on_error) }]. *)
Definition try_catch (body : M Reply) (on_error : Reply) (w : World)
  : Reply * World :=
  match body w with
  | (Next r, w') => (r, w')
  | (Respond r, w') => (r, w')
  | (Raise, w') => (on_error, w')
  end.

Definition truthy {A : Type} `{Falsy A} (o : option A) : option A :=
  match o with
  | Some a => if falsy a then None else Some a
  | None => None
  end.

(** *** Reads *)

Definition fetchAllUserRecordsM : M UserRecords :=
  fun w => or_throw (fetchAllUserRecords w) w.

(** [await fetch(`${url}/latest`)]: the response, unless the promise
    rejects. *)
Definition fetch_latest (b : string) : M (bool * option Body) :=
  fun w =>
    match latest w b with
    | Rejected => (Raise, w)
    | Resolved ok body => (Next (ok, body), w)
    end.

(** [await res.json()]. *)
Definition json (res : bool * option Body) : M Body := or_throw (snd res).

(** [data.record], which throws on [null]. *)
Definition record_of (d : Body) : M (option Document) :=
  match d with
  | JsonNull => throw
  | JsonObject r _ => ret r
  end.

(** [(data.record && data.record.key) ? data.record.key : []]. *)
Definition record_list {A : Type} (key : Document -> option (list A))
  (d : Body) : M (list A) :=
  r <- record_of d ;;
  ret match r with
      | Some doc => match key doc with Some l => l | None => [] end
      | None => []
      end.

(** *** Writes *)

Definition revision_at (w : World) (b : string) : nat :=
  match latest w b with
  | Resolved _ (Some (JsonObject _ v)) => v
  | _ => O
  end.

(** The backend stores [doc] as the whole record of bin [b]. *)
Definition store (w : World) (b : string) (doc : Document) : World :=
  mkWorld
    (fun b' =>
       if String.eqb b' b
       then Resolved true (Some (JsonObject (Some doc) (S (revision_at w b))))
       else latest w b')
    (broadcasts w).

(** One [fetch(url, { method: 'PUT', body })]: [None] when the promise
    rejects, else the [ok] flag of the response. *)
Definition issue_put (env : Env) (w : World) (b : string) (doc : Document)
  : option bool * World :=
  match put_outcome env b with
  | PutStored => (Some true, store w b doc)
  | PutRefused => (Some false, w)
  | PutRejected => (None, w)
  end.

Fixpoint issue_puts (env : Env) (w : World) (puts : list (string * Document))
  : list (option bool) * World :=
  match puts with
  | [] => ([], w)
  | (b, doc) :: rest =>
      let '(res, w1) := issue_put env w b doc in
      let '(ress, w2) := issue_puts env w1 rest in
      (res :: ress, w2)
  end.

(** [await Promise.all([fetch(PUT ...), ...])]: every request is issued, on
    the store as the other requests left it; the [ok] flags come back unless
    one promise rejected. *)
Definition put_all (env : Env) (puts : list (string * Document))
  : M (list bool) :=
  fun w =>
    let '(results, w') := issue_puts env (concurrent env w) puts in
    (match await_all results with
     | Some oks => Next oks
     | None => Raise
     end, w').

Definition users_doc (us : list User) : Document :=
  mkDocument (Some us) None None None None None.

Definition groups_doc (gs : list Group) : Document :=
  mkDocument None (Some gs) None None None None.

Definition ownership_doc (os : list Ownership) : Document :=
  mkDocument None None (Some os) None None None.

Definition donated_doc (es : list BoardEntry) : Document :=
  mkDocument None None None None (Some es) None.

Definition raised_doc (es : list BoardEntry) : Document :=
  mkDocument None None None None None (Some es).

(** [{ users: <the bin's array> }] for the bin of a located account. *)
Definition put_users (recs : BinRecords) (b : string) : string * Document :=
  (b, users_doc (bin_users recs b)).

Definition broadcast (d : Donation) : M unit :=
  fun w => (Next tt, mkWorld (latest w) (broadcasts w ++ [d])).

Definition internal_error : Reply :=
  mkReply 500 false "An internal server error occurred." NoExtra.

(** [findUserAndBin] on a request field: a missing field equals no id. *)
Definition locate (userRecords : UserRecords) (userId : option Z)
  : option Located :=
  match userId with
  | Some i => findUserAndBin userRecords i
  | None => None
  end.

(** ** POST /api/create-group *)

Record CreateGroupReq := mkCreateGroupReq {
  cg_userId : option Z;
  cg_groupName : option string;
  cg_groupDescription : option string;
  cg_groupIconUrl : option string
}.

(** [Math.max(...ids)] of a list that is not empty. *)
Definition max_of (l : list Z) : Z := fold_right Z.max (hd 0 l) l.

(** "Create new group": the next id, the fields of the request, the creator
    as owner and only member, the time of creation. *)
Definition new_group (env : Env) (req : CreateGroupReq) (userId : Z)
  (groupName groupDescription : string) (allGroups : list Group) : Group :=
  let newGroupId :=
    match allGroups with
    | [] => 1
    | _ => max_of (map group_id allGroups) + 1
    end in
  mkGroup newGroupId groupName groupDescription
    (match truthy (cg_groupIconUrl req) with
     | Some url => url
     | None => ""
     end)
    userId [userId] (now env).

Definition create_group (env : Env) (req : CreateGroupReq) (w : World)
  : Reply * World :=
  match truthy (cg_userId req), truthy (cg_groupName req),
        truthy (cg_groupDescription req) with
  | Some userId, Some groupName, Some groupDescription =>
      try_catch
        (userRecords <- fetchAllUserRecordsM ;;
         groupsRes <- fetch_latest USER_GROUPS_BIN_ID ;;
         if negb (fst groupsRes) then throw else
         groupsData <- json groupsRes ;;
         allGroups <- record_list doc_groups groupsData ;;
         match findUserAndBin userRecords userId with
         | None => respond (mkReply 404 false "User not found." NoExtra)
         | Some userBinData =>
             payer <- or_throw
                        (located_account (binRecords userRecords) userBinData) ;;
             if authTokens payer <? 5000
             then respond (mkReply 403 false "Insufficient AuthTokens." NoExtra)
             else
               let recs :=
                 modify_located (binRecords userRecords) userBinData
                   (debit 5000) in
               let newGroup :=
                 new_group env req userId groupName groupDescription
                   allGroups in
               let allGroups' := allGroups ++ [newGroup] in
               oks <- put_all env
                        [put_users recs (binId userBinData);
                         (USER_GROUPS_BIN_ID, groups_doc allGroups')] ;;
               if forallb (fun ok => ok) oks
               then ret (mkReply 200 true "Group created successfully!"
                           (NewGroup newGroup))
               else throw
         end)
        internal_error w
  | _, _, _ => (mkReply 400 false "Missing required fields." NoExtra, w)
  end.

(** ** GET /api/users/search/:id *)

Definition publicUser (foundAccount : User) : PublicUser :=
  mkPublicUser (user_id foundAccount) (username foundAccount)
    (bio foundAccount) (pfp foundAccount)
    (match friends foundAccount with
     | Some fs => Z.of_nat (List.length fs)
     | None => 0
     end).

(** [searchId] is [parseInt(req.params.id)]; [None] stands for [NaN]. *)
Definition users_search (searchId : option Z) (w : World) : Reply * World :=
  match searchId with
  | None => (mkReply 400 false "Invalid ID format." NoExtra, w)
  | Some searchId =>
      try_catch
        (userRecords <- fetchAllUserRecordsM ;;
         let allAccounts := allUsers userRecords in
         match allAccounts with
         | [] =>
             respond
               (mkReply 404 false "No users or bots found in database." NoExtra)
         | _ =>
             match find (fun u => user_id u =? searchId) allAccounts with
             | Some foundAccount =>
                 respond (mkReply 200 true "" (FoundUser (publicUser foundAccount)))
             | None => respond (mkReply 404 false "User not found." NoExtra)
             end
         end)
        internal_error w
  end.

(** The registry's [lookupAccount]: a fresh [fetchAllUserRecords] and
    [allUsers.find(u => u.id === id)], as the search handler, [isAdmin] and
    the market handler read an account. *)
Definition lookupAccount (w : World) (userId : Z) : option User :=
  match fetchAllUserRecords w with
  | Some userRecords => find (fun u => user_id u =? userId) (allUsers userRecords)
  | None => None
  end.

(** ** POST /api/friends/accept *)

Record AcceptReq := mkAcceptReq {
  fa_accepterId : option Z;
  fa_requesterId : option Z
}.

Definition includes (l : list Z) (x : Z) : bool := existsb (Z.eqb x) l.

(** [u.friendRequests = (u.friendRequests || []).filter(req => req.from !== requesterId)] *)
Definition drop_requests_from (requesterId : Z) (u : User) : User :=
  set_friendRequests u
    (Some (filter (fun req => negb (req_from req =? requesterId))
             (match friendRequests u with Some rs => rs | None => [] end))).

(** [if (!u.friends) u.friends = []] *)
Definition init_friends (u : User) : User :=
  match friends u with
  | Some _ => u
  | None => set_friends u (Some [])
  end.

(** [if (!u.friends.includes(friendId)) u.friends.push(friendId)], on an
    account whose [friends] has been initialised. *)
Definition add_friend (friendId : Z) (u : User) : User :=
  match friends u with
  | Some fs =>
      if includes fs friendId then u else set_friends u (Some (fs ++ [friendId]))
  | None => u
  end.

(** The in-memory edits of the handler, in source order. *)
Definition accept_edits (recs : BinRecords) (accepter requester : Located)
  (accepterId requesterId : Z) : BinRecords :=
  let recs := modify_located recs accepter (drop_requests_from requesterId) in
  let recs := modify_located recs accepter init_friends in
  let recs := modify_located recs requester init_friends in
  let recs := modify_located recs accepter (add_friend requesterId) in
  modify_located recs requester (add_friend accepterId).

Definition friends_accept (env : Env) (req : AcceptReq) (w : World)
  : Reply * World :=
  match truthy (fa_accepterId req), truthy (fa_requesterId req) with
  | Some accepterId, Some requesterId =>
      try_catch
        (userRecords <- fetchAllUserRecordsM ;;
         match findUserAndBin userRecords accepterId,
               findUserAndBin userRecords requesterId with
         | Some accepterBinData, Some requesterBinData =>
             _ <- or_throw
                    (located_account (binRecords userRecords) accepterBinData) ;;
             _ <- or_throw
                    (located_account (binRecords userRecords) requesterBinData) ;;
             let recs :=
               accept_edits (binRecords userRecords) accepterBinData
                 requesterBinData accepterId requesterId in
             let putPromises :=
               put_users recs (binId accepterBinData)
               :: (if String.eqb (binId accepterBinData) (binId requesterBinData)
                   then []
                   else [put_users recs (binId requesterBinData)]) in
             _ <- put_all env putPromises ;;
             ret (mkReply 200 true "Friend request accepted." NoExtra)
         | _, _ => respond (mkReply 404 false "User not found." NoExtra)
         end)
        internal_error w
  | _, _ => (mkReply 400 false "Missing IDs." NoExtra, w)
  end.

(** ** POST /api/creator/pay-fee *)

Definition fee : Z := 1000.

Definition pay_fee (env : Env) (userId : option Z) (w : World)
  : Reply * World :=
  try_catch
    (userRecords <- fetchAllUserRecordsM ;;
     match locate userRecords userId with
     | None => respond (mkReply 404 false "User not found." NoExtra)
     | Some userBinData =>
         payer <- or_throw
                    (located_account (binRecords userRecords) userBinData) ;;
         if authTokens payer <? fee
         then respond (mkReply 400 false "Not enough AuthTokens." NoExtra)
         else
           let recs :=
             modify_located (binRecords userRecords) userBinData (debit fee) in
           _ <- put_all env [put_users recs (binId userBinData)] ;;
           payer' <- or_throw (located_account recs userBinData) ;;
           ret (mkReply 200 true "Payment successful!"
                  (NewAuthTokens (authTokens payer')))
     end)
    internal_error w.

(** ** The purchase handlers *)

(** [String.prototype.toLowerCase] on ASCII letters. *)
Definition lower_ascii (c : Ascii.ascii) : Ascii.ascii :=
  let n := Ascii.nat_of_ascii c in
  if (Nat.leb 65 n && Nat.leb n 90)%bool
  then Ascii.ascii_of_nat (n + 32)
  else c.

Fixpoint toLowerCase (s : string) : string :=
  match s with
  | EmptyString => EmptyString
  | String c rest => String (lower_ascii c) (toLowerCase rest)
  end.

(** [allUsers.find(u => u.username.toLowerCase() === name)] *)
Definition find_by_username (name : string) (us : list User) : option User :=
  find (fun u => String.eqb (toLowerCase (username u)) name) us.

(** [await fetch(PUT users of the bin)] on its own. *)
Definition put_bin (env : Env) (recs : BinRecords) (b : string) : M unit :=
  _ <- put_all env [put_users recs b] ;; ret tt.

(** [(await res.json()).record.key || []]: throws when [record] is missing. *)
Definition record_required {A : Type} (key : Document -> option (list A))
  (res : bool * option Body) : M (list A) :=
  d <- json res ;;
  r <- record_of d ;;
  doc <- or_throw r ;;
  ret match key doc with Some l => l | None => [] end.

(** [board.find(u => u.id === id)] then [entry.amount += amount], or
    [board.push({ id, username, amount })]; [username] is only evaluated
    for the push, where it may throw. *)
Definition accumulate (board : list BoardEntry) (key : Z)
  (name : option string) (amount : Z) : M (list BoardEntry) :=
  match findIndex (fun e => entry_id e =? key) board with
  | Some i =>
      ret (update_nth i
             (fun e =>
                mkBoardEntry (entry_id e) (entry_username e)
                  (entry_amount e + amount))
             board)
  | None =>
      n <- or_throw name ;;
      ret (board ++ [mkBoardEntry key n amount])
  end.

Definition lookup_flag (g : list (string * bool)) (k : string) : bool :=
  match find (fun kv => String.eqb (fst kv) k) g with
  | Some (_, v) => v
  | None => false
  end.

Definition owns_score_multiplier (u : User) : bool :=
  match gamepasses u with
  | Some g => lookup_flag g "floorislava_x2_score"
  | None => false
  end.

(** [if (!u.gamepasses) u.gamepasses = {}; u.gamepasses[k] = true] *)
Definition grant_score_multiplier (u : User) : User :=
  set_gamepasses u
    (Some (map_set (match gamepasses u with Some g => g | None => [] end)
             "floorislava_x2_score" true)).

Section Purchases.

(** [Math.floor(price * 0.35)], [Math.floor(price * 0.05)] and
    [Math.floor(price * 0.70)]: floors of products of IEEE doubles, which
    the integers do not determine; they stay parameters. *)
Variables floor_035 floor_005 floor_070 : Z -> Z.

(** *** POST /api/games/purchase-gamepass *)

Record GamepassReq := mkGamepassReq {
  pg_userId : option Z;
  pg_gameId : option string;
  pg_gamepassId : option string;
  pg_price : option Z
}.

(** The bin of the game's passes: [gamepassBinUrl], or no game. *)
Definition gamepass_bin (gameId : string) : option string :=
  if String.eqb gameId "dodge-the-blocks" then Some DODGE_GAMEPASS_BIN_ID
  else if String.eqb gameId "floor-is-lava" then Some FLOORISLAVA_GAMEPASS_BIN_ID
  else None.

(** "Process transaction": the buyer pays [price], the owner's account (looked
    up again by id) receives both cuts. *)
Definition gamepass_transaction (recs : BinRecords) (buyerBinData : Located)
  (ownerBinData : User) (price : Z) : BinRecords * option Located :=
  let recs := modify_located recs buyerBinData (debit price) in
  let ownerCut := floor_035 price in
  let platformCut := floor_005 price in
  let ownerRecord := findUserAndBin_entries recs (user_id ownerBinData) in
  (match ownerRecord with
   | Some o => modify_located recs o (credit (ownerCut + platformCut))
   | None => recs
   end, ownerRecord).

(** "Record gamepass ownership". *)
Definition record_ownership (allOwnership : list Ownership) (userId : Z)
  (gamepassId : string) : list Ownership :=
  match findIndex (fun o => own_userId o =? userId) allOwnership with
  | Some i =>
      update_nth i
        (fun o =>
           if existsb (String.eqb gamepassId) (own_gamepasses o) then o
           else mkOwnership (own_userId o) (own_gamepasses o ++ [gamepassId]))
        allOwnership
  | None => allOwnership ++ [mkOwnership userId [gamepassId]]
  end.

(** The handler from "Process transaction" to its success reply. *)
Definition gamepass_commit (env : Env) (gamepassBin : string)
  (recs : BinRecords) (allOwnership : list Ownership)
  (buyerBinData : Located) (ownerBinData : User)
  (userId : Z) (gamepassId : string) (price : Z) : M Reply :=
  let '(recs, ownerRecord) :=
    gamepass_transaction recs buyerBinData ownerBinData price in
  let allOwnership := record_ownership allOwnership userId gamepassId in
  let savePromises :=
    [put_users recs (binId buyerBinData);
     (gamepassBin, ownership_doc allOwnership)]
    ++ match ownerRecord with
       | Some o =>
           if String.eqb (binId o) (binId buyerBinData) then []
           else [put_users recs (binId o)]
       | None => []
       end in
  _ <- put_all env savePromises ;;
  buyer' <- or_throw (located_account recs buyerBinData) ;;
  ret (mkReply 200 true "Purchase successful!"
         (NewAuthTokens (authTokens buyer'))).

Definition purchase_gamepass (env : Env) (req : GamepassReq) (w : World)
  : Reply * World :=
  match truthy (pg_userId req), truthy (pg_gameId req),
        truthy (pg_gamepassId req), truthy (pg_price req) with
  | Some userId, Some gameId, Some gamepassId, Some price =>
      try_catch
        (gamepassBin <-
           match gamepass_bin gameId with
           | Some b => ret b
           | None => respond (mkReply 404 false
                                "Game not found for gamepass system." NoExtra)
           end ;;
         userRecords <- fetchAllUserRecordsM ;;
         gamepassRes <- fetch_latest gamepassBin ;;
         gamepassData <- json gamepassRes ;;
         allOwnership <- record_list doc_ownership gamepassData ;;
         match findUserAndBin userRecords userId,
               find_by_username "madeonice" (allUsers userRecords) with
         | None, _ => respond (mkReply 404 false "Buyer not found." NoExtra)
         | Some _, None =>
             respond (mkReply 500 false "Game owner not found." NoExtra)
         | Some buyerBinData, Some ownerBinData =>
             (* const { ..., user: buyer } = buyerBinData; buyer.authTokens *)
             buyer <- or_throw (Located_user buyerBinData) ;;
             if authTokens buyer <? price
             then respond (mkReply 400 false "Insufficient AuthTokens." NoExtra)
             else
               gamepass_commit env gamepassBin (binRecords userRecords)
                 allOwnership buyerBinData ownerBinData userId gamepassId price
         end)
        internal_error w
  | _, _, _, _ => (mkReply 400 false "Missing purchase details." NoExtra, w)
  end.

(** *** POST /api/authdonate/purchase *)

Record DonateReq := mkDonateReq {
  ad_buyerId : option Z;
  ad_gamepassId : option Z
}.

(** "Transaction Logic": the buyer pays the price, the pass owner receives
    [ownerCut]; [platformCut] goes to madeonice's account when that account
    lies in another bin than the owner's, and to the owner's account when
    madeonice lies in the owner's bin. *)
Definition authdonate_transaction (recs : BinRecords)
  (buyerBinData ownerBinData : Located) (madeoniceBinData : option Located)
  (price : Z) : BinRecords :=
  let ownerCut := floor_070 price in
  let platformCut := price - ownerCut in
  let recs := modify_located recs buyerBinData (debit price) in
  let recs := modify_located recs ownerBinData (credit ownerCut) in
  match madeoniceBinData with
  | Some m =>
      if String.eqb (binId ownerBinData) (binId m)
      then modify_located recs ownerBinData (credit platformCut)
      else modify_located recs m (credit platformCut)
  | None => recs
  end.

(** The handler from "Transaction Logic" to its success reply; [buyer] is the
    destructured [user] of the buyer's record. *)
Definition authdonate_commit (env : Env) (recs : BinRecords)
  (donatedBoard raisedBoard : list BoardEntry)
  (buyerBinData ownerBinData : Located) (madeoniceBinData : option Located)
  (buyer : User) (buyerId : Z) (gamepass : Gamepass) : M Reply :=
  let owner := Located_user ownerBinData in
  let recs :=
    authdonate_transaction recs buyerBinData ownerBinData madeoniceBinData
      (gp_price gamepass) in
  donatedBoard <- accumulate donatedBoard buyerId (Some (username buyer))
                    (gp_price gamepass) ;;
  raisedBoard <- accumulate raisedBoard (gp_ownerId gamepass)
                   (option_map username owner) (gp_price gamepass) ;;
  let savePromises :=
    [put_users recs (binId buyerBinData);
     put_users recs (binId ownerBinData);
     (DONATED_LEADERBOARD_BIN_ID, donated_doc donatedBoard);
     (RAISED_LEADERBOARD_BIN_ID, raised_doc raisedBoard)]
    ++ match madeoniceBinData with
       | Some m =>
           if (negb (String.eqb (binId m) (binId buyerBinData))
               && negb (String.eqb (binId m) (binId ownerBinData)))%bool
           then [put_users recs (binId m)]
           else []
       | None => []
       end in
  _ <- put_all env savePromises ;;
  seller <- or_throw (option_map username owner) ;;
  broadcast (mkDonation (username buyer) seller (gp_price gamepass)) ;;;
  buyer' <- or_throw (located_account recs buyerBinData) ;;
  ret (mkReply 200 true "Purchase successful!"
         (NewAuthTokens (authTokens buyer'))).

Definition authdonate_purchase (env : Env) (req : DonateReq) (w : World)
  : Reply * World :=
  match truthy (ad_buyerId req), truthy (ad_gamepassId req) with
  | Some buyerId, Some gamepassId =>
      try_catch
        (userRecords <- fetchAllUserRecordsM ;;
         gpRes <- fetch_latest AUTHDONATE_GAMEPASS_BIN_ID ;;
         donatedRes <- fetch_latest DONATED_LEADERBOARD_BIN_ID ;;
         raisedRes <- fetch_latest RAISED_LEADERBOARD_BIN_ID ;;
         allGamepasses <- record_required doc_gamepasses gpRes ;;
         donatedBoard <- record_required doc_donated donatedRes ;;
         raisedBoard <- record_required doc_raised raisedRes ;;
         match find (fun gp => gp_id gp =? gamepassId) allGamepasses with
         | None => respond (mkReply 404 false "Gamepass not found." NoExtra)
         | Some gamepass =>
             let madeoniceBinData :=
               match find_by_username "madeonice" (allUsers userRecords) with
               | Some madeonice => findUserAndBin userRecords (user_id madeonice)
               | None => None
               end in
             match findUserAndBin userRecords buyerId,
                   findUserAndBin userRecords (gp_ownerId gamepass) with
             | Some buyerBinData, Some ownerBinData =>
                 (* const { ..., user: buyer } = buyerBinData; buyer.authTokens *)
                 buyer <- or_throw (Located_user buyerBinData) ;;
                 if authTokens buyer <? gp_price gamepass
                 then respond
                        (mkReply 400 false "Insufficient AuthTokens." NoExtra)
                 else
                   authdonate_commit env (binRecords userRecords) donatedBoard
                     raisedBoard buyerBinData ownerBinData madeoniceBinData
                     buyer buyerId gamepass
             | _, _ => respond (mkReply 404 false "User not found." NoExtra)
             end
         end)
        (mkReply 500 false "Server error during purchase." NoExtra) w
  | _, _ => (mkReply 400 false "Missing data." NoExtra, w)
  end.

(** *** POST /api/floorislava/purchase-score-multiplier *)

Definition score_multiplier_price : Z := 2000.

Definition floorislava_commit (env : Env) (userRecords : UserRecords)
  (buyerData : Located) (creatorData platformOwnerData : User) : M Reply :=
  let price := score_multiplier_price in
  let creatorCut := 1000 in
  let platformCut := price - creatorCut in
  let recs := modify_located (binRecords userRecords) buyerData (debit price) in
  let recs := modify_located recs buyerData grant_score_multiplier in
  let creatorBinData := findUserAndBin_entries recs (user_id creatorData) in
  let recs :=
    match creatorBinData with
    | Some c => modify_located recs c (credit creatorCut)
    | None => recs
    end in
  let platformBinData :=
    findUserAndBin_entries recs (user_id platformOwnerData) in
  let recs :=
    match platformBinData with
    | Some p => modify_located recs p (credit platformCut)
    | None => recs
    end in
  put_bin env recs (binId buyerData) ;;;
  match creatorBinData with
  | Some c =>
      if String.eqb (binId c) (binId buyerData) then ret tt
      else put_bin env recs (binId c)
  | None => ret tt
  end ;;;
  match platformBinData with
  | Some p =>
      if String.eqb (binId p) (binId buyerData) then ret tt
      else
        (* platformBinData.binId !== creatorBinData.binId *)
        c <- or_throw creatorBinData ;;
        if String.eqb (binId p) (binId c) then ret tt
        else put_bin env recs (binId p)
  | None => ret tt
  end ;;;
  buyer' <- or_throw (located_account recs buyerData) ;;
  ret (mkReply 200 true "Gamepass purchased successfully!"
         (NewAuthTokens (authTokens buyer'))).

Definition floorislava_purchase (env : Env) (userId : option Z) (w : World)
  : Reply * World :=
  match truthy userId with
  | Some userId =>
      try_catch
        (userRecords <- fetchAllUserRecordsM ;;
         match findUserAndBin userRecords userId with
         | None => respond (mkReply 404 false "Buyer not found." NoExtra)
         | Some buyerData =>
             (* buyerData.user.authTokens *)
             buyer <- or_throw (Located_user buyerData) ;;
             if authTokens buyer <? score_multiplier_price
             then respond (mkReply 400 false "Insufficient AuthTokens." NoExtra)
             else if owns_score_multiplier buyer
             then respond
                    (mkReply 400 false "You already own this gamepass." NoExtra)
             else
               match find_by_username "jasquire" (allUsers userRecords),
                     find_by_username "madeonice" (allUsers userRecords) with
               | Some creatorData, Some platformOwnerData =>
                   floorislava_commit env userRecords buyerData creatorData
                     platformOwnerData
               | _, _ =>
                   respond
                     (mkReply 500 false
                        "Game creator or platform owner account not found."
                        NoExtra)
               end
         end)
        internal_error w
  | None => (mkReply 400 false "User ID is required." NoExtra, w)
  end.

End Purchases.

(** * Further handlers of the registry *)

(** ** isAdmin *)

(** [if (!userId) return false]; a failed read is caught and answers
    [false]; [user && ...] is falsy when no account has the id. *)
Definition isAdmin (userId : option Z) (w : World) : bool :=
  match truthy userId with
  | None => false
  | Some userId =>
      match fetchAllUserRecords w with
      | None => false
      | Some userRecords =>
          match find (fun u => user_id u =? userId) (allUsers userRecords) with
          | Some user => String.eqb (toLowerCase (username user)) "madeonice"
          | None => false
          end
      end
  end.

Definition unauthorized : Reply :=
  mkReply 403 false "Unauthorized: Admin access required." NoExtra.

(** [await fetch(`${GROUPS_URL}/latest`)], the [ok] check, [res.json()] and
    [(record && record.groups) ? record.groups : []]. *)
Definition fetch_groups : M (list Group) :=
  groupsRes <- fetch_latest USER_GROUPS_BIN_ID ;;
  if negb (fst groupsRes) then throw else
  groupsData <- json groupsRes ;;
  record_list doc_groups groupsData.

(** [await fetch(GROUPS_URL, { method: 'PUT', body: { groups } })], whose
    response the group handlers do not read. *)
Definition put_groups (env : Env) (allGroups : list Group) : M unit :=
  _ <- put_all env [(USER_GROUPS_BIN_ID, groups_doc allGroups)] ;; ret tt.

(** ** DELETE /api/groups/:id *)

(** [groupId] is [parseInt(req.params.id)]; [None] stands for [NaN], which
    no id equals. *)
Definition id_is (groupId : option Z) (i : Z) : bool :=
  match groupId with
  | Some k => i =? k
  | None => false
  end.

Definition groups_delete (env : Env) (adminId : option Z) (groupId : option Z)
  (w : World) : Reply * World :=
  if negb (isAdmin adminId w) then (unauthorized, w)
  else
    try_catch
      (allGroups <- fetch_groups ;;
       let updatedGroups :=
         filter (fun g => negb (id_is groupId (group_id g))) allGroups in
       put_groups env updatedGroups ;;;
       ret (mkReply 200 true "Group deleted successfully." NoExtra))
      internal_error w.

(** ** POST /api/groups/:id/join *)

Definition set_members (g : Group) (members : list Z) : Group :=
  mkGroup (group_id g) (group_name g) (group_description g) (group_iconUrl g)
    (group_ownerId g) members (group_createdAt g).

Definition groups_join (env : Env) (userId : option Z) (groupId : option Z)
  (w : World) : Reply * World :=
  match truthy userId with
  | None => (mkReply 400 false "User ID is required." NoExtra, w)
  | Some userId =>
      try_catch
        (allGroups <- fetch_groups ;;
         match findIndex (fun g => id_is groupId (group_id g)) allGroups with
         | None => respond (mkReply 404 false "Group not found." NoExtra)
         | Some groupIndex =>
             group <- or_throw (nth_error allGroups groupIndex) ;;
             if includes (group_members group) userId
             then respond (mkReply 400 false "User is already a member." NoExtra)
             else
               let allGroups :=
                 update_nth groupIndex
                   (fun g => set_members g (group_members g ++ [userId]))
                   allGroups in
               put_groups env allGroups ;;;
               ret (mkReply 200 true "Successfully joined the group." NoExtra)
         end)
        internal_error w
  end.

(** ** PUT /api/groups/:id/update *)

Record UpdateGroupReq := mkUpdateGroupReq {
  ug_ownerId : option Z;
  ug_name : option string;
  ug_description : option string;
  ug_iconUrl : option string
}.

Definition set_details (name description iconUrl : string) (g : Group) : Group :=
  mkGroup (group_id g) name description iconUrl (group_ownerId g)
    (group_members g) (group_createdAt g).

Definition groups_update (env : Env) (req : UpdateGroupReq)
  (groupId : option Z) (w : World) : Reply * World :=
  match truthy (ug_ownerId req), truthy (ug_name req),
        ug_description req, ug_iconUrl req with
  | Some ownerId, Some name, Some description, Some iconUrl =>
      try_catch
        (allGroups <- fetch_groups ;;
         match findIndex (fun g => id_is groupId (group_id g)) allGroups with
         | None => respond (mkReply 404 false "Group not found." NoExtra)
         | Some groupIndex =>
             group <- or_throw (nth_error allGroups groupIndex) ;;
             if negb (group_ownerId group =? ownerId)
             then respond
                    (mkReply 403 false
                       "Unauthorized: You are not the owner of this group."
                       NoExtra)
             else
               let allGroups :=
                 update_nth groupIndex (set_details name description iconUrl)
                   allGroups in
               put_groups env allGroups ;;;
               ret (mkReply 200 true "Group details updated successfully."
                      NoExtra)
         end)
        internal_error w
  | _, _, _, _ =>
      (mkReply 400 false "Missing required fields for update." NoExtra, w)
  end.

(** ** POST /api/friends/request *)

Record FriendReq := mkFriendReq {
  fr_senderId : option Z;
  fr_receiverId : option Z
}.

(** [if (!u.friendRequests) u.friendRequests = []] *)
Definition init_friendRequests (u : User) : User :=
  match friendRequests u with
  | Some _ => u
  | None => set_friendRequests u (Some [])
  end.

(** [u.friendRequests.push({ from, fromUsername })], on an account whose
    [friendRequests] has been initialised. *)
Definition push_request (r : FriendRequest) (u : User) : User :=
  match friendRequests u with
  | Some rs => set_friendRequests u (Some (rs ++ [r]))
  | None => u
  end.

Definition friends_request (env : Env) (req : FriendReq) (w : World)
  : Reply * World :=
  match truthy (fr_senderId req), truthy (fr_receiverId req) with
  | Some senderId, Some receiverId =>
      try_catch
        (userRecords <- fetchAllUserRecordsM ;;
         match find (fun u => user_id u =? senderId) (allUsers userRecords),
               findUserAndBin userRecords receiverId with
         | Some sender, Some receiverBinData =>
             _ <- or_throw
                    (located_account (binRecords userRecords) receiverBinData) ;;
             let recs :=
               modify_located (binRecords userRecords) receiverBinData
                 init_friendRequests in
             let recs := modify_located recs receiverBinData init_friends in
             receiver <- or_throw (located_account recs receiverBinData) ;;
             if includes (match friends receiver with Some fs => fs | None => [] end)
                  senderId
             then respond (mkReply 400 false "You are already friends." NoExtra)
             else if existsb (fun r => req_from r =? senderId)
                       (match friendRequests receiver with
                        | Some rs => rs
                        | None => []
                        end)
             then respond (mkReply 400 false "Request already sent." NoExtra)
             else
               let recs :=
                 modify_located recs receiverBinData
                   (push_request
                      (mkFriendRequest (user_id sender) (username sender))) in
               _ <- put_all env [put_users recs (binId receiverBinData)] ;;
               ret (mkReply 200 true "Friend request sent." NoExtra)
         | _, _ => respond (mkReply 404 false "User not found." NoExtra)
         end)
        internal_error w
  | _, _ => (mkReply 400 false "Missing IDs." NoExtra, w)
  end.

(** ** POST /api/friends/decline *)

Record DeclineReq := mkDeclineReq {
  fd_declinerId : option Z;
  fd_requesterId : option Z
}.

Definition friends_decline (env : Env) (req : DeclineReq) (w : World)
  : Reply * World :=
  match truthy (fd_declinerId req), truthy (fd_requesterId req) with
  | Some declinerId, Some requesterId =>
      try_catch
        (userRecords <- fetchAllUserRecordsM ;;
         match findUserAndBin userRecords declinerId with
         | None => respond (mkReply 404 false "User not found." NoExtra)
         | Some declinerBinData =>
             _ <- or_throw
                    (located_account (binRecords userRecords) declinerBinData) ;;
             let recs :=
               modify_located (binRecords userRecords) declinerBinData
                 (drop_requests_from requesterId) in
             _ <- put_all env [put_users recs (binId declinerBinData)] ;;
             ret (mkReply 200 true "Friend request declined." NoExtra)
         end)
        internal_error w
  | _, _ => (mkReply 400 false "Missing IDs." NoExtra, w)
  end.

(** ** /api/authdonate/create and /api/authdonate/list/:userId *)

Record CreatePassReq := mkCreatePassReq {
  cp_userId : option Z;
  cp_name : option string;
  cp_price : option Z
}.

Definition gamepasses_doc (gps : list Gamepass) : Document :=
  mkDocument None None None (Some gps) None None.

(** [await fetch(`${AUTHDONATE_GAMEPASS_URL}/latest`)], [res.json()] with no
    look at [ok], and [(record && record.gamepasses) ? ... : []]. *)
Definition fetch_gamepasses : M (list Gamepass) :=
  gpRes <- fetch_latest AUTHDONATE_GAMEPASS_BIN_ID ;;
  gpData <- json gpRes ;;
  record_list doc_gamepasses gpData.

(** [dateNow] is the [Date.now()] of the request; the price is a number, so
    that [parseInt(price)] is the price. *)
Definition authdonate_create (env : Env) (dateNow : Z) (req : CreatePassReq)
  (w : World) : Reply * World :=
  match truthy (cp_userId req), truthy (cp_name req), truthy (cp_price req) with
  | Some userId, Some name, Some price =>
      if price <=? 0
      then (mkReply 400 false "Missing or invalid data." NoExtra, w)
      else
        try_catch
          (allGamepasses <- fetch_gamepasses ;;
           let newGamepass := mkGamepass dateNow userId name price in
           _ <- put_all env
                  [(AUTHDONATE_GAMEPASS_BIN_ID,
                    gamepasses_doc (allGamepasses ++ [newGamepass]))] ;;
           ret (mkReply 200 true "Gamepass created successfully!" NoExtra))
          (mkReply 500 false "Server error creating gamepass." NoExtra) w
  | _, _, _ => (mkReply 400 false "Missing or invalid data." NoExtra, w)
  end.

(** The answer of the list endpoint: the passes, or an error reply. *)
Inductive PassList :=
| Passes (gamepasses : list Gamepass)
| NoPasses (error : Reply).

(** [userId] is [parseInt(req.params.userId)]; [None] stands for [NaN]. *)
Definition authdonate_list (userId : option Z) (w : World) : PassList :=
  match truthy userId with
  | None => NoPasses (mkReply 400 false "Invalid User ID." NoExtra)
  | Some userId =>
      match fetch_gamepasses w with
      | (Next allGamepasses, _) =>
          Passes (filter (fun gp => gp_ownerId gp =? userId) allGamepasses)
      | (Respond r, _) => NoPasses r
      | (Raise, _) =>
          NoPasses (mkReply 500 false "Server error fetching gamepasses." NoExtra)
      end
  end.

(* ================================================================= *)
(** * Features with a bin of their own *)

(** The applications, the game submissions, the published games, the hangman
    lobbies and the .imac websites each live in one bin that holds one array
    under one key.  [BinFetch A] is what a read of such a bin yields: the
    request rejects, or resolves to a response with its [ok] flag and a body
    that parses or not; a body is JSON [null] or an object, whose [record]
    may be missing and, when present, may lack the array.  The handlers of
    this part are run with no other writer between their read and their
    write. *)
Inductive BinBody (A : Type) :=
| BinNull
| BinObject (record : option (option (list A))).

Inductive BinFetch (A : Type) :=
| BinRejected
| BinResolved (ok : bool) (json : option (BinBody A)).

Arguments BinNull {A}.
Arguments BinObject {A} record.
Arguments BinRejected {A}.
Arguments BinResolved {A} ok json.

(** [await fetch(`${url}/latest`)] and [await res.json()], with
    [if (!res.ok) throw] in between where the handler has it; [None] when
    one of them throws. *)
Definition fetch_json {A : Type} (check_ok : bool) (w : BinFetch A)
  : option (BinBody A) :=
  match w with
  | BinRejected => None
  | BinResolved ok json => if (check_ok && negb ok)%bool then None else json
  end.

(** [(data.record && data.record.key) ? data.record.key : []], which throws
    on [null]. *)
Definition record_guarded {A : Type} (data : BinBody A) : option (list A) :=
  match data with
  | BinNull => None
  | BinObject (Some (Some items)) => Some items
  | BinObject _ => Some []
  end.

(** [data.record.key || []], which throws on [null] and on a missing
    record. *)
Definition record_strict {A : Type} (data : BinBody A) : option (list A) :=
  match data with
  | BinObject (Some (Some items)) => Some items
  | BinObject (Some None) => Some []
  | _ => None
  end.

(** The read with the [ok] check and the guarded access. *)
Definition read_bin {A : Type} (w : BinFetch A) : option (list A) :=
  match fetch_json true w with
  | Some data => record_guarded data
  | None => None
  end.

(** The read with no [ok] check and the strict access. *)
Definition read_bin_strict {A : Type} (w : BinFetch A) : option (list A) :=
  match fetch_json false w with
  | Some data => record_strict data
  | None => None
  end.

(** [fetch(url, { method: 'PUT', body })]: [None] when the promise rejects,
    else the [ok] flag of the response; a stored write replaces the
    payload. *)
Definition write_bin {A : Type} (outcome : PutOutcome) (items : list A)
  (w : BinFetch A) : option bool * BinFetch A :=
  match outcome with
  | PutStored =>
      (Some true, BinResolved true (Some (BinObject (Some (Some items)))))
  | PutRefused => (Some false, w)
  | PutRejected => (None, w)
  end.

(** [String.prototype.toUpperCase], [includes] and [split('')] on ASCII
    text. *)
Definition upper_ascii (c : Ascii.ascii) : Ascii.ascii :=
  let n := Ascii.nat_of_ascii c in
  if (Nat.leb 97 n && Nat.leb n 122)%bool
  then Ascii.ascii_of_nat (n - 32)
  else c.

Fixpoint toUpperCase (s : string) : string :=
  match s with
  | EmptyString => EmptyString
  | String c rest => String (upper_ascii c) (toUpperCase rest)
  end.

Fixpoint string_includes (s sub : string) : bool :=
  (String.prefix sub s
   || match s with
      | EmptyString => false
      | String _ rest => string_includes rest sub
      end)%bool.

Fixpoint split_chars (s : string) : list string :=
  match s with
  | EmptyString => []
  | String c rest => String c EmptyString :: split_chars rest
  end.

(** [Array.prototype.includes] on an array of strings. *)
Definition array_includes (l : list string) (x : string) : bool :=
  existsb (String.eqb x) l.

(** ** Hangman *)

Record Player := mkPlayer {
  player_id : Z;
  player_username : string
}.

(** ['host'] or ['guest']. *)
Inductive Turn := host_turn | guest_turn.

(** ['waiting'], ['choosing_word'], ['playing'], ['finished']. *)
Inductive LobbyState := waiting | choosing_word | playing | finished.

Record Lobby := mkLobby {
  lobby_code : string;
  lobby_host : Player;
  lobby_guest : option Player;
  lobby_word : string;
  guessedLetters : list string;
  wrongGuesses : Z;
  lobby_turn : Turn;
  lobby_state : LobbyState;
  lobby_winner : option Turn
}.

(** The answers: an error status with its message, 201 with the code of the
    new lobby, 200 with a lobby, 200 with a message. *)
Inductive HangmanReply :=
| HangmanError (status : Z) (message : string)
| LobbyCreated (lobbyCode : string)
| LobbyShown (lobby : Lobby)
| HangmanDone (message : string).

Definition getHangmanLobbies (w : BinFetch Lobby) : option (list Lobby) :=
  read_bin w.

(** [None] when it throws: the request failed, or [!res.ok]. *)
Definition updateHangmanLobbies (outcome : PutOutcome) (lobbies : list Lobby)
  (w : BinFetch Lobby) : option unit * BinFetch Lobby :=
  match write_bin outcome lobbies w with
  | (Some true, w') => (Some tt, w')
  | (_, w') => (None, w')
  end.

(** POST /create-lobby; [lobbyCode] is the code the handler draws,
    [Math.floor(1000 + Math.random() * 9000).toString()]. *)
Definition hangman_create_lobby (outcome : PutOutcome) (lobbyCode : string)
  (userId : option Z) (username : option string) (w : BinFetch Lobby)
  : HangmanReply * BinFetch Lobby :=
  match truthy userId, truthy username with
  | Some userId, Some username =>
      match getHangmanLobbies w with
      | None => (HangmanError 500 "Server error creating lobby.", w)
      | Some lobbies =>
          let newLobby :=
            mkLobby lobbyCode (mkPlayer userId username) None "" [] 0
              host_turn waiting None in
          match updateHangmanLobbies outcome (lobbies ++ [newLobby]) w with
          | (Some _, w') => (LobbyCreated lobbyCode, w')
          | (None, w') => (HangmanError 500 "Server error creating lobby.", w')
          end
      end
  | _, _ => (HangmanError 400 "User info required.", w)
  end.

Definition has_code (lobbyCode : string) (l : Lobby) : bool :=
  String.eqb (lobby_code l) lobbyCode.

(** [lobby.guest = { id, username }; lobby.state = 'choosing_word'] *)
Definition seat_guest (userId : Z) (username : string) (l : Lobby) : Lobby :=
  mkLobby (lobby_code l) (lobby_host l) (Some (mkPlayer userId username))
    (lobby_word l) (guessedLetters l) (wrongGuesses l) (lobby_turn l)
    choosing_word (lobby_winner l).

(** POST /join-lobby *)
Definition hangman_join_lobby (outcome : PutOutcome) (userId : option Z)
  (username lobbyCode : option string) (w : BinFetch Lobby)
  : HangmanReply * BinFetch Lobby :=
  match truthy userId, truthy username, truthy lobbyCode with
  | Some userId, Some username, Some lobbyCode =>
      match getHangmanLobbies w with
      | None => (HangmanError 500 "Server error joining lobby.", w)
      | Some lobbies =>
          match findIndex (has_code lobbyCode) lobbies with
          | None => (HangmanError 404 "Lobby not found.", w)
          | Some lobbyIndex =>
              match nth_error lobbies lobbyIndex with
              | None => (HangmanError 500 "Server error joining lobby.", w)
              | Some lobby =>
                  match lobby_guest lobby with
                  | Some _ => (HangmanError 400 "Lobby is full.", w)
                  | None =>
                      let lobbies :=
                        update_nth lobbyIndex (seat_guest userId username)
                          lobbies in
                      match updateHangmanLobbies outcome lobbies w with
                      | (Some _, w') =>
                          (LobbyShown (seat_guest userId username lobby), w')
                      | (None, w') =>
                          (HangmanError 500 "Server error joining lobby.", w')
                      end
                  end
              end
          end
      end
  | _, _, _ => (HangmanError 400 "All fields required.", w)
  end.

(** GET /lobby/:code *)
Definition hangman_lobby (code : string) (w : BinFetch Lobby) : HangmanReply :=
  match getHangmanLobbies w with
  | None => HangmanError 500 "Server error fetching lobby state."
  | Some lobbies =>
      match find (has_code code) lobbies with
      | Some lobby => LobbyShown lobby
      | None => HangmanError 404 "Lobby not found."
      end
  end.

(** [lobby.word = word.toUpperCase(); lobby.state = 'playing';
    lobby.turn = 'guest'] *)
Definition start_game (word : string) (l : Lobby) : Lobby :=
  mkLobby (lobby_code l) (lobby_host l) (lobby_guest l) (toUpperCase word)
    (guessedLetters l) (wrongGuesses l) guest_turn playing (lobby_winner l).

Definition is_state (s s' : LobbyState) : bool :=
  match s, s' with
  | waiting, waiting | choosing_word, choosing_word
  | playing, playing | finished, finished => true
  | _, _ => false
  end.

(** POST /set-word *)
Definition hangman_set_word (outcome : PutOutcome) (userId : option Z)
  (lobbyCode word : option string) (w : BinFetch Lobby)
  : HangmanReply * BinFetch Lobby :=
  match truthy userId, truthy lobbyCode, truthy word with
  | Some userId, Some lobbyCode, Some word =>
      match getHangmanLobbies w with
      | None => (HangmanError 500 "Server error setting word.", w)
      | Some lobbies =>
          match findIndex (has_code lobbyCode) lobbies with
          | None => (HangmanError 404 "Lobby not found.", w)
          | Some lobbyIndex =>
              match nth_error lobbies lobbyIndex with
              | None => (HangmanError 500 "Server error setting word.", w)
              | Some lobby =>
                  if negb (player_id (lobby_host lobby) =? userId)
                  then (HangmanError 403 "Only the host can set the word.", w)
                  else if negb (is_state (lobby_state lobby) choosing_word)
                  then (HangmanError 400 "Game is not in word selection phase.",
                        w)
                  else
                    let lobbies :=
                      update_nth lobbyIndex (start_game word) lobbies in
                    match updateHangmanLobbies outcome lobbies w with
                    | (Some _, w') =>
                        (HangmanDone "Word set, game started.", w')
                    | (None, w') =>
                        (HangmanError 500 "Server error setting word.", w')
                    end
              end
          end
      end
  | _, _, _ => (HangmanError 400 "All fields required.", w)
  end.

Definition other_turn (t : Turn) : Turn :=
  match t with
  | host_turn => guest_turn
  | guest_turn => host_turn
  end.

Definition is_turn (t t' : Turn) : bool :=
  match t, t' with
  | host_turn, host_turn | guest_turn, guest_turn => true
  | _, _ => false
  end.

(** The guess handler from [lobby.guessedLetters.push(upperLetter)] to the
    end of "Check for win/loss". *)
Definition apply_guess (upperLetter : string) (l : Lobby) : Lobby :=
  let guessed := guessedLetters l ++ [upperLetter] in
  let wrong :=
    if negb (string_includes (lobby_word l) upperLetter)
    then wrongGuesses l + 1
    else wrongGuesses l in
  let wordGuessed :=
    forallb (fun c => (array_includes guessed c || String.eqb c " ")%bool)
      (split_chars (lobby_word l)) in
  let maxGuessesReached := 6 <=? wrong in
  if wordGuessed
  then mkLobby (lobby_code l) (lobby_host l) (lobby_guest l) (lobby_word l)
         guessed wrong (lobby_turn l) finished (Some (lobby_turn l))
  else if maxGuessesReached
  then mkLobby (lobby_code l) (lobby_host l) (lobby_guest l) (lobby_word l)
         guessed wrong (lobby_turn l) finished
         (Some (other_turn (lobby_turn l)))
  else mkLobby (lobby_code l) (lobby_host l) (lobby_guest l) (lobby_word l)
         guessed wrong (other_turn (lobby_turn l)) (lobby_state l)
         (lobby_winner l).

(** POST /guess *)
Definition hangman_guess (outcome : PutOutcome) (userId : option Z)
  (lobbyCode letter : option string) (w : BinFetch Lobby)
  : HangmanReply * BinFetch Lobby :=
  match truthy userId, truthy lobbyCode, truthy letter with
  | Some userId, Some lobbyCode, Some letter =>
      match getHangmanLobbies w with
      | None => (HangmanError 500 "Server error processing guess.", w)
      | Some lobbies =>
          match findIndex (has_code lobbyCode) lobbies with
          | None => (HangmanError 404 "Lobby not found.", w)
          | Some lobbyIndex =>
              match nth_error lobbies lobbyIndex with
              | None => (HangmanError 500 "Server error processing guess.", w)
              | Some lobby =>
                  let isHost := player_id (lobby_host lobby) =? userId in
                  let isGuest :=
                    match lobby_guest lobby with
                    | Some guest => player_id guest =? userId
                    | None => false
                    end in
                  if negb (is_state (lobby_state lobby) playing)
                  then (HangmanError 400 "Game is not active.", w)
                  else if ((isHost && negb (is_turn (lobby_turn lobby) host_turn))
                           || (isGuest
                               && negb (is_turn (lobby_turn lobby) guest_turn)))%bool
                  then (HangmanError 403 "It's not your turn.", w)
                  else
                    let upperLetter := toUpperCase letter in
                    if array_includes (guessedLetters lobby) upperLetter
                    then (HangmanError 400 "Letter already guessed.", w)
                    else
                      let lobbies :=
                        update_nth lobbyIndex (apply_guess upperLetter)
                          lobbies in
                      match updateHangmanLobbies outcome lobbies w with
                      | (Some _, w') =>
                          (LobbyShown (apply_guess upperLetter lobby), w')
                      | (None, w') =>
                          (HangmanError 500 "Server error processing guess.", w')
                      end
              end
          end
      end
  | _, _, _ => (HangmanError 400 "All fields required.", w)
  end.

(** ** .imac websites *)

Record Website := mkWebsite {
  site_id : Z;
  site_creatorId : Z;
  site_creatorUsername : string;
  site_name : string;
  site_htmlContent : string;
  site_createdAt : string;
  site_updatedAt : string
}.

(** The answers: an error status with its message, or 200 with a message,
    with all websites, or with the content of one. *)
Inductive ImacReply :=
| ImacError (status : Z) (message : string)
| ImacSaved (message : string)
| ImacAll (websites : list Website)
| ImacContent (htmlContent : string).

(** [String.prototype.endsWith]. *)
Definition endsWith (s suffix : string) : bool :=
  let n := String.length s in
  let m := String.length suffix in
  (Nat.leb m n && String.eqb (String.substring (n - m) m s) suffix)%bool.

Definition double_quote : string :=
  String (Ascii.ascii_of_nat 34) EmptyString.

Record SiteReq := mkSiteReq {
  sr_creatorId : option Z;
  sr_creatorUsername : option string;
  sr_name : option string;
  sr_htmlContent : option string
}.

(** [site.htmlContent = htmlContent; site.updatedAt = new Date().toISOString()] *)
Definition rewrite_site (htmlContent updatedAt : string) (s : Website)
  : Website :=
  mkWebsite (site_id s) (site_creatorId s) (site_creatorUsername s)
    (site_name s) htmlContent (site_createdAt s) updatedAt.

Definition named (name : string) (s : Website) : bool :=
  String.eqb (site_name s) name.

(** The handler from [allWebsites.findIndex] to the end of its [if]/[else]:
    the first website of the name is rewritten in place, or a new one is
    pushed. *)
Definition upsert_site (dateNow : Z) (isoNow isoLater : string) (creatorId : Z)
  (creatorUsername name htmlContent : string) (allWebsites : list Website)
  : list Website :=
  match findIndex (named name) allWebsites with
  | Some existingIndex =>
      update_nth existingIndex (rewrite_site htmlContent isoNow) allWebsites
  | None =>
      allWebsites
      ++ [mkWebsite dateNow creatorId creatorUsername name htmlContent isoNow
            isoLater]
  end.

(** POST /create.  [dateNow] is the [Date.now()] of the request, [isoNow] and
    [isoLater] its first and second [new Date().toISOString()]. *)
Definition imac_create (outcome : PutOutcome) (dateNow : Z)
  (isoNow isoLater : string) (req : SiteReq) (w : BinFetch Website)
  : ImacReply * BinFetch Website :=
  match truthy (sr_creatorId req), truthy (sr_creatorUsername req),
        truthy (sr_name req), sr_htmlContent req with
  | Some creatorId, Some creatorUsername, Some name, Some htmlContent =>
      if negb (endsWith name ".imac")
      then (ImacError 400
              ("Website name must end with " ++ double_quote ++ ".imac"
               ++ double_quote ++ "."), w)
      else
        match read_bin w with
        | None => (ImacError 500 "An internal server error occurred.", w)
        | Some allWebsites =>
            let allWebsites :=
              upsert_site dateNow isoNow isoLater creatorId creatorUsername
                name htmlContent allWebsites in
            match write_bin outcome allWebsites w with
            | (Some _, w') =>
                (ImacSaved ("Website " ++ double_quote ++ name ++ double_quote
                            ++ " saved successfully."), w')
            | (None, w') =>
                (ImacError 500 "An internal server error occurred.", w')
            end
        end
  | _, _, _, _ => (ImacError 400 "Missing website data.", w)
  end.

(** GET /all *)
Definition imac_all (w : BinFetch Website) : ImacReply :=
  match read_bin w with
  | None => ImacError 500 "An internal server error occurred."
  | Some allWebsites => ImacAll allWebsites
  end.

(** GET /:name *)
Definition imac_get (websiteName : string) (w : BinFetch Website) : ImacReply :=
  match read_bin w with
  | None => ImacError 500 "An internal server error occurred."
  | Some allWebsites =>
      match find (named websiteName) allWebsites with
      | Some website => ImacContent (site_htmlContent website)
      | None => ImacError 404 "Website not found."
      end
  end.

(** DELETE /:name *)
Definition imac_delete (websiteName : string) (w : BinFetch Website)
  : ImacReply * BinFetch Website :=
  (ImacError 501 "Deletion not yet implemented on backend.", w).

(** ** Applications *)

(** The answers of an applicant are an array or object the server never
    looks into; it is truthy whenever it is present. *)
Record Application := mkApplication {
  app_userId : Z;
  app_username : string;
  app_answers : list string;
  app_status : string;
  app_retries : option Z;
  app_submittedAt : string
}.

(** The answers: an error status with its message, or 200 with a status and
    the retries, or with a message. *)
Inductive ApplicationReply :=
| ApplicationError (status : Z) (message : string)
| ApplicationStatus (status : string) (retries : Z)
| ApplicationDone (message : string).

Definition applied_by (userId : Z) (a : Application) : bool :=
  app_userId a =? userId.

(** [app.retries || 0] *)
Definition retries_or_0 (a : Application) : Z :=
  match app_retries a with
  | Some r => r
  | None => 0
  end.

(** GET /api/applications/status/:userId; [userId] is
    [parseInt(req.params.userId)], [None] standing for [NaN]. *)
Definition applications_status (userId : option Z) (w : BinFetch Application)
  : ApplicationReply :=
  match truthy userId with
  | None => ApplicationError 400 "User ID required."
  | Some userId =>
      match read_bin w with
      | None => ApplicationError 500 "An internal server error occurred."
      | Some allApps =>
          match find (applied_by userId) allApps with
          | Some userApp =>
              ApplicationStatus (app_status userApp) (retries_or_0 userApp)
          | None => ApplicationStatus "not_submitted" 0
          end
      end
  end.

(** [app.status === 'denied' && app.retries < 2]; a missing [retries] is not
    below 2. *)
Definition may_reapply (a : Application) : bool :=
  (String.eqb (app_status a) "denied"
   && match app_retries a with
      | Some r => r <? 2
      | None => false
      end)%bool.

(** [app.status = 'pending'; app.answers = answers;
    app.submittedAt = new Date().toISOString()] *)
Definition reapply (answers : list string) (isoNow : string) (a : Application)
  : Application :=
  mkApplication (app_userId a) (app_username a) answers "pending"
    (app_retries a) isoNow.

(** POST /api/applications/submit *)
Definition applications_submit (outcome : PutOutcome) (isoNow : string)
  (userId : option Z) (username : option string)
  (answers : option (list string)) (w : BinFetch Application)
  : ApplicationReply * BinFetch Application :=
  match truthy userId, truthy username, answers with
  | Some userId, Some username, Some answers =>
      match read_bin w with
      | None => (ApplicationError 500 "An internal server error occurred.", w)
      | Some allApps =>
          let save (allApps : list Application) :=
            match write_bin outcome allApps w with
            | (Some _, w') =>
                (ApplicationDone "Application submitted successfully.", w')
            | (None, w') =>
                (ApplicationError 500 "An internal server error occurred.", w')
            end in
          match findIndex (applied_by userId) allApps with
          | Some existingAppIndex =>
              match nth_error allApps existingAppIndex with
              | None =>
                  (ApplicationError 500 "An internal server error occurred.", w)
              | Some existing =>
                  if may_reapply existing
                  then save (update_nth existingAppIndex
                               (reapply answers isoNow) allApps)
                  else (ApplicationError 400
                          "You already have a pending or accepted application.",
                        w)
              end
          | None =>
              save (allApps
                    ++ [mkApplication userId username answers "pending"
                          (Some 0) isoNow])
          end
      end
  | _, _, _ => (ApplicationError 400 "Missing application data.", w)
  end.

(** [app.status = decision; if (decision === 'denied')
    app.retries = (app.retries || 0) + 1] *)
Definition decide_application (decision : string) (a : Application)
  : Application :=
  mkApplication (app_userId a) (app_username a) (app_answers a) decision
    (if String.eqb decision "denied" then Some (retries_or_0 a + 1)
     else app_retries a)
    (app_submittedAt a).

Section Decide.

(** [u.isVerified = true]: the accounts of this development carry no such
    field, so the edit is a parameter. *)
Variable verify : User -> User.

(** POST /api/applications/decide, on the registry and the applications
    bin. *)
Definition applications_decide (env : Env) (outcome : PutOutcome)
  (targetUserId : option Z) (decision : option string)
  (st : World * BinFetch Application)
  : ApplicationReply * (World * BinFetch Application) :=
  let '(w, apps) := st in
  let failed := ApplicationError 500 "An internal server error occurred." in
  match truthy targetUserId, truthy decision with
  | Some targetUserId, Some decision =>
      match apps, fetchAllUserRecords w with
      | BinResolved ok json, Some userRecords =>
          if negb ok then (failed, st)
          else
            match json with
            | None => (failed, st)
            | Some appData =>
                match record_strict appData with
                | None => (failed, st)
                | Some allApps =>
                    let userBinData := findUserAndBin userRecords targetUserId in
                    match findIndex (applied_by targetUserId) allApps with
                    | None =>
                        (ApplicationError 404 "Application not found.", st)
                    | Some appIndex =>
                        let allApps :=
                          update_nth appIndex (decide_application decision)
                            allApps in
                        let '(appsPut, apps') :=
                          write_bin outcome allApps apps in
                        let '(usersPut, w') :=
                          match String.eqb decision "accepted", userBinData with
                          | true, Some l =>
                              issue_puts env (concurrent env w)
                                [put_users
                                   (modify_located (binRecords userRecords) l
                                      verify)
                                   (binId l)]
                          | _, _ => ([], w)
                          end in
                        match await_all (appsPut :: usersPut) with
                        | Some _ =>
                            (ApplicationDone
                               ("Application " ++ decision ++ "."),
                             (w', apps'))
                        | None => (failed, (w', apps'))
                        end
                    end
                end
            end
      | _, _ => (failed, st)
      end
  | _, _ => (ApplicationError 400 "Missing data.", st)
  end.

End Decide.

(** A request to the application endpoints that write. *)
Inductive ApplicationRequest :=
| SubmitApplication (outcome : PutOutcome) (isoNow : string)
    (userId : option Z) (username : option string)
    (answers : option (list string))
| DecideApplication (env : Env) (outcome : PutOutcome)
    (targetUserId : option Z) (decision : option string).

(** The stores after a request, and after a series of requests. *)
Definition serve_application (verify : User -> User) (r : ApplicationRequest)
  (st : World * BinFetch Application) : World * BinFetch Application :=
  match r with
  | SubmitApplication outcome isoNow userId username answers =>
      (fst st, snd (applications_submit outcome isoNow userId username answers
                      (snd st)))
  | DecideApplication env outcome targetUserId decision =>
      snd (applications_decide verify env outcome targetUserId decision st)
  end.


(** ** Game submissions and published games *)

Record Submission := mkSubmission {
  sub_id : Z;
  sub_creatorId : Z;
  sub_creatorUsername : option string;
  sub_name : string;
  sub_description : string;
  sub_thumbnail : string;
  sub_code : string;
  sub_status : option string;
  sub_submittedAt : string;
  sub_decidedAt : option string
}.

Record Game := mkGame {
  game_id : Z;
  game_creatorId : Z;
  game_creatorUsername : option string;
  game_name : string;
  game_description : string;
  game_thumbnail : string;
  game_code : option string;
  game_submittedAt : string;
  game_minPlayers : option Z;
  game_maxPlayers : option Z
}.

(** The answers: an error status with its message, or 200 with a message or
    with the code of a game. *)
Inductive CreatorReply :=
| CreatorError (status : Z) (message : string)
| CreatorDone (message : string)
| GameCode (code : option string).

Record SubmitGameReq := mkSubmitGameReq {
  sg_creatorId : option Z;
  sg_creatorUsername : option string;
  sg_name : option string;
  sg_description : option string;
  sg_thumbnail : option string;
  sg_code : option string
}.

(** [await fetch(url, { method: 'PUT', ... })] with no look at the response:
    it only throws when the request fails. *)
Definition put_unchecked {A : Type} (outcome : PutOutcome) (items : list A)
  (w : BinFetch A) : option unit * BinFetch A :=
  match write_bin outcome items w with
  | (Some _, w') => (Some tt, w')
  | (None, w') => (None, w')
  end.

(** POST /submit-game; [dateNow] and [isoNow] are the clock of the
    request. *)
Definition submit_game (outcome : PutOutcome) (dateNow : Z) (isoNow : string)
  (req : SubmitGameReq) (w : BinFetch Submission)
  : CreatorReply * BinFetch Submission :=
  match truthy (sg_creatorId req), truthy (sg_name req),
        truthy (sg_description req), truthy (sg_thumbnail req),
        truthy (sg_code req) with
  | Some creatorId, Some name, Some description, Some thumbnail, Some code =>
      match read_bin_strict w with
      | None => (CreatorError 500 "An internal server error occurred.", w)
      | Some allSubmissions =>
          let newSubmission :=
            mkSubmission dateNow creatorId (sg_creatorUsername req) name
              description thumbnail code (Some "pending") isoNow None in
          let allSubmissions :=
            filter (fun s => negb (sub_creatorId s =? creatorId))
              allSubmissions in
          let allSubmissions := allSubmissions ++ [newSubmission] in
          match put_unchecked outcome allSubmissions w with
          | (Some _, w') => (CreatorDone "Game submitted for review.", w')
          | (None, w') =>
              (CreatorError 500 "An internal server error occurred.", w')
          end
      end
  | _, _, _, _, _ =>
      (CreatorError 400 "All fields are required.", w)
  end.

(** [String(x.id) === String(gameId)] for a [gameId] that is a number or its
    decimal string; a missing [gameId] reads "undefined" and equals no id. *)
Definition id_reads (gameId : option Z) (i : Z) : bool :=
  match gameId with
  | Some g => i =? g
  | None => false
  end.

(** [x.id === gameId] for a [gameId] that is a number. *)
Definition id_equals (gameId : option Z) (i : Z) : bool :=
  match gameId with
  | Some g => i =? g
  | None => false
  end.

(** [submission.status = decision; submission.decidedAt = ...] *)
Definition decided (decision : option string) (isoNow : string)
  (s : Submission) : Submission :=
  mkSubmission (sub_id s) (sub_creatorId s) (sub_creatorUsername s)
    (sub_name s) (sub_description s) (sub_thumbnail s) (sub_code s) decision
    (sub_submittedAt s) (Some isoNow).

(** [x || d] on a number that may be missing. *)
Definition or_default (x : option Z) (d : Z) : Z :=
  match truthy x with
  | Some v => v
  | None => d
  end.

(** [{ ...submission }] less [status] and [decidedAt], with the player
    counts. *)
Definition published_from (s : Submission) (minPlayers maxPlayers : option Z)
  : Game :=
  mkGame (sub_id s) (sub_creatorId s) (sub_creatorUsername s) (sub_name s)
    (sub_description s) (sub_thumbnail s) (Some (sub_code s))
    (sub_submittedAt s) (Some (or_default minPlayers 10))
    (Some (or_default maxPlayers 50)).

(** [array.splice(i, 1)] *)
Fixpoint splice_one {A : Type} (i : nat) (l : list A) : list A :=
  match l, i with
  | [], _ => []
  | _ :: rest, O => rest
  | x :: rest, S i' => x :: splice_one i' rest
  end.

(** [`Game has been ${decision}.`] *)
Definition decision_text (decision : option string) : string :=
  match decision with
  | Some d => d
  | None => "undefined"
  end.

(** POST /decide-game, on the submissions bin and the published-games bin.
    The [adminId] of the body is read and not used. *)
Definition decide_game (outSubmissions outPublished : PutOutcome)
  (isoNow : string) (adminId gameId : option Z) (decision : option string)
  (minPlayers maxPlayers : option Z)
  (st : BinFetch Submission * BinFetch Game)
  : CreatorReply * (BinFetch Submission * BinFetch Game) :=
  let '(subs, pub) := st in
  let failed := CreatorError 500 "An internal server error occurred." in
  match fetch_json false subs, fetch_json false pub with
  | Some submissionsData, Some publishedData =>
      match record_strict submissionsData, record_strict publishedData with
      | Some allSubmissions, Some allPublished =>
          match findIndex (fun s => id_reads gameId (sub_id s))
                  allSubmissions with
          | None => (CreatorError 404 "Submission not found.", st)
          | Some subIndex =>
              match nth_error allSubmissions subIndex with
              | None => (failed, st)
              | Some submission =>
                  let submission := decided decision isoNow submission in
                  let allSubmissions :=
                    update_nth subIndex (decided decision isoNow)
                      allSubmissions in
                  let approved :=
                    match decision with
                    | Some d => String.eqb d "approved"
                    | None => false
                    end in
                  let allPublished :=
                    if approved
                    then allPublished
                         ++ [published_from submission minPlayers maxPlayers]
                    else allPublished in
                  let allSubmissions :=
                    if approved then splice_one subIndex allSubmissions
                    else allSubmissions in
                  match put_unchecked outSubmissions allSubmissions subs with
                  | (None, subs') => (failed, (subs', pub))
                  | (Some _, subs') =>
                      if approved
                      then
                        match put_unchecked outPublished allPublished pub with
                        | (None, pub') => (failed, (subs', pub'))
                        | (Some _, pub') =>
                            (CreatorDone
                               ("Game has been " ++ decision_text decision
                                ++ "."),
                             (subs', pub'))
                        end
                      else
                        (CreatorDone
                           ("Game has been " ++ decision_text decision ++ "."),
                         (subs', pub))
                  end
              end
          end
      | _, _ => (failed, st)
      end
  | _, _ => (failed, st)
  end.

(** DELETE /delete-game.  The [adminId] of the body is read and not used. *)
Definition delete_game (outcome : PutOutcome) (adminId gameId : option Z)
  (w : BinFetch Game) : CreatorReply * BinFetch Game :=
  match read_bin_strict w with
  | None => (CreatorError 500 "An internal server error occurred.", w)
  | Some allPublished =>
      let updatedGames :=
        filter (fun g => negb (id_equals gameId (game_id g))) allPublished in
      match put_unchecked outcome updatedGames w with
      | (Some _, w') => (CreatorDone "Game deleted.", w')
      | (None, w') => (CreatorError 500 "An internal server error occurred.", w')
      end
  end.

(** [game.code = code] *)
Definition set_code (code : option string) (g : Game) : Game :=
  mkGame (game_id g) (game_creatorId g) (game_creatorUsername g) (game_name g)
    (game_description g) (game_thumbnail g) code (game_submittedAt g)
    (game_minPlayers g) (game_maxPlayers g).

(** PUT /edit-game.  The [adminId] of the body is read and not used. *)
Definition edit_game (outcome : PutOutcome) (adminId gameId : option Z)
  (code : option string) (w : BinFetch Game) : CreatorReply * BinFetch Game :=
  match read_bin_strict w with
  | None => (CreatorError 500 "An internal server error occurred.", w)
  | Some allPublished =>
      match findIndex (fun g => id_equals gameId (game_id g)) allPublished with
      | None => (CreatorError 404 "Game not found.", w)
      | Some gameIndex =>
          let allPublished := update_nth gameIndex (set_code code) allPublished in
          match put_unchecked outcome allPublished w with
          | (Some _, w') => (CreatorDone "Game code updated.", w')
          | (None, w') =>
              (CreatorError 500 "An internal server error occurred.", w')
          end
      end
  end.

(** GET /api/games/:id; [gameId] is [parseInt(req.params.id)], [None]
    standing for [NaN]. *)
Definition games_get (gameId : option Z) (w : BinFetch Game) : CreatorReply :=
  match read_bin_strict w with
  | None => CreatorError 500 "Could not retrieve game data."
  | Some allPublished =>
      match find (fun g => id_equals gameId (game_id g)) allPublished with
      | Some game => GameCode (game_code game)
      | None => CreatorError 404 "Game not found."
      end
  end.

(** ** Media *)

Record Comment := mkComment {
  cmt_id : string;
  cmt_userId : Z;
  cmt_username : string;
  cmt_text : string;
  cmt_timestamp : string
}.

(** A video as the upload handler creates it; [comments] may be missing, as
    the like handler allows for. *)
Record Video := mkVideo {
  video_id : string;
  video_creatorId : Z;
  video_creatorUsername : string;
  videoUrl : string;
  video_title : string;
  video_description : string;
  views : Z;
  likes : Z;
  comments : option (list Comment);
  likers : list Z;
  postedAt : string;
  viewsUntilNextLike : Z;
  likesUntilNextBotComment : Z
}.

(** The answers: an error status with its message, a success status with a
    video, or 200 with a message. *)
Inductive MediaReply :=
| MediaError (status : Z) (message : string)
| MediaVideo (status : Z) (video : Video)
| MediaDone (message : string).

Definition botUsernames : list string :=
  ["VideoFan22"; "CoolClips"; "AwesomeVids"; "ReelWatcher"; "DailyDoseOfFun";
   "ClipConnoisseur"; "ViralVibes"].

Definition botComments : list string :=
  ["This is amazing!"; "Wow, great video!"; "Love this!"; "So cool!";
   "Keep it up!"; "Best video I've seen all day!"; "Incredible content!";
   "You've got a new fan!"; "This deserves to go viral!";
   "Absolutely brilliant!"; "Can't stop watching this."].

Definition BOT_USER_ID_START : Z := 90000.

(** [(data && data.record && Array.isArray(data.record.videos))
      ? data.record.videos : []] *)
Definition record_lenient {A : Type} (data : BinBody A) : list A :=
  match data with
  | BinObject (Some (Some items)) => items
  | _ => []
  end.

Definition getMediaVideos (w : BinFetch Video) : option (list Video) :=
  match fetch_json true w with
  | Some data => Some (record_lenient data)
  | None => None
  end.

(** [None] when it throws: the request failed, or [!res.ok]. *)
Definition updateMediaVideos (outcome : PutOutcome) (videos : list Video)
  (w : BinFetch Video) : option unit * BinFetch Video :=
  match write_bin outcome videos w with
  | (Some true, w') => (Some tt, w')
  | (_, w') => (None, w')
  end.

Definition has_id (videoId : string) (v : Video) : bool :=
  String.eqb (video_id v) videoId.

(** [video.likes = Math.max(0, video.likes - 1);
    video.likers = video.likers.filter(id => id !== userId)] *)
Definition unlike (userId : Z) (v : Video) : Video :=
  mkVideo (video_id v) (video_creatorId v) (video_creatorUsername v)
    (videoUrl v) (video_title v) (video_description v) (views v)
    (Z.max 0 (likes v - 1)) (comments v)
    (filter (fun id => negb (id =? userId)) (likers v)) (postedAt v)
    (viewsUntilNextLike v) (likesUntilNextBotComment v).

(** The "Like" branch.  [draw k n] is the value of
    [Math.floor(Math.random() * n)] at the k-th draw of the request, which
    is below [n], so that the two array reads are in range; [dateNowText] is
    the decimal text of [Date.now()] and [isoNow] the
    [new Date().toISOString()] of the bot comment. *)
Definition like (draw : nat -> Z -> Z) (dateNowText isoNow : string)
  (userId : Z) (v : Video) : Video :=
  let countdown := likesUntilNextBotComment v - 1 in
  if countdown <=? 0
  then
    let botIndex := draw 0%nat (Z.of_nat (List.length botUsernames)) in
    let botUsername := nth (Z.to_nat botIndex) botUsernames "" in
    let botCommentText :=
      nth (Z.to_nat (draw 1%nat (Z.of_nat (List.length botComments))))
        botComments "" in
    let botComment :=
      mkComment ("cmt_bot_" ++ dateNowText) (BOT_USER_ID_START + botIndex)
        botUsername botCommentText isoNow in
    mkVideo (video_id v) (video_creatorId v) (video_creatorUsername v)
      (videoUrl v) (video_title v) (video_description v) (views v)
      (likes v + 1)
      (Some (match comments v with Some cs => cs | None => [] end
             ++ [botComment]))
      (likers v ++ [userId]) (postedAt v) (viewsUntilNextLike v)
      (draw 2%nat (10 - 5 + 1) + 5)
  else
    mkVideo (video_id v) (video_creatorId v) (video_creatorUsername v)
      (videoUrl v) (video_title v) (video_description v) (views v)
      (likes v + 1) (comments v) (likers v ++ [userId]) (postedAt v)
      (viewsUntilNextLike v) countdown.

(** The whole [if (video.likers.includes(userId)) ... else ...]. *)
Definition toggle_like (draw : nat -> Z -> Z) (dateNowText isoNow : string)
  (userId : Z) (v : Video) : Video :=
  if includes (likers v) userId then unlike userId v
  else like draw dateNowText isoNow userId v.

(** POST /like *)
Definition media_like (outcome : PutOutcome) (draw : nat -> Z -> Z)
  (dateNowText isoNow : string) (userId : option Z) (videoId : option string)
  (w : BinFetch Video) : MediaReply * BinFetch Video :=
  match truthy userId, truthy videoId with
  | Some userId, Some videoId =>
      match getMediaVideos w with
      | None => (MediaError 500 "Server error.", w)
      | Some videos =>
          match findIndex (has_id videoId) videos with
          | None => (MediaError 404 "Video not found.", w)
          | Some videoIndex =>
              match nth_error videos videoIndex with
              | None => (MediaError 500 "Server error.", w)
              | Some video =>
                  let videos :=
                    update_nth videoIndex
                      (toggle_like draw dateNowText isoNow userId) videos in
                  match updateMediaVideos outcome videos w with
                  | (Some _, w') =>
                      (MediaVideo 200
                         (toggle_like draw dateNowText isoNow userId video),
                       w')
                  | (None, w') => (MediaError 500 "Server error.", w')
                  end
              end
          end
      end
  | _, _ => (MediaError 400 "User and video ID required.", w)
  end.

(** [video.comments.push(newComment)], which throws when the video has no
    [comments]. *)
Definition push_comment (c : Comment) (v : Video) : option Video :=
  match comments v with
  | Some cs =>
      Some (mkVideo (video_id v) (video_creatorId v) (video_creatorUsername v)
              (videoUrl v) (video_title v) (video_description v) (views v)
              (likes v) (Some (cs ++ [c])) (likers v) (postedAt v)
              (viewsUntilNextLike v) (likesUntilNextBotComment v))
  | None => None
  end.

(** POST /comment *)
Definition media_comment (outcome : PutOutcome) (dateNowText isoNow : string)
  (userId : option Z) (username videoId text : option string)
  (w : BinFetch Video) : MediaReply * BinFetch Video :=
  match truthy userId, truthy username, truthy videoId, truthy text with
  | Some userId, Some username, Some videoId, Some text =>
      match getMediaVideos w with
      | None => (MediaError 500 "Server error.", w)
      | Some videos =>
          match findIndex (has_id videoId) videos with
          | None => (MediaError 404 "Video not found.", w)
          | Some videoIndex =>
              let newComment :=
                mkComment ("cmt_" ++ dateNowText) userId username text isoNow in
              match nth_error videos videoIndex with
              | None => (MediaError 500 "Server error.", w)
              | Some video =>
                  match push_comment newComment video with
                  | None => (MediaError 500 "Server error.", w)
                  | Some commented =>
                      let videos :=
                        update_nth videoIndex (fun _ => commented) videos in
                      match updateMediaVideos outcome videos w with
                      | (Some _, w') => (MediaVideo 201 commented, w')
                      | (None, w') => (MediaError 500 "Server error.", w')
                      end
                  end
              end
          end
      end
  | _, _, _, _ => (MediaError 400 "All fields required.", w)
  end.

(** DELETE /video/:videoId, on the registry and the videos bin. *)
Definition media_delete_video (outcome : PutOutcome) (adminId : option Z)
  (videoId : string) (st : World * BinFetch Video)
  : MediaReply * BinFetch Video :=
  let '(w, vids) := st in
  if negb (isAdmin adminId w) then (MediaError 403 "Unauthorized.", vids)
  else
    match getMediaVideos vids with
    | None => (MediaError 500 "Server error.", vids)
    | Some videos =>
        let updatedVideos := filter (fun v => negb (has_id videoId v)) videos in
        match updateMediaVideos outcome updatedVideos vids with
        | (Some _, vids') => (MediaDone "Video deleted.", vids')
        | (None, vids') => (MediaError 500 "Server error.", vids')
        end
    end.

(** [video.comments = video.comments.filter(c => c.id !== commentId)], which
    throws when the video has no [comments]. *)
Definition drop_comment (commentId : string) (v : Video) : option Video :=
  match comments v with
  | Some cs =>
      Some (mkVideo (video_id v) (video_creatorId v) (video_creatorUsername v)
              (videoUrl v) (video_title v) (video_description v) (views v)
              (likes v)
              (Some (filter (fun c => negb (String.eqb (cmt_id c) commentId))
                       cs))
              (likers v) (postedAt v) (viewsUntilNextLike v)
              (likesUntilNextBotComment v))
  | None => None
  end.

(** DELETE /comment/:videoId/:commentId, on the registry and the videos
    bin. *)
Definition media_delete_comment (outcome : PutOutcome) (adminId : option Z)
  (videoId commentId : string) (st : World * BinFetch Video)
  : MediaReply * BinFetch Video :=
  let '(w, vids) := st in
  if negb (isAdmin adminId w) then (MediaError 403 "Unauthorized.", vids)
  else
    match getMediaVideos vids with
    | None => (MediaError 500 "Server error.", vids)
    | Some videos =>
        match findIndex (has_id videoId) videos with
        | None => (MediaError 404 "Video not found.", vids)
        | Some videoIndex =>
            match nth_error videos videoIndex with
            | None => (MediaError 500 "Server error.", vids)
            | Some video =>
                match drop_comment commentId video with
                | None => (MediaError 500 "Server error.", vids)
                | Some cleaned =>
                    let videos :=
                      update_nth videoIndex (fun _ => cleaned) videos in
                    match updateMediaVideos outcome videos vids with
                    | (Some _, vids') => (MediaDone "Comment deleted.", vids')
                    | (None, vids') => (MediaError 500 "Server error.", vids')
                    end
                end
            end
        end
    end.

(** ** The view generation job *)

Record VideoMeta := mkVideoMeta {
  tier : string;
  startTime : Z
}.

(** [Math.floor(Math.random() * (hi - lo + 1)) + lo] at draw [k]. *)
Definition between (draw : nat -> Z -> Z) (k : nat) (lo hi : Z) : Z :=
  draw k (hi - lo + 1) + lo.

Definition viewsToAdd (draw : nat -> Z -> Z) (k : nat) (tier : string)
  (isInitialPhase : bool) : Z :=
  if String.eqb tier "viral"
  then if isInitialPhase then between draw k 65100 15000000
       else between draw k 2604 600000
  else if String.eqb tier "popular"
  then if isInitialPhase then between draw k 1501 65000
       else between draw k 66 2600
  else if isInitialPhase then between draw k 25 1500
       else between draw k 1 65.

(** [while (video.viewsUntilNextLike <= 0) { video.likes++;
    video.viewsUntilNextLike += nextThreshold }], with the number of the
    next draw, the likes and the countdown as its state; [None] when the
    fuel runs out before the loop ends. *)
Fixpoint like_loop (fuel : nat) (draw : nat -> Z -> Z) (k : nat)
  (likes viewsUntilNextLike : Z) : option (nat * Z * Z) :=
  if viewsUntilNextLike <=? 0
  then
    match fuel with
    | O => None
    | S fuel' =>
        like_loop fuel' draw (S k) (likes + 1)
          (viewsUntilNextLike + between draw k 15 35)
    end
  else Some (k, likes, viewsUntilNextLike).

(** The body of the [for] loop for a video that is found; [clock k] is
    [Date.now()] read when [k] draws have been made. *)
Definition tick_video (fuel : nat) (draw : nat -> Z -> Z) (clock : nat -> Z)
  (k : nat) (videoMeta : VideoMeta) (v : Video) : option (nat * Video) :=
  let timeSincePost := clock k - startTime videoMeta in
  let isInitialPhase := timeSincePost <? 600000 in
  let add := viewsToAdd draw k (tier videoMeta) isInitialPhase in
  match like_loop fuel draw (S k) (likes v) (viewsUntilNextLike v - add) with
  | Some (k', likes', countdown) =>
      Some (k',
            mkVideo (video_id v) (video_creatorId v) (video_creatorUsername v)
              (videoUrl v) (video_title v) (video_description v)
              (views v + add) likes' (comments v) (likers v) (postedAt v)
              countdown (likesUntilNextBotComment v))
  | None => None
  end.

(** [for (const videoId in metaData.activeVideos)]: the entries still to
    visit, the entries kept so far, and the videos. *)
Fixpoint tick_entries (fuel : nat) (draw : nat -> Z -> Z) (clock : nat -> Z)
  (k : nat) (entries kept : list (string * VideoMeta)) (videos : list Video)
  : option (list (string * VideoMeta) * list Video) :=
  match entries with
  | [] => Some (kept, videos)
  | (videoId, videoMeta) :: rest =>
      match findIndex (has_id videoId) videos with
      | None => tick_entries fuel draw clock k rest kept videos
      | Some videoIndex =>
          match nth_error videos videoIndex with
          | None => None
          | Some video =>
              match tick_video fuel draw clock k videoMeta video with
              | None => None
              | Some (k', video') =>
                  tick_entries fuel draw clock k' rest
                    (kept ++ [(videoId, videoMeta)])
                    (update_nth videoIndex (fun _ => video') videos)
              end
          end
      end
  end.

(** One run of the job, on the bin of the view metadata and the videos bin;
    an exception leaves the bins as they are.  [None] when the fuel runs
    out. *)
Definition view_job (fuel : nat) (draw : nat -> Z -> Z) (clock : nat -> Z)
  (outVideos outMeta : PutOutcome)
  (st : BinFetch (string * VideoMeta) * BinFetch Video)
  : option (BinFetch (string * VideoMeta) * BinFetch Video) :=
  let '(meta, vids) := st in
  match fetch_json false meta, fetch_json false vids with
  | Some metaBody, Some videosData =>
      match record_guarded metaBody with
      | None => Some st
      | Some activeVideos =>
          let videos := record_lenient videosData in
          match tick_entries fuel draw clock 0 activeVideos [] videos with
          | None => None
          | Some (activeVideos', videos') =>
              match activeVideos with
              | [] => Some st
              | _ =>
                  let '(_, vids') := updateMediaVideos outVideos videos' vids in
                  let '(_, meta') := write_bin outMeta activeVideos' meta in
                  Some (meta', vids')
              end
          end
      end
  | _, _ => Some st
  end.

(** ** Vocabulary of the statements *)

(** The two user partitions, by position in [ALL_USERS_BIN_IDS]. *)
Definition USERS_BIN_1 : string := nth 0 ALL_USERS_BIN_IDS "".
Definition USERS_BIN_2 : string := nth 1 ALL_USERS_BIN_IDS "".

(** A partition read that does not deliver a JSON object: the request fails
    on the network, the status is an error, the payload does not parse, or it
    is [null]. *)
Definition read_fails (f : Fetch) : bool :=
  match f with
  | Resolved true (Some (JsonObject _ _)) => false
  | _ => true
  end.

(** The partition answers, and its document is missing ([record] absent) or
    empty (no [users], or no account in it). *)
Definition document_absent_or_empty (f : Fetch) : bool :=
  match f with
  | Resolved true (Some (JsonObject None _)) => true
  | Resolved true (Some (JsonObject (Some doc) _)) =>
      match doc_users doc with
      | None => true
      | Some [] => true
      | Some (_ :: _) => false
      end
  | _ => false
  end.

(** [record && record.users ? record.users : []] *)
Definition users_of_record (r : option Document) : list User :=
  match r with
  | Some doc => match doc_users doc with Some us => us | None => [] end
  | None => []
  end.

(** [record && record.groups ? record.groups : []] *)
Definition groups_of_record (r : option Document) : list Group :=
  match r with
  | Some doc => match doc_groups doc with Some gs => gs | None => [] end
  | None => []
  end.

(** The accounts a partition holds, as a successful read sees them. *)
Definition stored_users (w : World) (b : string) : list User :=
  match latest w b with
  | Resolved true (Some (JsonObject r _)) => users_of_record r
  | _ => []
  end.

(** All accounts of the records, bin after bin. *)
Definition accounts (recs : BinRecords) : list User :=
  flat_map (fun entry => users (snd entry)) recs.

(** The bins of the records that hold an account with the given id. *)
Definition bins_holding (recs : BinRecords) (userId : Z) : list string :=
  map fst
    (filter (fun entry => existsb (fun u => user_id u =? userId)
                            (users (snd entry))) recs).

(** Two references to the same place of the same array. *)
Definition same_located (l l' : Located) : bool :=
  (String.eqb (binId l) (binId l') && Nat.eqb (userIndex l) (userIndex l'))%bool.

Definition sum_tokens (us : list User) : Z :=
  fold_right Z.add 0 (map authTokens us).

(** The sum of all balances: of the records in memory, and of the user
    partitions of the store. *)
Definition total_balance (recs : BinRecords) : Z := sum_tokens (accounts recs).

Definition stored_total (w : World) : Z :=
  sum_tokens (flat_map (stored_users w) ALL_USERS_BIN_IDS).

(** How often [x] occurs in a [friends] property (a missing one holds
    nothing). *)
Definition occurrences (x : Z) (fs : option (list Z)) : nat :=
  count_occ Z.eq_dec (match fs with Some l => l | None => [] end) x.

(** The pending friend requests of [u] that come from [requesterId]. *)
Definition requests_from (requesterId : Z) (u : User) : list FriendRequest :=
  filter (fun req => req_from req =? requesterId)
    (match friendRequests u with Some rs => rs | None => [] end).

(** The bins [friends/accept] writes: the accepter's, and the requester's when
    it is another one. *)
Definition accept_bins (accepter requester : Located) : list string :=
  binId accepter
  :: (if String.eqb (binId accepter) (binId requester) then []
      else [binId requester]).

(** The floor of [price * pct / 100] in exact arithmetic; [Math.floor] of the
    double product agrees with it wherever rounding the product does not
    cross an integer, as at [price = 100]. *)
Definition floor_percent (pct price : Z) : Z := price * pct / 100.

(** The groups and the gamepasses on sale, as a read of their bins sees
    them. *)
Definition stored_groups (w : World) : list Group :=
  match latest w USER_GROUPS_BIN_ID with
  | Resolved _ (Some (JsonObject r _)) => groups_of_record r
  | _ => []
  end.

Definition stored_gamepasses (w : World) : list Gamepass :=
  match latest w AUTHDONATE_GAMEPASS_BIN_ID with
  | Resolved _ (Some (JsonObject (Some doc) _)) =>
      match doc_gamepasses doc with Some gps => gps | None => [] end
  | _ => []
  end.

(** The caller the admin check lets through: an id that is present and not
    0, whose first account in the registry is named madeonice, in any
    letter case. *)
Definition names_admin (w : World) (userId : option Z) : Prop :=
  exists i u,
    userId = Some i /\ i <> 0 /\ lookupAccount w i = Some u /\
    toLowerCase (username u) = "madeonice".

(** Groups as the handlers expect them: no two with the same id, no member
    listed twice in a group. *)
Definition groups_well_formed (gs : list Group) : Prop :=
  NoDup (map group_id gs) /\ Forall (fun g => NoDup (group_members g)) gs.

(** The pending requests and the friends of an account, a missing property
    read as the empty array. *)
Definition pending (u : User) : list FriendRequest :=
  match friendRequests u with Some rs => rs | None => [] end.

Definition friends_of (u : User) : list Z :=
  match friends u with Some fs => fs | None => [] end.

(** The edits of the friend-request handler on the receiver, in source
    order. *)
Definition request_edit (sender : User) (u : User) : User :=
  push_request (mkFriendRequest (user_id sender) (username sender))
    (init_friends (init_friendRequests u)).

(** The array a single-array bin holds, whatever the [ok] flag of a read. *)
Definition bin_items {A : Type} (w : BinFetch A) : list A :=
  match w with
  | BinResolved _ (Some (BinObject (Some (Some items)))) => items
  | _ => []
  end.

(** A lobby as the hangman handlers leave it: no letter guessed twice, the
    wrong guesses counted among the guesses and at most 6; no guest and no
    guess while waiting, no guess while the word is chosen, fewer than 6
    wrong guesses and no winner while playing, a winner once finished. *)
Definition lobby_ok (l : Lobby) : Prop :=
  NoDup (guessedLetters l) /\
  0 <= wrongGuesses l <= Z.of_nat (List.length (guessedLetters l)) /\
  wrongGuesses l <= 6 /\
  match lobby_state l with
  | waiting =>
      lobby_guest l = None /\ guessedLetters l = [] /\ lobby_winner l = None
  | choosing_word =>
      lobby_guest l <> None /\ guessedLetters l = [] /\ lobby_winner l = None
  | playing =>
      lobby_guest l <> None /\ wrongGuesses l < 6 /\ lobby_winner l = None
  | finished => lobby_guest l <> None /\ lobby_winner l <> None
  end.

Definition hangman_refused (r : HangmanReply) : bool :=
  match r with
  | HangmanError _ _ => true
  | _ => false
  end.



(** What the job may do to a video: add views and likes, and nothing
    else but the countdown to the next like. *)
Definition only_gains (v v' : Video) : Prop :=
  video_id v' = video_id v /\
  views v <= views v' /\
  likes v <= likes v' /\
  likers v' = likers v /\
  comments v' = comments v /\
  video_title v' = video_title v /\
  video_creatorId v' = video_creatorId v.

(** What one run may do to a video, with a countdown above 0 staying so. *)
Definition ticked (v v' : Video) : Prop :=
  only_gains v v' /\ (0 < viewsUntilNextLike v -> 0 < viewsUntilNextLike v').

(** Every draw [Math.floor(Math.random() * n)] is at least 0 and below
    [n]. *)
Definition draws_in_range (draw : nat -> Z -> Z) : Prop :=
  forall k n, 0 < n -> 0 <= draw k n < n.

(** ** Sample stores and environments *)

Definition account (i : Z) (name : string) (tokens : Z) : User :=
  mkUser i name None None tokens None None None.

Definition ann : User := account 1 "ann" 5000.
Definition bob : User := account 2 "bob" 100.
Definition madeonice : User := account 3 "MadeOnIce" 0.

(** bob has asked ann to be his friend. *)
Definition ann_asked_by_bob : User :=
  mkUser 1 "ann" None None 5000 None (Some [mkFriendRequest 2 "bob"]) None.

(** ann already lists bob twice among her friends, and has a request of his
    pending. *)
Definition ann_with_duplicates : User :=
  mkUser 1 "ann" None None 5000 (Some [2; 2])
    (Some [mkFriendRequest 2 "bob"]) None.

(** A store whose two user partitions hold the given accounts at revision 1;
    every other bin answers with an empty record. *)
Definition store_of (bin1 bin2 : list User) : World :=
  mkWorld
    (fun b =>
       if String.eqb b USERS_BIN_1
       then Resolved true (Some (JsonObject (Some (users_doc bin1)) 1))
       else if String.eqb b USERS_BIN_2
       then Resolved true (Some (JsonObject (Some (users_doc bin2)) 1))
       else Resolved true (Some (JsonObject (Some empty_document) 1)))
    [].

(** The view [fetchAllUserRecords] builds of [store_of bin1 bin2]. *)
Definition view_of (bin1 bin2 : list User) : UserRecords :=
  mkUserRecords (bin1 ++ bin2)
    [(USERS_BIN_1, mkBinRecord bin1 (JsonObject (Some (users_doc bin1)) 1));
     (USERS_BIN_2, mkBinRecord bin2 (JsonObject (Some (users_doc bin2)) 1))].

(** ann's partition answers; the read of the second partition fails on the
    network. *)
Definition second_partition_down : World :=
  mkWorld
    (fun b => if String.eqb b USERS_BIN_2 then Rejected
              else latest (store_of [ann] []) b)
    [].

(** ann's partition answers; the second partition answers without a
    [record]. *)
Definition second_partition_blank : World :=
  mkWorld
    (fun b => if String.eqb b USERS_BIN_2
              then Resolved true (Some (JsonObject None 0))
              else latest (store_of [ann] []) b)
    [].

(** The backend stores every write, nobody else writes. *)
Definition quiet : Env :=
  mkEnv (fun _ => PutStored) (fun w => w) "2025-01-01T00:00:00.000Z".


(** The backend answers the writes to the second user partition with an
    error status and stores the others; nobody else writes. *)
Definition second_bin_refuses : Env :=
  mkEnv (fun b => if String.eqb b USERS_BIN_2 then PutRefused else PutStored)
    (fun w => w) "2025-01-01T00:00:00.000Z".

(** The backend answers the writes to the groups bin with an error status
    and stores the others; nobody else writes. *)
Definition groups_bin_refuses : Env :=
  mkEnv
    (fun b => if String.eqb b USER_GROUPS_BIN_ID then PutRefused else PutStored)
    (fun w => w) "2025-01-01T00:00:00.000Z".

(** Three groups: ann's, bob's, and a second one of ann's. *)
Definition sample_groups : list Group :=
  [mkGroup 1 "chess" "club" "" 1 [1] "2025-01-01T00:00:00.000Z";
   mkGroup 2 "go" "club" "" 2 [2; 1] "2025-01-02T00:00:00.000Z";
   mkGroup 5 "darts" "club" "" 1 [1] "2025-01-03T00:00:00.000Z"].

(** A store as [store_of], with the given groups in the groups bin. *)
Definition store_with_groups (bin1 bin2 : list User) (gs : list Group) : World :=
  mkWorld
    (fun b =>
       if String.eqb b USER_GROUPS_BIN_ID
       then Resolved true (Some (JsonObject (Some (groups_doc gs)) 1))
       else latest (store_of bin1 bin2) b)
    [].

(** A single-array bin that reads, holding the given array. *)
Definition bin_of {A : Type} (items : list A) : BinFetch A :=
  BinResolved true (Some (BinObject (Some (Some items)))).

(** ann hosts lobby 1234 with bob as guest; the word is CAT and bob is to
    guess first. *)
Definition sample_lobby : Lobby :=
  mkLobby "1234" (mkPlayer 1 "ann") (Some (mkPlayer 2 "bob")) "CAT" [] 0
    guest_turn playing None.

(** The same lobby after bob has won it. *)
Definition sample_finished_lobby : Lobby :=
  mkLobby "1234" (mkPlayer 1 "ann") (Some (mkPlayer 2 "bob")) "CAT"
    ["C"; "A"; "T"] 0 host_turn finished (Some host_turn).

Definition sample_site : Website :=
  mkWebsite 1700000000000 1 "ann" "home.imac" "<p>ann</p>"
    "2025-01-01T00:00:00.000Z" "2025-01-01T00:00:00.000Z".

(** bob has applied and has been denied once. *)
Definition sample_application : Application :=
  mkApplication 2 "bob" ["why"; "because"] "denied" (Some 1)
    "2025-01-01T00:00:00.000Z".


(** ann's game awaits review; a game of bob is published. *)
Definition sample_submission : Submission :=
  mkSubmission 1700000000100 1 (Some "ann") "maze" "a maze" "maze.png"
    "<script>maze()</script>" (Some "pending") "2025-01-01T00:00:00.000Z"
    None.

Definition sample_game : Game :=
  mkGame 1600000000000 2 (Some "bob") "pong" "a pong" "pong.png"
    (Some "<script>pong()</script>") "2024-12-01T00:00:00.000Z" (Some 10)
    (Some 50).

(** A video of bob with 3 likes, one of them ann's. *)
Definition sample_video : Video :=
  mkVideo "vid_1" 2 "bob" "https://example.org/uploads/v1.mp4" "cat" "a cat"
    120 3 (Some []) [1] "2025-01-01T00:00:00.000Z" 20 4.

(* ================================================================= *)
(** * Properties *)

(** ** The registry reader *)

Lemma USERS_BINS_distinct : String.eqb USERS_BIN_1 USERS_BIN_2 = false.
Proof. reflexivity. Qed.

Lemma ALL_USERS_BIN_IDS_eq : ALL_USERS_BIN_IDS = [USERS_BIN_1; USERS_BIN_2].
Proof. reflexivity. Qed.

Lemma In_ALL_USERS_BIN_IDS (b : string) :
  In b ALL_USERS_BIN_IDS <-> b = USERS_BIN_1 \/ b = USERS_BIN_2.
Proof.
  rewrite ALL_USERS_BIN_IDS_eq. simpl. intuition congruence.
Qed.

(** What the reader returns, read off the two partitions. *)
Lemma fetchAllUserRecords_spec (w : World) :
  fetchAllUserRecords w =
  match latest w USERS_BIN_1, latest w USERS_BIN_2 with
  | Resolved true (Some (JsonObject r1 v1)),
    Resolved true (Some (JsonObject r2 v2)) =>
      Some (mkUserRecords (users_of_record r1 ++ users_of_record r2)
              [(USERS_BIN_1, mkBinRecord (users_of_record r1) (JsonObject r1 v1));
               (USERS_BIN_2, mkBinRecord (users_of_record r2) (JsonObject r2 v2))])
  | _, _ => None
  end.
Proof.
  unfold fetchAllUserRecords. rewrite ALL_USERS_BIN_IDS_eq. cbn [map].
  destruct (latest w USERS_BIN_1) as [|[] [[|[d1|] v1]|]];
    destruct (latest w USERS_BIN_2) as [|[] [[|[d2|] v2]|]];
    try reflexivity;
    cbn [await_all map merge_bins record_users allUsers binRecords app];
    unfold users_of_record;
    try destruct (doc_users d1); try destruct (doc_users d2);
    cbn [map_set]; rewrite ?USERS_BINS_distinct; reflexivity.
Qed.

Lemma fetchAllUserRecords_Some (w : World) (userRecords : UserRecords) :
  fetchAllUserRecords w = Some userRecords ->
  exists r1 v1 r2 v2,
    latest w USERS_BIN_1 = Resolved true (Some (JsonObject r1 v1)) /\
    latest w USERS_BIN_2 = Resolved true (Some (JsonObject r2 v2)) /\
    userRecords =
      mkUserRecords (users_of_record r1 ++ users_of_record r2)
        [(USERS_BIN_1, mkBinRecord (users_of_record r1) (JsonObject r1 v1));
         (USERS_BIN_2, mkBinRecord (users_of_record r2) (JsonObject r2 v2))].
Proof.
  rewrite fetchAllUserRecords_spec.
  destruct (latest w USERS_BIN_1) as [|[] [[|r1 v1]|]]; try discriminate;
    destruct (latest w USERS_BIN_2) as [|[] [[|r2 v2]|]]; try discriminate.
  intros [= <-]. now exists r1, v1, r2, v2.
Qed.

Lemma stored_users_read (w : World) (b : string) r v :
  latest w b = Resolved true (Some (JsonObject r v)) ->
  stored_users w b = users_of_record r.
Proof.
  unfold stored_users. intros ->. now destruct r.
Qed.

(** C3. If the read of one partition fails (the request is rejected, the
    status is an error, the payload is not JSON or is [null]),
    [fetchAllUserRecords] returns no view at all; and a view it does return
    holds the accounts of every partition. *)
Theorem fetchAllUserRecords_fails_closed (w : World) (b : string) :
  In b ALL_USERS_BIN_IDS ->
  (read_fails (latest w b) = true -> fetchAllUserRecords w = None) /\
  (forall userRecords,
      fetchAllUserRecords w = Some userRecords ->
      read_fails (latest w b) = false /\
      bin_users (binRecords userRecords) b = stored_users w b /\
      incl (stored_users w b) (allUsers userRecords)).
Proof.
  intros Hb. apply In_ALL_USERS_BIN_IDS in Hb. split.
  - intros Hfail. rewrite fetchAllUserRecords_spec.
    destruct Hb as [-> | ->].
    + destruct (latest w USERS_BIN_1) as [|[] [[|r1 v1]|]];
        try reflexivity; discriminate.
    + destruct (latest w USERS_BIN_1) as [|[] [[|r1 v1]|]]; try reflexivity;
        destruct (latest w USERS_BIN_2) as [|[] [[|r2 v2]|]];
        try reflexivity; discriminate.
  - intros userRecords Hread.
    destruct (fetchAllUserRecords_Some _ _ Hread)
      as (r1 & v1 & r2 & v2 & H1 & H2 & ->).
    cbn [binRecords allUsers bin_users users].
    destruct Hb as [-> | ->].
    + rewrite String.eqb_refl, (stored_users_read _ _ _ _ H1), H1.
      repeat split. apply incl_appl, incl_refl.
    + rewrite USERS_BINS_distinct, String.eqb_refl,
        (stored_users_read _ _ _ _ H2), H2.
      repeat split. apply incl_appr, incl_refl.
Qed.

Lemma fetchAllUserRecords_fails_closed_witness :
  fetchAllUserRecords second_partition_down = None.
Proof.
  apply (proj1 (fetchAllUserRecords_fails_closed second_partition_down
                  USERS_BIN_2 (or_intror (or_introl eq_refl)))).
  reflexivity.
Defined.

(** C7. A partition whose document is absent or empty is read as an empty
    account list: with the other partitions readable, the registry read
    succeeds, the partition's entry holds no account, and the merged view is
    the accounts of the other partitions. *)
Theorem empty_document_reads_as_empty_list (w : World) (b : string) :
  In b ALL_USERS_BIN_IDS ->
  document_absent_or_empty (latest w b) = true ->
  (forall b', In b' ALL_USERS_BIN_IDS -> b' <> b ->
              read_fails (latest w b') = false) ->
  exists userRecords,
    fetchAllUserRecords w = Some userRecords /\
    In b (map fst (binRecords userRecords)) /\
    bin_users (binRecords userRecords) b = [] /\
    allUsers userRecords =
      flat_map (stored_users w)
        (filter (fun b' => negb (String.eqb b' b)) ALL_USERS_BIN_IDS).
Proof.
  intros Hb Hempty Hothers. apply In_ALL_USERS_BIN_IDS in Hb.
  assert (Hne : USERS_BIN_1 <> USERS_BIN_2)
    by (apply String.eqb_neq, USERS_BINS_distinct).
  assert (Hdoc : forall f, document_absent_or_empty f = true ->
            exists r v, f = Resolved true (Some (JsonObject r v)) /\
                        users_of_record r = []).
  { intros [|[] [[|[d|] v]|]]; cbn; try discriminate.
    - destruct (doc_users d) as [[|]|] eqn:E; try discriminate;
        intros _; exists (Some d), v; cbn; now rewrite E.
    - intros _. now exists None, v. }
  assert (Hok : forall f, read_fails f = false ->
            exists r v, f = Resolved true (Some (JsonObject r v))).
  { intros [|[] [[|r v]|]]; cbn; try discriminate. intros _. now exists r, v. }
  rewrite ALL_USERS_BIN_IDS_eq. cbn [filter].
  destruct Hb as [-> | ->].
  - destruct (Hdoc _ Hempty) as (r1 & v1 & H1 & E1).
    destruct (Hok (latest w USERS_BIN_2)) as (r2 & v2 & H2).
    { apply Hothers; [apply In_ALL_USERS_BIN_IDS; now right | congruence]. }
    rewrite fetchAllUserRecords_spec, H1, H2. eexists. split; [reflexivity|].
    cbn [binRecords allUsers bin_users users map fst].
    rewrite !String.eqb_refl.
    assert (E : String.eqb USERS_BIN_2 USERS_BIN_1 = false) by reflexivity.
    rewrite E. cbn [negb flat_map].
    rewrite (stored_users_read _ _ _ _ H2), E1, app_nil_r.
    repeat split. now left.
  - destruct (Hdoc _ Hempty) as (r2 & v2 & H2 & E2).
    destruct (Hok (latest w USERS_BIN_1)) as (r1 & v1 & H1).
    { apply Hothers; [apply In_ALL_USERS_BIN_IDS; now left | congruence]. }
    rewrite fetchAllUserRecords_spec, H1, H2. eexists. split; [reflexivity|].
    cbn [binRecords allUsers bin_users users map fst].
    rewrite !String.eqb_refl, USERS_BINS_distinct. cbn [negb flat_map].
    rewrite (stored_users_read _ _ _ _ H1), E2, !app_nil_r.
    repeat split. right; now left.
Qed.

Lemma empty_document_reads_as_empty_list_witness :
  exists userRecords,
    fetchAllUserRecords second_partition_blank = Some userRecords /\
    In USERS_BIN_2 (map fst (binRecords userRecords)) /\
    bin_users (binRecords userRecords) USERS_BIN_2 = [] /\
    allUsers userRecords =
      flat_map (stored_users second_partition_blank)
        (filter (fun b' => negb (String.eqb b' USERS_BIN_2)) ALL_USERS_BIN_IDS).
Proof.
  apply (empty_document_reads_as_empty_list second_partition_blank USERS_BIN_2).
  - right. left. reflexivity.
  - reflexivity.
  - intros b' [<- | [<- | []]] Hne; [reflexivity | now elim Hne].
Defined.

(** ** The locator *)

Lemma findIndex_Some {A : Type} (p : A -> bool) (l : list A) (i : nat) :
  findIndex p l = Some i ->
  exists x, nth_error l i = Some x /\ p x = true /\
            forall j y, (j < i)%nat -> nth_error l j = Some y -> p y = false.
Proof.
  revert i. induction l as [|a l IH]; intros i; cbn; [discriminate|].
  destruct (p a) eqn:Ea.
  - intros [= <-]. exists a. repeat split; trivial. intros j y Hj. lia.
  - destruct (findIndex p l) as [k|]; [|discriminate].
    intros [= <-]. destruct (IH k eq_refl) as (x & Hx & Hp & Hlt).
    exists x. repeat split; trivial.
    intros [|j] y Hj; cbn.
    + now intros [= <-].
    + apply Hlt. lia.
Qed.

Lemma findIndex_None {A : Type} (p : A -> bool) (l : list A) :
  findIndex p l = None <-> forall x, In x l -> p x = false.
Proof.
  induction l as [|a l IH]; cbn.
  - split; [intros _ x []|reflexivity].
  - destruct (p a) eqn:Ea.
    + split; [discriminate|]. intros H. specialize (H a (or_introl eq_refl)).
      congruence.
    + destruct (findIndex p l) as [k|].
      * split; [discriminate|]. intros H.
        assert (Some k = None) by (apply IH; intros x Hx; apply H; now right).
        discriminate.
      * split; [|reflexivity]. intros _ x [<- | Hx]; trivial.
        now apply IH.
Qed.

Lemma findIndex_existsb {A : Type} (p : A -> bool) (l : list A) :
  existsb p l = match findIndex p l with Some _ => true | None => false end.
Proof.
  induction l as [|a l IH]; cbn; trivial.
  destruct (p a); cbn; trivial. rewrite IH. now destruct (findIndex p l).
Qed.

(** C5, as the code has it.  [findUserAndBin] never signals a duplicate: it
    answers with the first partition, in bin order, that holds the id, and
    the first index of the id in it, whatever the later partitions hold; it
    answers [null] only when no partition holds the id. *)
Theorem findUserAndBin_first_holder (allRecords : UserRecords) (userId : Z) :
  option_map binId (findUserAndBin allRecords userId)
    = hd_error (bins_holding (binRecords allRecords) userId) /\
  match findUserAndBin allRecords userId with
  | Some l =>
      exists before record after u,
        binRecords allRecords = before ++ (binId l, record) :: after /\
        (forall u', In u' (accounts before) -> user_id u' <> userId) /\
        nth_error (users record) (userIndex l) = Some u /\
        user_id u = userId /\
        (forall j u', (j < userIndex l)%nat ->
                      nth_error (users record) j = Some u' ->
                      user_id u' <> userId)
  | None =>
      forall u, In u (accounts (binRecords allRecords)) -> user_id u <> userId
  end.
Proof.
  unfold findUserAndBin. generalize (binRecords allRecords) as recs.
  induction recs as [|[b record] recs [IHb IH]]; cbn.
  - split; [reflexivity|]. intros u [].
  - unfold bins_holding in *. cbn [filter snd].
    rewrite findIndex_existsb.
    destruct (findIndex (fun u => user_id u =? userId) (users record))
      as [i|] eqn:Ei.
    + cbn. split; [reflexivity|].
      destruct (findIndex_Some _ _ _ Ei) as (u & Hu & Hid & Hfirst).
      exists [], record, recs, u. cbn. repeat split; trivial.
      * intros u' [].
      * now apply Z.eqb_eq.
      * intros j u' Hj Hnth. apply Z.eqb_neq. eapply Hfirst; eauto.
    + split; [exact IHb|].
      pose proof (proj1 (findIndex_None _ _) Ei) as Hnone.
      destruct (findUserAndBin_entries recs userId) as [l|].
      * destruct IH as (before & record' & after & u & Heq & Hbefore & Hrest).
        exists ((b, record) :: before), record', after, u.
        split; [cbn; now rewrite Heq|]. split; [|exact Hrest].
        intros u' Hin. cbn in Hin. apply in_app_or in Hin.
        destruct Hin as [Hin | Hin]; [|now apply Hbefore].
        apply Z.eqb_neq. now apply Hnone.
      * intros u Hin. apply in_app_or in Hin.
        destruct Hin as [Hin | Hin]; [|now apply IH].
        apply Z.eqb_neq. now apply Hnone.
Qed.

(** C5, as the specification states it, fails: with account id 7 in both partitions the
    locator resolves to the copy of the first partition. *)
Lemma findUserAndBin_resolves_duplicate :
  fetchAllUserRecords (store_of [account 7 "ann" 10] [account 7 "bob" 20])
    = Some (view_of [account 7 "ann" 10] [account 7 "bob" 20]) /\
  bins_holding
    (binRecords (view_of [account 7 "ann" 10] [account 7 "bob" 20])) 7
    = [USERS_BIN_1; USERS_BIN_2] /\
  findUserAndBin (view_of [account 7 "ann" 10] [account 7 "bob" 20]) 7
    = Some (mkLocated USERS_BIN_1 0).
Proof. repeat split. Qed.

(** ** In-memory edits of the records *)

Lemma find_app {A : Type} (p : A -> bool) (l1 l2 : list A) :
  find p (l1 ++ l2) = match find p l1 with Some x => Some x | None => find p l2 end.
Proof.
  induction l1 as [|a l1 IH]; cbn; trivial. now destruct (p a).
Qed.

Lemma find_findIndex {A : Type} (p : A -> bool) (l : list A) :
  find p l = match findIndex p l with Some i => nth_error l i | None => None end.
Proof.
  induction l as [|a l IH]; cbn; trivial.
  destruct (p a); trivial. rewrite IH. now destruct (findIndex p l).
Qed.

Lemma findUserAndBin_entries_key (recs : BinRecords) (userId : Z) (l : Located) :
  findUserAndBin_entries recs userId = Some l -> In (binId l) (map fst recs).
Proof.
  induction recs as [|[b record] recs IH]; cbn; [discriminate|].
  destruct (findIndex _ (users record)).
  - intros [= <-]. now left.
  - intros H. right. now apply IH.
Qed.

Lemma bin_users_cons_other (b b' : string) (record : BinRecord) (recs : BinRecords) :
  b <> b' -> bin_users ((b, record) :: recs) b' = bin_users recs b'.
Proof.
  intros H. cbn. apply String.eqb_neq in H. now rewrite H.
Qed.

(** [allUsers.find(u => u.id === id)] reads the account that
    [findUserAndBin] locates. *)
Lemma find_located (recs : BinRecords) (userId : Z) :
  NoDup (map fst recs) ->
  find (fun u => user_id u =? userId) (accounts recs) =
  match findUserAndBin_entries recs userId with
  | Some l => located_account recs l
  | None => None
  end.
Proof.
  induction recs as [|[b record] recs IH]; cbn; trivial.
  intros Hnd. inversion Hnd as [|? ? Hnotin Hnd']; subst.
  rewrite find_app, find_findIndex.
  destruct (findIndex _ (users record)) as [i|] eqn:Ei.
  - unfold located_account, located_users. cbn. rewrite String.eqb_refl.
    destruct (findIndex_Some _ _ _ Ei) as (u & -> & _). reflexivity.
  - unfold accounts in IH. rewrite (IH Hnd').
    destruct (findUserAndBin_entries recs userId) as [l|] eqn:El; trivial.
    unfold located_account, located_users.
    rewrite bin_users_cons_other; trivial.
    intros ->. apply Hnotin. eapply findUserAndBin_entries_key; eauto.
Qed.

Lemma located_account_found (recs : BinRecords) (userId : Z) (l : Located) :
  NoDup (map fst recs) ->
  findUserAndBin_entries recs userId = Some l ->
  exists u, located_account recs l = Some u /\ user_id u = userId.
Proof.
  intros Hnd Hl. pose proof (find_located recs userId Hnd) as H.
  rewrite Hl in H.
  destruct (find (fun u => user_id u =? userId) (accounts recs)) as [u|] eqn:E.
  - exists u. split; [congruence|].
    apply find_some in E. now apply Z.eqb_eq.
  - exfalso. clear H. revert Hl E. unfold accounts.
    induction recs as [|[b record] recs IH]; cbn; [discriminate|].
    inversion Hnd; subst. rewrite find_app, find_findIndex.
    destruct (findIndex _ (users record)) as [i|] eqn:Ei.
    + destruct (findIndex_Some _ _ _ Ei) as (u & -> & _). discriminate.
    + now apply IH.
Qed.

Lemma map_fst_modify_user recs b i f :
  map fst (modify_user recs b i f) = map fst recs.
Proof.
  induction recs as [|[b' record] recs IH]; cbn; trivial.
  destruct (String.eqb b' b); cbn; [reflexivity|now rewrite IH].
Qed.

Lemma nth_error_update_nth {A : Type} (f : A -> A) (l : list A) (i j : nat) :
  nth_error (update_nth i f l) j =
  if Nat.eqb i j then option_map f (nth_error l j) else nth_error l j.
Proof.
  revert i j. induction l as [|a l IH]; intros [|i] [|j]; cbn; trivial.
  all: try apply IH.
  all: now destruct (Nat.eqb i j).
Qed.

Lemma bin_users_modify_user recs b i f b' :
  bin_users (modify_user recs b i f) b' =
  if String.eqb b b' then update_nth i f (bin_users recs b')
  else bin_users recs b'.
Proof.
  induction recs as [|[k record] recs IH]; cbn.
  - now destruct (String.eqb b b').
  - destruct (String.eqb k b) eqn:Ekb; cbn.
    + apply String.eqb_eq in Ekb. subst k.
      now destruct (String.eqb b b').
    + destruct (String.eqb k b') eqn:Ekb'; [|exact IH].
      apply String.eqb_eq in Ekb'. subst k.
      rewrite String.eqb_sym in Ekb. now rewrite Ekb.
Qed.

(** Reading an account after an edit: the edit shows exactly at the edited
    place, through whichever reference the account is read. *)
Lemma located_account_modify recs l f l' :
  located_account (modify_located recs l f) l' =
  if same_located l l' then option_map f (located_account recs l')
  else located_account recs l'.
Proof.
  unfold located_account, located_users, modify_located, same_located.
  rewrite bin_users_modify_user.
  destruct (String.eqb (binId l) (binId l')); cbn; trivial.
  apply nth_error_update_nth.
Qed.

Lemma findIndex_update_nth {A : Type} (p : A -> bool) (f : A -> A) i l :
  (forall x, p (f x) = p x) ->
  findIndex p (update_nth i f l) = findIndex p l.
Proof.
  intros Hf. revert i. induction l as [|a l IH]; intros [|i]; cbn; trivial.
  - now rewrite Hf.
  - now rewrite IH.
Qed.

(** Edits that keep the ids keep every account where the locator finds it. *)
Lemma findUserAndBin_entries_modify recs b i f userId :
  (forall u, user_id (f u) = user_id u) ->
  findUserAndBin_entries (modify_user recs b i f) userId
  = findUserAndBin_entries recs userId.
Proof.
  intros Hf. induction recs as [|[k record] recs IH]; cbn; trivial.
  destruct (String.eqb k b); cbn.
  - rewrite findIndex_update_nth; trivial. intros u. now rewrite Hf.
  - now rewrite IH.
Qed.

Lemma sum_tokens_app us1 us2 :
  sum_tokens (us1 ++ us2) = sum_tokens us1 + sum_tokens us2.
Proof.
  unfold sum_tokens. induction us1 as [|u us1 IH]; cbn; [reflexivity|].
  cbn in IH. rewrite IH. lia.
Qed.

Lemma sum_tokens_update_nth i f us :
  sum_tokens (update_nth i f us) =
  match nth_error us i with
  | Some u => sum_tokens us - authTokens u + authTokens (f u)
  | None => sum_tokens us
  end.
Proof.
  unfold sum_tokens.
  revert i. induction us as [|a us IH]; intros [|i]; cbn; trivial; [lia|].
  rewrite IH. destruct (nth_error us i); lia.
Qed.

(** The effect of one edit on the sum of all balances. *)
Lemma accounts_cons b record recs :
  accounts ((b, record) :: recs) = users record ++ accounts recs.
Proof. reflexivity. Qed.

Lemma total_balance_modify recs l f :
  total_balance (modify_located recs l f) =
  match located_account recs l with
  | Some u => total_balance recs - authTokens u + authTokens (f u)
  | None => total_balance recs
  end.
Proof.
  unfold total_balance, located_account, located_users, modify_located.
  fold (sum_tokens (accounts (modify_user recs (binId l) (userIndex l) f))).
  fold (sum_tokens (accounts recs)).
  induction recs as [|[k record] recs IH].
  - cbn. now destruct (userIndex l).
  - cbn [modify_user bin_users]. destruct (String.eqb k (binId l)).
    + rewrite !accounts_cons, !sum_tokens_app. cbn [users].
      rewrite sum_tokens_update_nth.
      destruct (nth_error (users record) (userIndex l)); lia.
    + rewrite !accounts_cons, !sum_tokens_app, IH.
      destruct (nth_error (bin_users recs (binId l)) (userIndex l)); lia.
Qed.

(** ** What the handlers see of the store *)

Lemma NoDup_ALL_USERS_BIN_IDS : NoDup ALL_USERS_BIN_IDS.
Proof.
  rewrite ALL_USERS_BIN_IDS_eq.
  assert (H : USERS_BIN_1 <> USERS_BIN_2)
    by (apply String.eqb_neq, USERS_BINS_distinct).
  repeat constructor; cbn; intuition.
Qed.

Lemma fetched_shape (w : World) (userRecords : UserRecords) :
  fetchAllUserRecords w = Some userRecords ->
  map fst (binRecords userRecords) = ALL_USERS_BIN_IDS /\
  allUsers userRecords = accounts (binRecords userRecords) /\
  bin_users (binRecords userRecords) USERS_BIN_1 = stored_users w USERS_BIN_1 /\
  bin_users (binRecords userRecords) USERS_BIN_2 = stored_users w USERS_BIN_2.
Proof.
  intros H.
  destruct (fetchAllUserRecords_Some _ _ H) as (r1 & v1 & r2 & v2 & H1 & H2 & ->).
  cbn [binRecords allUsers bin_users users map fst].
  rewrite String.eqb_refl, USERS_BINS_distinct, String.eqb_refl.
  rewrite (stored_users_read _ _ _ _ H1), (stored_users_read _ _ _ _ H2).
  repeat split. unfold accounts. cbn. now rewrite app_nil_r.
Qed.

Lemma fetched_NoDup (w : World) (userRecords : UserRecords) :
  fetchAllUserRecords w = Some userRecords ->
  NoDup (map fst (binRecords userRecords)).
Proof.
  intros H. destruct (fetched_shape _ _ H) as (-> & _).
  apply NoDup_ALL_USERS_BIN_IDS.
Qed.

(** [lookupAccount] reads the account the locator finds. *)
Lemma lookupAccount_located (w : World) (userRecords : UserRecords) (userId : Z) :
  fetchAllUserRecords w = Some userRecords ->
  lookupAccount w userId =
  match findUserAndBin userRecords userId with
  | Some l => located_account (binRecords userRecords) l
  | None => None
  end.
Proof.
  intros H. unfold lookupAccount, findUserAndBin. rewrite H.
  destruct (fetched_shape _ _ H) as (_ & -> & _).
  apply find_located. eapply fetched_NoDup; eauto.
Qed.

Lemma lookupAccount_Some (w : World) (userId : Z) (u : User) :
  lookupAccount w userId = Some u ->
  exists userRecords l,
    fetchAllUserRecords w = Some userRecords /\
    findUserAndBin userRecords userId = Some l /\
    located_account (binRecords userRecords) l = Some u /\
    user_id u = userId.
Proof.
  intros H. destruct (fetchAllUserRecords w) as [userRecords|] eqn:Hread.
  - rewrite (lookupAccount_located _ _ _ Hread) in H.
    destruct (findUserAndBin userRecords userId) as [l|] eqn:Hl; [|discriminate].
    exists userRecords, l. repeat split; trivial.
    destruct (located_account_found _ _ _ (fetched_NoDup _ _ Hread) Hl)
      as (u' & Hu' & Hid).
    congruence.
  - unfold lookupAccount in H. now rewrite Hread in H.
Qed.

Ltac step_handler := cbv beta iota zeta.

Ltac run_handler :=
  unfold try_catch, put_bin, record_list, record_required, bind,
    fetchAllUserRecordsM, fetch_latest, json, record_of, or_throw, locate;
  unfold ret, respond, throw;
  step_handler.

(** ** Debits and the balance guard *)

(** The fee handler rejects a payer who cannot pay, and writes nothing. *)
Lemma pay_fee_insufficient (env : Env) (w : World) (userId : Z) (payer : User) :
  lookupAccount w userId = Some payer ->
  authTokens payer < fee ->
  pay_fee env (Some userId) w
  = (mkReply 400 false "Not enough AuthTokens." NoExtra, w).
Proof.
  intros Hlook Hlt.
  destruct (lookupAccount_Some _ _ _ Hlook) as (recs & l & Hread & Hl & Hacc & _).
  unfold pay_fee. run_handler. rewrite Hread. step_handler.
  rewrite Hl, Hacc. apply Z.ltb_lt in Hlt. now rewrite Hlt.
Qed.

(** So does the group handler, once its reads have succeeded. *)
Lemma create_group_insufficient (env : Env) (req : CreateGroupReq) (w : World)
  (userId : Z) (groupName groupDescription : string) (payer : User) :
  truthy (cg_userId req) = Some userId ->
  truthy (cg_groupName req) = Some groupName ->
  truthy (cg_groupDescription req) = Some groupDescription ->
  read_fails (latest w USER_GROUPS_BIN_ID) = false ->
  lookupAccount w userId = Some payer ->
  authTokens payer < 5000 ->
  create_group env req w
  = (mkReply 403 false "Insufficient AuthTokens." NoExtra, w).
Proof.
  unfold create_group. intros -> -> -> Hgroups Hlook Hlt.
  destruct (lookupAccount_Some _ _ _ Hlook) as (recs & l & Hread & Hl & Hacc & _).
  run_handler. rewrite Hread. step_handler.
  destruct (latest w USER_GROUPS_BIN_ID) as [|[] [[|r v]|]]; try discriminate.
  cbn [fst snd negb]. step_handler.
  rewrite Hl, Hacc. apply Z.ltb_lt in Hlt. now rewrite Hlt.
Qed.

(** ** The purchase handlers and the [user] property *)

Section PurchaseFacts.

Variables floor_035 floor_005 floor_070 : Z -> Z.

Ltac split_handler :=
  repeat (match goal with
          | |- context [match ?x with _ => _ end] =>
              lazymatch x with
              | context [match _ with _ => _ end] => fail
              | _ => destruct x eqn:?
              end
          end; cbn [fst snd]; step_handler).

Lemma purchase_gamepass_never_succeeds env req w :
  success (fst (purchase_gamepass floor_035 floor_005 env req w)) = false /\
  snd (purchase_gamepass floor_035 floor_005 env req w) = w.
Proof.
  unfold purchase_gamepass, Located_user.
  run_handler. split_handler; now split.
Qed.

Lemma authdonate_purchase_never_succeeds env req w :
  success (fst (authdonate_purchase floor_070 env req w)) = false /\
  snd (authdonate_purchase floor_070 env req w) = w.
Proof.
  unfold authdonate_purchase, Located_user.
  run_handler. split_handler; now split.
Qed.

Lemma floorislava_purchase_never_succeeds env userId w :
  success (fst (floorislava_purchase env userId w)) = false /\
  snd (floorislava_purchase env userId w) = w.
Proof.
  unfold floorislava_purchase, Located_user.
  run_handler. split_handler; now split.
Qed.

(** C9, as the code has it.  The object [findUserAndBin] returns has no
    [user] property.  So a request to one of the three purchase endpoints that
    passes the checks before the balance check (fields present, game or
    gamepass known, reads delivered, buyer and owner found) throws at
    [buyer.authTokens], is answered with the handler's 500 reply and writes
    nothing; and no request to these endpoints, whatever it holds, is answered
    with success or changes the store. *)
Theorem purchases_throw_before_balance_check (env : Env) (w : World) :
  (forall allRecords userId l,
      findUserAndBin allRecords userId = Some l -> Located_user l = None) /\
  (forall req userId gameId gamepassId price bin ok r v userRecords
          buyerBinData owner,
      truthy (pg_userId req) = Some userId ->
      truthy (pg_gameId req) = Some gameId ->
      truthy (pg_gamepassId req) = Some gamepassId ->
      truthy (pg_price req) = Some price ->
      gamepass_bin gameId = Some bin ->
      fetchAllUserRecords w = Some userRecords ->
      latest w bin = Resolved ok (Some (JsonObject r v)) ->
      findUserAndBin userRecords userId = Some buyerBinData ->
      find_by_username "madeonice" (allUsers userRecords) = Some owner ->
      purchase_gamepass floor_035 floor_005 env req w = (internal_error, w)) /\
  (forall req buyerId gamepassId userRecords ok1 d1 v1 ok2 d2 v2 ok3 d3 v3
          passes gamepass buyerBinData ownerBinData,
      truthy (ad_buyerId req) = Some buyerId ->
      truthy (ad_gamepassId req) = Some gamepassId ->
      fetchAllUserRecords w = Some userRecords ->
      latest w AUTHDONATE_GAMEPASS_BIN_ID
        = Resolved ok1 (Some (JsonObject (Some d1) v1)) ->
      latest w DONATED_LEADERBOARD_BIN_ID
        = Resolved ok2 (Some (JsonObject (Some d2) v2)) ->
      latest w RAISED_LEADERBOARD_BIN_ID
        = Resolved ok3 (Some (JsonObject (Some d3) v3)) ->
      doc_gamepasses d1 = Some passes ->
      find (fun gp => gp_id gp =? gamepassId) passes = Some gamepass ->
      findUserAndBin userRecords buyerId = Some buyerBinData ->
      findUserAndBin userRecords (gp_ownerId gamepass) = Some ownerBinData ->
      authdonate_purchase floor_070 env req w
      = (mkReply 500 false "Server error during purchase." NoExtra, w)) /\
  (forall userId buyerId userRecords buyerData,
      truthy userId = Some buyerId ->
      fetchAllUserRecords w = Some userRecords ->
      findUserAndBin userRecords buyerId = Some buyerData ->
      floorislava_purchase env userId w = (internal_error, w)) /\
  (forall req,
      success (fst (purchase_gamepass floor_035 floor_005 env req w)) = false /\
      snd (purchase_gamepass floor_035 floor_005 env req w) = w) /\
  (forall req,
      success (fst (authdonate_purchase floor_070 env req w)) = false /\
      snd (authdonate_purchase floor_070 env req w) = w) /\
  (forall userId,
      success (fst (floorislava_purchase env userId w)) = false /\
      snd (floorislava_purchase env userId w) = w).
Proof.
  split; [reflexivity|].
  split; [|split; [|split; [|split; [|split]]]].
  - intros req userId gameId gamepassId price bin ok r v userRecords
      buyerBinData owner Hu Hg Hp Hpr Hbin Hread Hpass Hbuyer Howner.
    unfold purchase_gamepass, Located_user.
    rewrite Hu, Hg, Hp, Hpr. run_handler.
    rewrite Hbin. step_handler. rewrite Hread. step_handler.
    rewrite Hpass. cbn [snd]. step_handler.
    rewrite Hbuyer, Howner. reflexivity.
  - intros req buyerId gamepassId userRecords ok1 d1 v1 ok2 d2 v2 ok3 d3 v3
      passes gamepass buyerBinData ownerBinData
      Hb Hg Hread H1 H2 H3 Hpasses Hgp Hbuyer Howner.
    unfold authdonate_purchase, Located_user.
    rewrite Hb, Hg. run_handler.
    rewrite Hread. step_handler. rewrite H1, H2, H3. cbn [snd]. step_handler.
    rewrite Hpasses, Hgp, Hbuyer, Howner. reflexivity.
  - intros userId buyerId userRecords buyerData Hu Hread Hbuyer.
    unfold floorislava_purchase, Located_user. rewrite Hu. run_handler.
    rewrite Hread. step_handler. rewrite Hbuyer. reflexivity.
  - intros req. apply purchase_gamepass_never_succeeds.
  - intros req. apply authdonate_purchase_never_succeeds.
  - intros userId. apply floorislava_purchase_never_succeeds.
Qed.

End PurchaseFacts.

(** C9, as the specification states it, fails: the buyer exists, the game is unknown,
    and the answer is the 404 of the game check, not the 500 of a throw. *)
Lemma purchase_of_unknown_game_answers_404 :
  lookupAccount (store_of [ann; madeonice] [bob]) 1 = Some ann /\
  purchase_gamepass (floor_percent 35) (floor_percent 5) quiet
    (mkGamepassReq (Some 1) (Some "chess") (Some "vip") (Some 100))
    (store_of [ann; madeonice] [bob])
  = (mkReply 404 false "Game not found for gamepass system." NoExtra,
     store_of [ann; madeonice] [bob]) /\
  mkReply 404 false "Game not found for gamepass system." NoExtra
  <> internal_error.
Proof. repeat split. discriminate. Qed.

Lemma purchases_throw_before_balance_check_witness :
  purchase_gamepass (floor_percent 35) (floor_percent 5) quiet
    (mkGamepassReq (Some 1) (Some "dodge-the-blocks") (Some "vip") (Some 100))
    (store_of [ann; madeonice] [bob])
  = (internal_error, store_of [ann; madeonice] [bob]).
Proof.
  refine (proj1 (proj2
            (purchases_throw_before_balance_check
               (floor_percent 35) (floor_percent 5) (floor_percent 70)
               quiet (store_of [ann; madeonice] [bob])))
            (mkGamepassReq (Some 1) (Some "dodge-the-blocks") (Some "vip")
               (Some 100))
            1 "dodge-the-blocks" "vip" 100 DODGE_GAMEPASS_BIN_ID true
            (Some empty_document) 1%nat (view_of [ann; madeonice] [bob])
            (mkLocated USERS_BIN_1 0) madeonice _ _ _ _ _ _ _ _ _);
    reflexivity.
Defined.

(** C2 at a purchase: bob holds 100 tokens and buys a pass priced 500.  The
    handler answers with the 500 of its [catch], not with the
    "Insufficient AuthTokens." reply its balance check holds ready; nothing
    is written. *)
Theorem purchase_with_insufficient_balance_answers_500 :
  lookupAccount (store_of [ann; madeonice] [bob]) 2 = Some bob /\
  authTokens bob < 500 /\
  purchase_gamepass (floor_percent 35) (floor_percent 5) quiet
    (mkGamepassReq (Some 2) (Some "dodge-the-blocks") (Some "vip") (Some 500))
    (store_of [ann; madeonice] [bob])
  = (internal_error, store_of [ann; madeonice] [bob]) /\
  internal_error <> mkReply 400 false "Insufficient AuthTokens." NoExtra.
Proof. repeat split. discriminate. Qed.

(** ** Writes and what is read after them *)

Lemma latest_store_same w b doc :
  latest (store w b doc) b
  = Resolved true (Some (JsonObject (Some doc) (S (revision_at w b)))).
Proof. cbn. now rewrite String.eqb_refl. Qed.

Lemma latest_store_other w b doc b' :
  b' <> b -> latest (store w b doc) b' = latest w b'.
Proof. intros H. cbn. apply String.eqb_neq in H. now rewrite H. Qed.

Lemma stored_users_store w b us b' :
  stored_users (store w b (users_doc us)) b' =
  if String.eqb b' b then us else stored_users w b'.
Proof.
  unfold stored_users. cbn [store latest].
  now destruct (String.eqb b' b).
Qed.

Lemma read_fails_store w b doc b' :
  read_fails (latest w b') = false ->
  read_fails (latest (store w b doc) b') = false.
Proof.
  cbn [store latest]. now destruct (String.eqb b' b).
Qed.

Lemma read_fails_store_same w b doc :
  read_fails (latest (store w b doc) b) = false.
Proof. now rewrite latest_store_same. Qed.

Lemma fetched_readable (w : World) (userRecords : UserRecords) (b : string) :
  fetchAllUserRecords w = Some userRecords ->
  In b ALL_USERS_BIN_IDS ->
  read_fails (latest w b) = false.
Proof.
  intros H Hb. apply In_ALL_USERS_BIN_IDS in Hb.
  destruct (fetchAllUserRecords_Some _ _ H) as (r1 & v1 & r2 & v2 & H1 & H2 & _).
  destruct Hb as [-> | ->]; [now rewrite H1 | now rewrite H2].
Qed.

Lemma accounts_two (recs : BinRecords) :
  map fst recs = ALL_USERS_BIN_IDS ->
  accounts recs = bin_users recs USERS_BIN_1 ++ bin_users recs USERS_BIN_2.
Proof.
  rewrite ALL_USERS_BIN_IDS_eq.
  destruct recs as [|[k1 r1] [|[k2 r2] [|? ?]]]; try discriminate.
  cbn [map fst]. intros [= -> ->].
  unfold accounts. cbn [flat_map bin_users snd users].
  rewrite !String.eqb_refl, USERS_BINS_distinct.
  now rewrite app_nil_r.
Qed.

(** Reading the registry when the store holds, partition by partition, the
    arrays of [recs]: [lookupAccount] reads in the store the account the
    locator finds in [recs]. *)
Lemma lookupAccount_agrees (w : World) (recs : BinRecords) (userId : Z) :
  map fst recs = ALL_USERS_BIN_IDS ->
  (forall b, In b ALL_USERS_BIN_IDS ->
             read_fails (latest w b) = false /\
             stored_users w b = bin_users recs b) ->
  lookupAccount w userId =
  match findUserAndBin_entries recs userId with
  | Some l => located_account recs l
  | None => None
  end.
Proof.
  intros Hkeys Hbins.
  destruct (Hbins USERS_BIN_1) as [Hr1 Hs1];
    [apply In_ALL_USERS_BIN_IDS; now left|].
  destruct (Hbins USERS_BIN_2) as [Hr2 Hs2];
    [apply In_ALL_USERS_BIN_IDS; now right|].
  rewrite <- find_located by (rewrite Hkeys; apply NoDup_ALL_USERS_BIN_IDS).
  rewrite (accounts_two _ Hkeys), <- Hs1, <- Hs2.
  unfold lookupAccount. rewrite fetchAllUserRecords_spec.
  destruct (latest w USERS_BIN_1) as [|[] [[|r1 v1]|]] eqn:E1; try discriminate.
  destruct (latest w USERS_BIN_2) as [|[] [[|r2 v2]|]] eqn:E2; try discriminate.
  cbn [allUsers].
  now rewrite (stored_users_read _ _ _ _ E1), (stored_users_read _ _ _ _ E2).
Qed.

(** ** Write-back *)

(** What the fee handler does for a payer who can pay: one [PUT] of the
    payer's partition, built from the accounts read at the start, onto
    whatever the store holds by then; success unless the request itself
    fails. *)
Lemma pay_fee_commits (env : Env) (w : World) (userId : Z)
  (userRecords : UserRecords) (l : Located) (payer : User) :
  fetchAllUserRecords w = Some userRecords ->
  findUserAndBin userRecords userId = Some l ->
  located_account (binRecords userRecords) l = Some payer ->
  fee <= authTokens payer ->
  pay_fee env (Some userId) w =
  match put_outcome env (binId l) with
  | PutStored =>
      (mkReply 200 true "Payment successful!"
         (NewAuthTokens (authTokens payer - fee)),
       store (concurrent env w) (binId l)
         (users_doc (update_nth (userIndex l) (debit fee)
                       (bin_users (binRecords userRecords) (binId l)))))
  | PutRefused =>
      (mkReply 200 true "Payment successful!"
         (NewAuthTokens (authTokens payer - fee)),
       concurrent env w)
  | PutRejected => (internal_error, concurrent env w)
  end.
Proof.
  intros Hread Hl Hacc Hfee.
  unfold pay_fee. run_handler. rewrite Hread. step_handler.
  rewrite Hl, Hacc. apply Z.ltb_ge in Hfee. rewrite Hfee.
  unfold put_all, put_users. cbn [issue_puts]. unfold issue_put.
  rewrite located_account_modify. unfold same_located.
  rewrite String.eqb_refl, Nat.eqb_refl, Hacc. cbn [andb option_map].
  unfold modify_located. rewrite bin_users_modify_user, String.eqb_refl.
  destruct (put_outcome env (binId l)); reflexivity.
Qed.

Lemma create_group_commits (env : Env) (req : CreateGroupReq) (w : World)
  (userId : Z) (groupName groupDescription : string)
  (userRecords : UserRecords) (l : Located) (payer : User)
  (r : option Document) (v : nat) :
  truthy (cg_userId req) = Some userId ->
  truthy (cg_groupName req) = Some groupName ->
  truthy (cg_groupDescription req) = Some groupDescription ->
  fetchAllUserRecords w = Some userRecords ->
  latest w USER_GROUPS_BIN_ID = Resolved true (Some (JsonObject r v)) ->
  findUserAndBin userRecords userId = Some l ->
  located_account (binRecords userRecords) l = Some payer ->
  5000 <= authTokens payer ->
  put_outcome env (binId l) = PutStored ->
  put_outcome env USER_GROUPS_BIN_ID = PutStored ->
  create_group env req w =
  (mkReply 200 true "Group created successfully!"
     (NewGroup (new_group env req userId groupName groupDescription
                  (groups_of_record r))),
   store
     (store (concurrent env w) (binId l)
        (users_doc (update_nth (userIndex l) (debit 5000)
                      (bin_users (binRecords userRecords) (binId l)))))
     USER_GROUPS_BIN_ID
     (groups_doc (groups_of_record r
                    ++ [new_group env req userId groupName groupDescription
                          (groups_of_record r)]))).
Proof.
  unfold create_group. intros -> -> -> Hread Hgroups Hl Hacc Hbal Hput1 Hput2.
  run_handler. rewrite Hread. step_handler. rewrite Hgroups.
  cbn [fst snd negb]. step_handler. rewrite Hl, Hacc.
  apply Z.ltb_ge in Hbal. rewrite Hbal.
  unfold put_all, put_users. cbn [issue_puts]. unfold issue_put.
  rewrite Hput1, Hput2. cbn [await_all forallb andb].
  unfold modify_located. rewrite bin_users_modify_user, String.eqb_refl.
  reflexivity.
Qed.




(** ** Read-your-write *)

Lemma users_search_found (w : World) (userId : Z) (u : User) :
  lookupAccount w userId = Some u ->
  users_search (Some userId) w
  = (mkReply 200 true "" (FoundUser (publicUser u)), w).
Proof.
  unfold lookupAccount, users_search. run_handler.
  destruct (fetchAllUserRecords w) as [userRecords|]; [|discriminate].
  step_handler. destruct (allUsers userRecords) as [|a rest]; [discriminate|].
  now intros ->.
Qed.

(** A successful reply of the fee handler comes from the paying branch. *)
Lemma pay_fee_success_inv (env : Env) (w : World) (userId : Z) :
  success (fst (pay_fee env (Some userId) w)) = true ->
  exists userRecords l payer,
    fetchAllUserRecords w = Some userRecords /\
    findUserAndBin userRecords userId = Some l /\
    located_account (binRecords userRecords) l = Some payer /\
    fee <= authTokens payer.
Proof.
  unfold pay_fee. run_handler.
  destruct (fetchAllUserRecords w) as [userRecords|] eqn:Hread;
    [|discriminate].
  step_handler.
  destruct (findUserAndBin userRecords userId) as [l|] eqn:Hl; [|discriminate].
  destruct (located_account (binRecords userRecords) l) as [payer|] eqn:Hacc;
    [|discriminate].
  destruct (authTokens payer <? fee) eqn:Hfee; [discriminate|].
  intros _. exists userRecords, l, payer. repeat split; trivial.
  now apply Z.ltb_ge.
Qed.

(** After the handler has stored the array of bin [binId l] of the edited
    records, and with no other write, the registry reads the edited account. *)
Lemma lookupAccount_after_store (w : World) (userRecords : UserRecords)
  (userId : Z) (l : Located) (u : User) (f : User -> User) :
  fetchAllUserRecords w = Some userRecords ->
  findUserAndBin userRecords userId = Some l ->
  located_account (binRecords userRecords) l = Some u ->
  (forall u', user_id (f u') = user_id u') ->
  lookupAccount
    (store w (binId l)
       (users_doc (update_nth (userIndex l) f
                     (bin_users (binRecords userRecords) (binId l)))))
    userId
  = Some (f u).
Proof.
  intros Hread Hl Hacc Hf.
  destruct (fetched_shape _ _ Hread) as (Hkeys & _ & Hs1 & Hs2).
  set (recs := modify_located (binRecords userRecords) l f).
  rewrite (lookupAccount_agrees _ recs).
  - unfold recs, modify_located.
    rewrite findUserAndBin_entries_modify by exact Hf.
    unfold findUserAndBin in Hl. rewrite Hl.
    fold (modify_located (binRecords userRecords) l f).
    rewrite located_account_modify. unfold same_located.
    now rewrite String.eqb_refl, Nat.eqb_refl, Hacc.
  - unfold recs, modify_located. now rewrite map_fst_modify_user.
  - intros b Hb. split.
    + apply read_fails_store. eapply fetched_readable; eauto.
    + rewrite stored_users_store. unfold recs, modify_located.
      rewrite bin_users_modify_user, (String.eqb_sym b).
      destruct (String.eqb (binId l) b) eqn:E.
      * apply String.eqb_eq in E. now rewrite E.
      * apply In_ALL_USERS_BIN_IDS in Hb. destruct Hb as [-> | ->]; congruence.
Qed.

Lemma user_id_debit amount u : user_id (debit amount u) = user_id u.
Proof. reflexivity. Qed.

(** C8. When the fee handler answers with success, the backend has stored
    its write and nobody else has written, a lookup of the payer reads the
    account exactly as written: the payer of before with the fee taken off;
    the reply carries that balance, and the search endpoint shows the public
    part of that account. *)
Theorem read_your_write (env : Env) (w : World) (userId : Z) :
  (forall b, put_outcome env b = PutStored) ->
  (forall w0, concurrent env w0 = w0) ->
  success (fst (pay_fee env (Some userId) w)) = true ->
  exists payer,
    lookupAccount w userId = Some payer /\
    fst (pay_fee env (Some userId) w)
      = mkReply 200 true "Payment successful!"
          (NewAuthTokens (authTokens (debit fee payer))) /\
    lookupAccount (snd (pay_fee env (Some userId) w)) userId
      = Some (debit fee payer) /\
    fst (users_search (Some userId) (snd (pay_fee env (Some userId) w)))
      = mkReply 200 true "" (FoundUser (publicUser (debit fee payer))).
Proof.
  intros Hput Hquiet Hok.
  destruct (pay_fee_success_inv _ _ _ Hok)
    as (userRecords & l & payer & Hread & Hl & Hacc & Hfee).
  exists payer.
  rewrite (pay_fee_commits _ _ _ _ _ _ Hread Hl Hacc Hfee), Hput, Hquiet.
  cbn [fst snd].
  assert (Hlook : lookupAccount
            (store w (binId l)
               (users_doc (update_nth (userIndex l) (debit fee)
                             (bin_users (binRecords userRecords) (binId l)))))
            userId = Some (debit fee payer))
    by (eapply lookupAccount_after_store; eauto using user_id_debit).
  repeat split; trivial.
  - now rewrite (lookupAccount_located _ _ _ Hread), Hl.
  - now rewrite (users_search_found _ _ _ Hlook).
Qed.

Lemma read_your_write_witness :
  exists payer,
    lookupAccount (store_of [ann] [bob]) 1 = Some payer /\
    fst (pay_fee quiet (Some 1) (store_of [ann] [bob]))
      = mkReply 200 true "Payment successful!"
          (NewAuthTokens (authTokens (debit fee payer))) /\
    lookupAccount (snd (pay_fee quiet (Some 1) (store_of [ann] [bob]))) 1
      = Some (debit fee payer) /\
    fst (users_search (Some 1)
           (snd (pay_fee quiet (Some 1) (store_of [ann] [bob]))))
      = mkReply 200 true "" (FoundUser (publicUser (debit fee payer))).
Proof.
  apply (read_your_write quiet (store_of [ann] [bob]) 1); reflexivity.
Defined.

(** ** Accepting a friend request *)

Lemma issue_puts_stored (env : Env) (m : BinRecords) (bins : list string)
  (w : World) (b : string) :
  (forall b', put_outcome env b' = PutStored) ->
  stored_users (snd (issue_puts env w (map (put_users m) bins))) b =
  if existsb (String.eqb b) bins then bin_users m b else stored_users w b.
Proof.
  intros Hput. revert w. induction bins as [|b0 bins IH]; intros w; cbn; trivial.
  unfold issue_put. rewrite Hput.
  destruct (issue_puts env (store w b0 (users_doc (bin_users m b0)))
              (map (put_users m) bins)) as [ress w2] eqn:E.
  cbn [snd]. replace w2 with (snd (issue_puts env
      (store w b0 (users_doc (bin_users m b0))) (map (put_users m) bins)))
    by now rewrite E.
  rewrite IH, stored_users_store.
  destruct (String.eqb b b0) eqn:Eb; cbn [orb].
  - apply String.eqb_eq in Eb. subst b0. now destruct (existsb _ bins).
  - reflexivity.
Qed.

Lemma issue_puts_readable (env : Env) (puts : list (string * Document))
  (w : World) (b : string) :
  read_fails (latest w b) = false ->
  read_fails (latest (snd (issue_puts env w puts)) b) = false.
Proof.
  revert w. induction puts as [|[b0 doc] puts IH]; intros w Hr; cbn; trivial.
  unfold issue_put.
  destruct (put_outcome env b0);
    match goal with
    | |- context [issue_puts env ?w0 puts] =>
        specialize (IH w0); destruct (issue_puts env w0 puts) as [ress w2]
    end; cbn [snd] in *; apply IH; trivial.
  now apply read_fails_store.
Qed.

Lemma issue_puts_resolve (env : Env) (puts : list (string * Document))
  (w : World) :
  (forall b', put_outcome env b' <> PutRejected) ->
  exists oks, await_all (fst (issue_puts env w puts)) = Some oks.
Proof.
  intros Hput. revert w. induction puts as [|[b0 doc] puts IH]; intros w; cbn.
  - now exists [].
  - unfold issue_put. specialize (Hput b0).
    destruct (put_outcome env b0); [| |congruence];
      match goal with
      | |- context [issue_puts env ?w0 puts] =>
          specialize (IH w0); destruct (issue_puts env w0 puts) as [ress w2]
      end; cbn [fst await_all] in *; destruct IH as (oks & ->); now eexists.
Qed.

Lemma occurrences_add_friend (x : Z) (u : User) (fs : list Z) :
  friends u = Some fs ->
  occurrences x (friends (add_friend x u))
  = Nat.max 1 (occurrences x (friends u)).
Proof.
  unfold add_friend, occurrences, includes. intros Hfs. rewrite Hfs.
  destruct (existsb (Z.eqb x) fs) eqn:E.
  - rewrite Hfs. apply existsb_exists in E. destruct E as (y & Hin & Hy).
    apply Z.eqb_eq in Hy. subst y.
    apply (count_occ_In Z.eq_dec) in Hin. lia.
  - cbn [set_friends friends]. rewrite count_occ_app. cbn [count_occ].
    destruct (Z.eq_dec x x) as [_|Hne]; [|congruence].
    assert (Hnot : ~ In x fs).
    { intros Hin. assert (existsb (Z.eqb x) fs = true); [|congruence].
      apply existsb_exists. exists x. split; trivial. apply Z.eqb_refl. }
    apply (count_occ_not_In Z.eq_dec) in Hnot. lia.
Qed.

Lemma friends_init_friends (u : User) :
  exists fs, friends (init_friends u) = Some fs /\
             forall x, occurrences x (friends (init_friends u))
                       = occurrences x (friends u).
Proof.
  unfold init_friends. destruct (friends u) as [fs|] eqn:E.
  - exists fs. now rewrite E.
  - now exists [].
Qed.

Lemma friends_add_friend (x : Z) (u : User) (fs : list Z) :
  friends u = Some fs -> exists fs', friends (add_friend x u) = Some fs'.
Proof.
  unfold add_friend. intros Hfs. rewrite Hfs.
  destruct (includes fs x); [now exists fs | now eexists].
Qed.

Lemma requests_from_add_friend x y u :
  requests_from x (add_friend y u) = requests_from x u.
Proof.
  unfold add_friend, requests_from.
  destruct (friends u) as [fs|]; trivial. now destruct (includes fs y).
Qed.

Lemma requests_from_init_friends x u :
  requests_from x (init_friends u) = requests_from x u.
Proof.
  unfold init_friends, requests_from. now destruct (friends u).
Qed.

Lemma requests_from_drop (x : Z) (u : User) :
  requests_from x (drop_requests_from x u) = [].
Proof.
  unfold requests_from, drop_requests_from. cbn.
  induction (match friendRequests u with Some rs => rs | None => [] end)
    as [|r rs IH]; cbn; trivial.
  destruct (req_from r =? x) eqn:E; cbn; trivial. now rewrite E.
Qed.

Lemma same_located_refl l : same_located l l = true.
Proof. unfold same_located. now rewrite String.eqb_refl, Nat.eqb_refl. Qed.

Lemma same_located_sym l l' : same_located l l' = same_located l' l.
Proof.
  unfold same_located. now rewrite String.eqb_sym, Nat.eqb_sym.
Qed.

Lemma same_located_eq l l' : same_located l l' = true -> l = l'.
Proof.
  unfold same_located. destruct l, l'. cbn. intros H.
  apply andb_prop in H. destruct H as [Hb Hi].
  apply String.eqb_eq in Hb. apply Nat.eqb_eq in Hi. now subst.
Qed.

(** What the handler does once both accounts are found: the edits, then the
    writes, then success unless a write request failed. *)
Lemma friends_accept_runs (env : Env) (req : AcceptReq) (w : World)
  (accepterId requesterId : Z) (userRecords : UserRecords) (la lr : Located) :
  truthy (fa_accepterId req) = Some accepterId ->
  truthy (fa_requesterId req) = Some requesterId ->
  fetchAllUserRecords w = Some userRecords ->
  findUserAndBin userRecords accepterId = Some la ->
  findUserAndBin userRecords requesterId = Some lr ->
  friends_accept env req w =
  let recs :=
    accept_edits (binRecords userRecords) la lr accepterId requesterId in
  let written :=
    issue_puts env (concurrent env w)
      (map (put_users recs) (accept_bins la lr)) in
  (match await_all (fst written) with
   | Some _ => mkReply 200 true "Friend request accepted." NoExtra
   | None => internal_error
   end, snd written).
Proof.
  unfold friends_accept. intros -> -> Hread Hla Hlr.
  pose proof (fetched_NoDup _ _ Hread) as Hnd.
  destruct (located_account_found _ _ _ Hnd Hla) as (a & Ha & _).
  destruct (located_account_found _ _ _ Hnd Hlr) as (r & Hr & _).
  run_handler. rewrite Hread. step_handler. rewrite Hla, Hlr, Ha, Hr.
  unfold put_all, accept_bins.
  destruct (String.eqb (binId la) (binId lr)); cbn [map];
    match goal with
    | |- context [issue_puts ?e ?w0 ?p] => destruct (issue_puts e w0 p) as [ress w2]
    end; cbn [fst snd]; now destruct (await_all ress).
Qed.

Lemma friends_accept_success_inv (env : Env) (req : AcceptReq) (w : World) :
  success (fst (friends_accept env req w)) = true ->
  exists accepterId requesterId userRecords la lr,
    truthy (fa_accepterId req) = Some accepterId /\
    truthy (fa_requesterId req) = Some requesterId /\
    fetchAllUserRecords w = Some userRecords /\
    findUserAndBin userRecords accepterId = Some la /\
    findUserAndBin userRecords requesterId = Some lr.
Proof.
  unfold friends_accept.
  destruct (truthy (fa_accepterId req)) as [accepterId|]; [|discriminate].
  destruct (truthy (fa_requesterId req)) as [requesterId|]; [|discriminate].
  run_handler.
  destruct (fetchAllUserRecords w) as [userRecords|] eqn:Hread; [|discriminate].
  step_handler.
  destruct (findUserAndBin userRecords accepterId) as [la|] eqn:Hla;
    [|discriminate].
  destruct (findUserAndBin userRecords requesterId) as [lr|] eqn:Hlr;
    [|discriminate].
  intros _. now exists accepterId, requesterId, userRecords, la, lr.
Qed.

Lemma user_id_init_friends u : user_id (init_friends u) = user_id u.
Proof. unfold init_friends. now destruct (friends u). Qed.

Lemma user_id_add_friend x u : user_id (add_friend x u) = user_id u.
Proof.
  unfold add_friend. destruct (friends u) as [fs|]; trivial.
  now destruct (includes fs x).
Qed.

Lemma findUserAndBin_entries_accept_edits recs la lr accepterId requesterId userId :
  findUserAndBin_entries (accept_edits recs la lr accepterId requesterId) userId
  = findUserAndBin_entries recs userId.
Proof.
  unfold accept_edits, modify_located.
  rewrite !findUserAndBin_entries_modify;
    auto using user_id_init_friends, user_id_add_friend.
Qed.

Lemma map_fst_accept_edits recs la lr accepterId requesterId :
  map fst (accept_edits recs la lr accepterId requesterId) = map fst recs.
Proof.
  unfold accept_edits, modify_located. now rewrite !map_fst_modify_user.
Qed.

Lemma bin_users_accept_edits_other recs la lr accepterId requesterId b :
  existsb (String.eqb b) (accept_bins la lr) = false ->
  bin_users (accept_edits recs la lr accepterId requesterId) b = bin_users recs b.
Proof.
  unfold accept_bins, accept_edits, modify_located. intros H.
  assert (Ha : String.eqb (binId la) b = false).
  { cbn in H. apply orb_false_elim in H. now rewrite String.eqb_sym. }
  assert (Hr : String.eqb (binId lr) b = false).
  { destruct (String.eqb (binId la) (binId lr)) eqn:E.
    - apply String.eqb_eq in E. now rewrite <- E.
    - cbn in H. rewrite orb_false_r in H. apply orb_false_elim in H.
      now rewrite String.eqb_sym. }
  rewrite !bin_users_modify_user. now rewrite Ha, Hr.
Qed.

(** The two accounts after the edits. *)
Lemma accept_edits_accounts recs la lr accepterId requesterId :
  located_account (accept_edits recs la lr accepterId requesterId) la =
  option_map
    (fun a =>
       if same_located la lr
       then add_friend accepterId
              (add_friend requesterId
                 (init_friends (init_friends (drop_requests_from requesterId a))))
       else add_friend requesterId
              (init_friends (drop_requests_from requesterId a)))
    (located_account recs la) /\
  located_account (accept_edits recs la lr accepterId requesterId) lr =
  option_map
    (fun r =>
       if same_located la lr
       then add_friend accepterId
              (add_friend requesterId
                 (init_friends (init_friends (drop_requests_from requesterId r))))
       else add_friend accepterId (init_friends r))
    (located_account recs lr).
Proof.
  unfold accept_edits. rewrite !located_account_modify.
  rewrite !same_located_refl, (same_located_sym lr la).
  destruct (same_located la lr) eqn:E.
  - split; [now destruct (located_account recs la)
           |now destruct (located_account recs lr)].
  - split; [now destruct (located_account recs la)
           |now destruct (located_account recs lr)].
Qed.

Lemma occurrences_add_init (x : Z) (u : User) :
  occurrences x (friends (add_friend x (init_friends u)))
  = Nat.max 1 (occurrences x (friends u)).
Proof.
  destruct (friends_init_friends u) as (fs & Hfs & Hocc).
  now rewrite (occurrences_add_friend _ _ _ Hfs), Hocc.
Qed.

Lemma occurrences_add_twice (x : Z) (u : User) :
  occurrences x
    (friends (add_friend x (add_friend x (init_friends (init_friends u)))))
  = Nat.max 1 (occurrences x (friends u)).
Proof.
  destruct (friends_init_friends (init_friends u)) as (fs & Hfs & Hocc).
  destruct (friends_add_friend x _ _ Hfs) as (fs' & Hfs').
  rewrite (occurrences_add_friend _ _ _ Hfs').
  rewrite (occurrences_add_friend _ _ _ Hfs), Hocc.
  destruct (friends_init_friends u) as (fs0 & _ & Hocc0). rewrite Hocc0. lia.
Qed.

(** The store after the handler's writes, all stored and undisturbed, holds
    the edited records. *)
Lemma lookupAccount_after_accept (env : Env) (w : World)
  (userRecords : UserRecords) (la lr : Located) (accepterId requesterId : Z)
  (userId : Z) :
  (forall b, put_outcome env b = PutStored) ->
  fetchAllUserRecords w = Some userRecords ->
  lookupAccount
    (snd (issue_puts env w
            (map (put_users
                    (accept_edits (binRecords userRecords) la lr accepterId
                       requesterId))
               (accept_bins la lr))))
    userId
  = match findUserAndBin userRecords userId with
    | Some l =>
        located_account
          (accept_edits (binRecords userRecords) la lr accepterId requesterId) l
    | None => None
    end.
Proof.
  intros Hput Hread.
  destruct (fetched_shape _ _ Hread) as (Hkeys & _ & Hs1 & Hs2).
  rewrite (lookupAccount_agrees _
             (accept_edits (binRecords userRecords) la lr accepterId requesterId)).
  - now rewrite findUserAndBin_entries_accept_edits.
  - now rewrite map_fst_accept_edits.
  - intros b Hb. split.
    + apply issue_puts_readable. eapply fetched_readable; eauto.
    + rewrite issue_puts_stored by exact Hput.
      destruct (existsb (String.eqb b) (accept_bins la lr)) eqn:E; trivial.
      rewrite (bin_users_accept_edits_other _ _ _ _ _ _ E).
      apply In_ALL_USERS_BIN_IDS in Hb. destruct Hb as [-> | ->]; congruence.
Qed.

(** C10, as the code has it.  When the handler answers with success and the
    backend has stored its writes undisturbed, each of the two accounts lists
    the other as often as before, and once if it did not list it: the
    guarded pushes add a missing friend once and leave the copies that were
    there; no request of the requester stays pending with the accepter.
    None of this asks for a pending request. *)
Theorem accept_lists_each_friend (env : Env) (req : AcceptReq) (w : World)
  (accepterId requesterId : Z) :
  truthy (fa_accepterId req) = Some accepterId ->
  truthy (fa_requesterId req) = Some requesterId ->
  (forall b, put_outcome env b = PutStored) ->
  (forall w0, concurrent env w0 = w0) ->
  success (fst (friends_accept env req w)) = true ->
  exists a r a' r',
    lookupAccount w accepterId = Some a /\
    lookupAccount w requesterId = Some r /\
    lookupAccount (snd (friends_accept env req w)) accepterId = Some a' /\
    lookupAccount (snd (friends_accept env req w)) requesterId = Some r' /\
    occurrences requesterId (friends a')
      = Nat.max 1 (occurrences requesterId (friends a)) /\
    occurrences accepterId (friends r')
      = Nat.max 1 (occurrences accepterId (friends r)) /\
    requests_from requesterId a' = [].
Proof.
  intros Ha Hr Hput Hquiet Hok.
  destruct (friends_accept_success_inv _ _ _ Hok)
    as (aid & rid & userRecords & la & lr & Ha' & Hr' & Hread & Hla & Hlr).
  rewrite Ha in Ha'. rewrite Hr in Hr'.
  injection Ha' as <-. injection Hr' as <-.
  pose proof (fetched_NoDup _ _ Hread) as Hnd.
  destruct (located_account_found _ _ _ Hnd Hla) as (a & Hacc_a & Hid_a).
  destruct (located_account_found _ _ _ Hnd Hlr) as (r & Hacc_r & Hid_r).
  rewrite (friends_accept_runs _ _ _ _ _ _ _ _ Ha Hr Hread Hla Hlr).
  cbv zeta. cbn [snd]. rewrite Hquiet.
  rewrite !(lookupAccount_after_accept _ _ _ _ _ _ _ _ Hput Hread), Hla, Hlr.
  rewrite !(lookupAccount_located _ _ _ Hread), Hla, Hlr.
  destruct (accept_edits_accounts (binRecords userRecords) la lr
              accepterId requesterId) as [Ea Er].
  rewrite Ea, Er, Hacc_a, Hacc_r. cbn [option_map].
  destruct (same_located la lr) eqn:Esame.
  - apply same_located_eq in Esame. subst lr.
    assert (r = a) by congruence. subst r.
    assert (Eid : requesterId = accepterId) by congruence.
    clear Hid_a Hid_r. subst requesterId.
    do 4 eexists. repeat split; try reflexivity.
    + apply (occurrences_add_twice _ (drop_requests_from accepterId a)).
    + apply (occurrences_add_twice _ (drop_requests_from accepterId a)).
    + now rewrite !requests_from_add_friend, !requests_from_init_friends,
        requests_from_drop.
  - do 4 eexists. repeat split; try reflexivity.
    + apply (occurrences_add_init _ (drop_requests_from requesterId a)).
    + apply occurrences_add_init.
    + now rewrite requests_from_add_friend, requests_from_init_friends,
        requests_from_drop.
Qed.

Lemma accept_lists_each_friend_witness :
  exists a r a' r',
    lookupAccount (store_of [ann_asked_by_bob] [bob]) 1 = Some a /\
    lookupAccount (store_of [ann_asked_by_bob] [bob]) 2 = Some r /\
    lookupAccount
      (snd (friends_accept quiet (mkAcceptReq (Some 1) (Some 2))
              (store_of [ann_asked_by_bob] [bob]))) 1 = Some a' /\
    lookupAccount
      (snd (friends_accept quiet (mkAcceptReq (Some 1) (Some 2))
              (store_of [ann_asked_by_bob] [bob]))) 2 = Some r' /\
    occurrences 2 (friends a') = Nat.max 1 (occurrences 2 (friends a)) /\
    occurrences 1 (friends r') = Nat.max 1 (occurrences 1 (friends r)) /\
    requests_from 2 a' = [].
Proof.
  apply (accept_lists_each_friend quiet (mkAcceptReq (Some 1) (Some 2))
           (store_of [ann_asked_by_bob] [bob]) 1 2); reflexivity.
Defined.

(** C10, as the specification states it, fails: ann lists bob twice before the call; the
    call succeeds and she lists him twice after it. *)
Lemma accept_keeps_duplicate_friends :
  success
    (fst (friends_accept quiet (mkAcceptReq (Some 1) (Some 2))
            (store_of [ann_with_duplicates] [bob]))) = true /\
  option_map friends
    (lookupAccount
       (snd (friends_accept quiet (mkAcceptReq (Some 1) (Some 2))
               (store_of [ann_with_duplicates] [bob]))) 1)
  = Some (Some [2; 2]) /\
  occurrences 2 (Some [2; 2]) = 2%nat.
Proof. repeat split. Qed.

(** ** Writes that fail *)

Section SavePhase.

Variables floor_035 floor_005 : Z -> Z.

(** The save phase of the gamepass purchase never looks at the [ok] flags:
    unless a write request fails outright it ends in the success reply. *)
Lemma gamepass_commit_ignores_refusals (env : Env) (gamepassBin : string)
  (recs : BinRecords) (allOwnership : list Ownership) (buyerBinData : Located)
  (ownerBinData buyer : User) (userId : Z) (gamepassId : string) (price : Z)
  (w : World) :
  (forall b, put_outcome env b <> PutRejected) ->
  located_account recs buyerBinData = Some buyer ->
  exists n,
    fst (gamepass_commit floor_035 floor_005 env gamepassBin recs allOwnership
           buyerBinData ownerBinData userId gamepassId price w)
    = Next (mkReply 200 true "Purchase successful!" (NewAuthTokens n)).
Proof.
  intros Hput Hbuyer. unfold gamepass_commit, gamepass_transaction.
  set (recs1 := modify_located recs buyerBinData (debit price)).
  set (ownerRecord := findUserAndBin_entries recs1 (user_id ownerBinData)).
  set (recs2 := match ownerRecord with
                | Some o => modify_located recs1 o _
                | None => recs1
                end).
  assert (Hb : exists b', located_account recs2 buyerBinData = Some b').
  { unfold recs2, recs1. destruct ownerRecord as [o|];
      rewrite !located_account_modify, ?same_located_refl, Hbuyer;
      [destruct (same_located o buyerBinData)|]; now eexists. }
  destruct Hb as (b' & Hb').
  run_handler. unfold put_all.
  match goal with
  | |- context [issue_puts ?e ?w0 ?p] =>
      destruct (issue_puts_resolve e p w0 Hput) as (oks & Hoks);
      destruct (issue_puts e w0 p) as [ress w2]
  end.
  cbn [fst] in Hoks. rewrite Hoks, Hb'. now eexists.
Qed.

End SavePhase.

(** C6, as the code has it.  The handlers know no partial commit and keep no
    reconciliation log.  In [friends/accept] with the two accounts in
    different partitions, once the accepter's partition is stored: if the
    write of the requester's partition comes back with an error status, the
    answer is plain success; if its request fails outright, the answer is the
    generic 500; either way the store is left with the first write alone.
    The save phase of the gamepass purchase answers success whatever status
    its writes come back with. *)
Theorem failed_write_is_not_reconciled (env : Env) (req : AcceptReq)
  (w : World) (accepterId requesterId : Z) (userRecords : UserRecords)
  (la lr : Located) :
  truthy (fa_accepterId req) = Some accepterId ->
  truthy (fa_requesterId req) = Some requesterId ->
  fetchAllUserRecords w = Some userRecords ->
  findUserAndBin userRecords accepterId = Some la ->
  findUserAndBin userRecords requesterId = Some lr ->
  binId la <> binId lr ->
  put_outcome env (binId la) = PutStored ->
  (put_outcome env (binId lr) = PutRefused ->
   friends_accept env req w =
   (mkReply 200 true "Friend request accepted." NoExtra,
    store (concurrent env w) (binId la)
      (users_doc
         (bin_users
            (accept_edits (binRecords userRecords) la lr accepterId requesterId)
            (binId la))))) /\
  (put_outcome env (binId lr) = PutRejected ->
   friends_accept env req w =
   (internal_error,
    store (concurrent env w) (binId la)
      (users_doc
         (bin_users
            (accept_edits (binRecords userRecords) la lr accepterId requesterId)
            (binId la))))) /\
  (forall floor_035 floor_005 gamepassBin recs allOwnership buyerBinData
          ownerBinData buyer userId gamepassId price,
      (forall b, put_outcome env b <> PutRejected) ->
      located_account recs buyerBinData = Some buyer ->
      exists n,
        fst (gamepass_commit floor_035 floor_005 env gamepassBin recs
               allOwnership buyerBinData ownerBinData userId gamepassId price w)
        = Next (mkReply 200 true "Purchase successful!" (NewAuthTokens n))).
Proof.
  intros Ha Hr Hread Hla Hlr Hne Hput. apply String.eqb_neq in Hne.
  rewrite (friends_accept_runs _ _ _ _ _ _ _ _ Ha Hr Hread Hla Hlr).
  cbv zeta. unfold accept_bins. rewrite Hne.
  cbn [map issue_puts put_users]. unfold put_users, issue_put.
  rewrite Hput.
  split; [|split].
  - intros ->. reflexivity.
  - intros ->. reflexivity.
  - intros. eapply gamepass_commit_ignores_refusals; eauto.
Qed.

Lemma failed_write_is_not_reconciled_witness :
  friends_accept second_bin_refuses (mkAcceptReq (Some 1) (Some 2))
    (store_of [ann_asked_by_bob] [bob]) =
  (mkReply 200 true "Friend request accepted." NoExtra,
   store (store_of [ann_asked_by_bob] [bob]) USERS_BIN_1
     (users_doc
        (bin_users
           (accept_edits (binRecords (view_of [ann_asked_by_bob] [bob]))
              (mkLocated USERS_BIN_1 0) (mkLocated USERS_BIN_2 0) 1 2)
           USERS_BIN_1))).
Proof.
  refine (proj1 (failed_write_is_not_reconciled second_bin_refuses
                   (mkAcceptReq (Some 1) (Some 2))
                   (store_of [ann_asked_by_bob] [bob]) 1 2
                   (view_of [ann_asked_by_bob] [bob])
                   (mkLocated USERS_BIN_1 0) (mkLocated USERS_BIN_2 0)
                   _ _ _ _ _ _ _) _);
    try reflexivity.
  cbn. discriminate.
Defined.

(** C6, as the specification states it, fails.  ann and bob live in different
    partitions; the write of ann's partition is stored, the write of bob's
    comes back with an error status.  The handler answers with plain success;
    ann lists bob, bob does not list ann. *)
Lemma accept_reports_success_after_failed_write :
  fst (friends_accept second_bin_refuses (mkAcceptReq (Some 1) (Some 2))
         (store_of [ann_asked_by_bob] [bob]))
  = mkReply 200 true "Friend request accepted." NoExtra /\
  stored_users
    (snd (friends_accept second_bin_refuses (mkAcceptReq (Some 1) (Some 2))
            (store_of [ann_asked_by_bob] [bob]))) USERS_BIN_1
  = [mkUser 1 "ann" None None 5000 (Some [2]) (Some []) None] /\
  stored_users
    (snd (friends_accept second_bin_refuses (mkAcceptReq (Some 1) (Some 2))
            (store_of [ann_asked_by_bob] [bob]))) USERS_BIN_2
  = [bob].
Proof. repeat split. Qed.

(** ** Balances of the store *)

Lemma total_balance_debit recs l u amount :
  located_account recs l = Some u ->
  total_balance (modify_located recs l (debit amount)) = total_balance recs - amount.
Proof.
  intros H. rewrite total_balance_modify, H. cbn. lia.
Qed.

Lemma stored_users_store_elsewhere w b doc b' :
  b' <> b -> stored_users (store w b doc) b' = stored_users w b'.
Proof.
  intros H. unfold stored_users. now rewrite latest_store_other.
Qed.

Lemma stored_total_agrees (w : World) (recs : BinRecords) :
  map fst recs = ALL_USERS_BIN_IDS ->
  (forall b, In b ALL_USERS_BIN_IDS -> stored_users w b = bin_users recs b) ->
  stored_total w = total_balance recs.
Proof.
  intros Hkeys Hbins. unfold stored_total, total_balance.
  rewrite (accounts_two _ Hkeys), ALL_USERS_BIN_IDS_eq. cbn [flat_map].
  rewrite app_nil_r.
  rewrite !Hbins by (apply In_ALL_USERS_BIN_IDS; auto). reflexivity.
Qed.

Lemma fetched_agrees (w : World) (userRecords : UserRecords) (b : string) :
  fetchAllUserRecords w = Some userRecords ->
  In b ALL_USERS_BIN_IDS ->
  stored_users w b = bin_users (binRecords userRecords) b.
Proof.
  intros Hread Hb. destruct (fetched_shape _ _ Hread) as (_ & _ & H1 & H2).
  apply In_ALL_USERS_BIN_IDS in Hb. destruct Hb as [-> | ->]; congruence.
Qed.

(* ================================================================= *)
(** * Further properties of the handlers *)

Ltac run_groups :=
  unfold fetch_groups, put_groups, fetch_gamepasses; run_handler.

(** ** The admin check *)

Lemma truthy_Z_Some (o : option Z) (i : Z) :
  truthy o = Some i <-> o = Some i /\ i <> 0.
Proof.
  unfold truthy, falsy, falsy_Z. destruct o as [k|].
  - destruct (k =? 0) eqn:E.
    + apply Z.eqb_eq in E. split; [discriminate|]. intros [[= ->] H]. congruence.
    + apply Z.eqb_neq in E. split.
      * intros [= ->]. now split.
      * now intros [[= ->] _].
  - split; [discriminate|]. now intros [? _].
Qed.

Lemma isAdmin_true (w : World) (userId : option Z) :
  isAdmin userId w = true <-> names_admin w userId.
Proof.
  unfold isAdmin, names_admin, lookupAccount. split.
  - destruct (truthy userId) as [i|] eqn:Et; [|discriminate].
    apply truthy_Z_Some in Et. destruct Et as [-> Hi].
    destruct (fetchAllUserRecords w) as [userRecords|]; [|discriminate].
    destruct (find _ (allUsers userRecords)) as [u|] eqn:Eu; [|discriminate].
    intros H. apply String.eqb_eq in H. now exists i, u.
  - intros (i & u & -> & Hi & Hlook & Hname).
    rewrite (proj2 (truthy_Z_Some (Some i) i) (conj eq_refl Hi)).
    destruct (fetchAllUserRecords w) as [userRecords|]; [|discriminate].
    rewrite Hlook. now apply String.eqb_eq.
Qed.

(** X1. The admin gate fails closed.  Unless the caller's id is present,
    not 0, and the first account of the registry with that id is named
    madeonice (in any letter case), the group deletion endpoint answers 403
    and leaves the store as it is: so it does when the caller is unknown and
    when the registry cannot be read. *)
Theorem groups_delete_needs_admin (env : Env) (adminId groupId : option Z)
  (w : World) :
  ~ names_admin w adminId ->
  groups_delete env adminId groupId w = (unauthorized, w).
Proof.
  intros Hno. unfold groups_delete.
  destruct (isAdmin adminId w) eqn:E; [|reflexivity].
  apply isAdmin_true in E. contradiction.
Qed.

Lemma groups_delete_needs_admin_witness :
  groups_delete quiet (Some 1) (Some 5) second_partition_down
  = (unauthorized, second_partition_down).
Proof.
  apply (groups_delete_needs_admin quiet (Some 1) (Some 5) second_partition_down).
  intros (i & u & _ & _ & Hlook & _). discriminate Hlook.
Defined.

(** ** Groups *)

Lemma fetch_groups_ok (w : World) r v :
  latest w USER_GROUPS_BIN_ID = Resolved true (Some (JsonObject r v)) ->
  fetch_groups w = (Next (groups_of_record r), w).
Proof.
  intros H. run_groups. rewrite H. cbn [fst snd negb]. step_handler.
  reflexivity.
Qed.

Lemma stored_groups_read (w : World) ok r v :
  latest w USER_GROUPS_BIN_ID = Resolved ok (Some (JsonObject r v)) ->
  stored_groups w = groups_of_record r.
Proof. unfold stored_groups. now intros ->. Qed.

Lemma stored_groups_store (w : World) (gs : list Group) :
  stored_groups (store w USER_GROUPS_BIN_ID (groups_doc gs)) = gs.
Proof.
  unfold stored_groups. now rewrite latest_store_same.
Qed.

(** What a group handler's write leaves in the store. *)
Lemma put_groups_stored (env : Env) (gs : list Group) (w : World) :
  put_outcome env USER_GROUPS_BIN_ID = PutStored ->
  put_groups env gs w
  = (Next tt, store (concurrent env w) USER_GROUPS_BIN_ID (groups_doc gs)).
Proof.
  intros H. unfold put_groups, put_all. run_handler.
  cbn [issue_puts]. unfold issue_put. now rewrite H.
Qed.

(** X2. Deleting a group as admin, with the groups read and the write
    stored: the answer is success, and the groups bin then holds the groups
    that were read less every group with the given id, in their order.  The
    handler does not ask whether a group had the id: when none had, it
    stores the same list and still answers success. *)
Theorem groups_delete_removes_the_id (env : Env) (adminId groupId : option Z)
  (w : World) r v :
  isAdmin adminId w = true ->
  latest w USER_GROUPS_BIN_ID = Resolved true (Some (JsonObject r v)) ->
  put_outcome env USER_GROUPS_BIN_ID = PutStored ->
  fst (groups_delete env adminId groupId w)
    = mkReply 200 true "Group deleted successfully." NoExtra /\
  stored_groups (snd (groups_delete env adminId groupId w))
    = filter (fun g => negb (id_is groupId (group_id g))) (stored_groups w) /\
  (forall g, In g (stored_groups (snd (groups_delete env adminId groupId w))) ->
             id_is groupId (group_id g) = false) /\
  ((forall g, In g (stored_groups w) -> id_is groupId (group_id g) = false) ->
   stored_groups (snd (groups_delete env adminId groupId w)) = stored_groups w).
Proof.
  intros Hadmin Hread Hput.
  assert (Hrun : groups_delete env adminId groupId w =
                 (mkReply 200 true "Group deleted successfully." NoExtra,
                  store (concurrent env w) USER_GROUPS_BIN_ID
                    (groups_doc
                       (filter (fun g => negb (id_is groupId (group_id g)))
                          (groups_of_record r))))).
  { unfold groups_delete. rewrite Hadmin. cbn [negb].
    unfold try_catch, bind. rewrite (fetch_groups_ok _ _ _ Hread).
    now rewrite (put_groups_stored _ _ _ Hput). }
  rewrite Hrun. cbn [fst snd].
  rewrite stored_groups_store, (stored_groups_read _ _ _ _ Hread).
  split; [reflexivity|]. split; [reflexivity|]. split.
  - intros g Hin. apply filter_In in Hin. destruct Hin as [_ H].
    now apply negb_true_iff in H.
  - intros Hnone. apply forallb_filter_id. apply forallb_forall.
    intros g Hin. now rewrite (Hnone g Hin).
Qed.

Lemma groups_delete_removes_the_id_witness :
  fst (groups_delete quiet (Some 3) (Some 2)
         (store_with_groups [ann; madeonice] [bob] sample_groups))
    = mkReply 200 true "Group deleted successfully." NoExtra /\
  stored_groups
    (snd (groups_delete quiet (Some 3) (Some 2)
            (store_with_groups [ann; madeonice] [bob] sample_groups)))
    = filter (fun g => negb (id_is (Some 2) (group_id g)))
        (stored_groups (store_with_groups [ann; madeonice] [bob] sample_groups)).
Proof.
  refine (let H := groups_delete_removes_the_id quiet (Some 3) (Some 2)
                     (store_with_groups [ann; madeonice] [bob] sample_groups)
                     (Some (groups_doc sample_groups)) 1%nat _ _ _ in
          conj (proj1 H) (proj1 (proj2 H)));
    reflexivity.
Defined.

Ltac case_handler :=
  repeat (match goal with
          | |- context [match ?x with _ => _ end] =>
              lazymatch x with
              | context [match _ with _ => _ end] => fail
              | _ => destruct x eqn:?
              end
          end; cbn [fst snd negb]; step_handler).

(** What the join handler does once the groups are read and the group is
    found. *)
Lemma groups_join_runs (env : Env) (userId groupId : option Z) (w : World)
  (uid : Z) r v (i : nat) :
  truthy userId = Some uid ->
  latest w USER_GROUPS_BIN_ID = Resolved true (Some (JsonObject r v)) ->
  findIndex (fun g => id_is groupId (group_id g)) (groups_of_record r) = Some i ->
  exists g,
    nth_error (groups_of_record r) i = Some g /\
    id_is groupId (group_id g) = true /\
    groups_join env userId groupId w =
    if includes (group_members g) uid
    then (mkReply 400 false "User is already a member." NoExtra, w)
    else
      match put_outcome env USER_GROUPS_BIN_ID with
      | PutStored =>
          (mkReply 200 true "Successfully joined the group." NoExtra,
           store (concurrent env w) USER_GROUPS_BIN_ID
             (groups_doc
                (update_nth i
                   (fun g => set_members g (group_members g ++ [uid]))
                   (groups_of_record r))))
      | PutRefused =>
          (mkReply 200 true "Successfully joined the group." NoExtra,
           concurrent env w)
      | PutRejected => (internal_error, concurrent env w)
      end.
Proof.
  intros Hu Hread Hi.
  destruct (findIndex_Some _ _ _ Hi) as (g & Hg & Hid & _).
  exists g. split; [exact Hg|]. split; [exact Hid|].
  unfold groups_join. rewrite Hu.
  unfold try_catch, bind. rewrite (fetch_groups_ok _ _ _ Hread), Hi.
  unfold or_throw. rewrite Hg. unfold ret, respond. step_handler.
  destruct (includes (group_members g) uid); [reflexivity|].
  unfold put_groups, put_all, bind, ret. cbn [issue_puts]. unfold issue_put.
  now destruct (put_outcome env USER_GROUPS_BIN_ID).
Qed.

Lemma groups_join_success_inv (env : Env) (userId groupId : option Z) (w : World) :
  success (fst (groups_join env userId groupId w)) = true ->
  exists uid r v i,
    truthy userId = Some uid /\
    latest w USER_GROUPS_BIN_ID = Resolved true (Some (JsonObject r v)) /\
    findIndex (fun g => id_is groupId (group_id g)) (groups_of_record r) = Some i.
Proof.
  unfold groups_join.
  destruct (truthy userId) as [uid|] eqn:Hu; [|discriminate].
  run_groups.
  destruct (latest w USER_GROUPS_BIN_ID) as [|[] [[|r v]|]] eqn:Hread;
    try discriminate.
  cbn [fst snd negb]. step_handler.
  fold (groups_of_record r).
  destruct (findIndex _ (groups_of_record r)) as [i|] eqn:Hi; [|discriminate].
  intros _. now exists uid, r, v, i.
Qed.

Lemma includes_In (l : list Z) (x : Z) : includes l x = true <-> In x l.
Proof.
  unfold includes. rewrite existsb_exists. split.
  - intros (y & Hin & Hy). apply Z.eqb_eq in Hy. now subst.
  - intros Hin. exists x. split; trivial. apply Z.eqb_refl.
Qed.

Lemma NoDup_snoc (l : list Z) (x : Z) :
  NoDup l -> ~ In x l -> NoDup (l ++ [x]).
Proof.
  intros Hnd Hx. apply NoDup_app; trivial.
  - repeat constructor. intros [].
  - intros y Hin [<- | []]. contradiction.
Qed.

(** X3. A join that is answered with success, its write stored: the group
    joined is the first group with the given id; the user was no member of
    it, and is afterwards the last member of its list and a member once;
    every other group is stored as it was read. *)
Theorem groups_join_adds_member_once (env : Env) (userId groupId : option Z)
  (w : World) (uid : Z) :
  truthy userId = Some uid ->
  put_outcome env USER_GROUPS_BIN_ID = PutStored ->
  success (fst (groups_join env userId groupId w)) = true ->
  exists i g,
    findIndex (fun g => id_is groupId (group_id g)) (stored_groups w) = Some i /\
    nth_error (stored_groups w) i = Some g /\
    ~ In uid (group_members g) /\
    nth_error (stored_groups (snd (groups_join env userId groupId w))) i
      = Some (set_members g (group_members g ++ [uid])) /\
    count_occ Z.eq_dec (group_members g ++ [uid]) uid = 1%nat /\
    (forall j, j <> i ->
       nth_error (stored_groups (snd (groups_join env userId groupId w))) j
       = nth_error (stored_groups w) j).
Proof.
  intros Hu Hput Hok.
  destruct (groups_join_success_inv _ _ _ _ Hok)
    as (uid' & r & v & i & Hu' & Hread & Hi).
  rewrite Hu in Hu'. injection Hu' as <-.
  destruct (groups_join_runs env _ _ _ _ _ _ _ Hu Hread Hi)
    as (g & Hg & Hid & Hrun).
  rewrite Hrun in Hok |- *. rewrite (stored_groups_read _ _ _ _ Hread).
  exists i, g. rewrite Hput in *.
  destruct (includes (group_members g) uid) eqn:Einc; [discriminate|].
  assert (Hnot : ~ In uid (group_members g)).
  { intros Hin. apply includes_In in Hin. congruence. }
  cbn [snd]. rewrite stored_groups_store.
  repeat split; trivial.
  - now rewrite nth_error_update_nth, Nat.eqb_refl, Hg.
  - rewrite count_occ_app. cbn.
    destruct (Z.eq_dec uid uid) as [_|]; [|congruence].
    apply (count_occ_not_In Z.eq_dec) in Hnot. lia.
  - intros j Hj. rewrite nth_error_update_nth.
    destruct (Nat.eqb i j) eqn:E; trivial.
    apply Nat.eqb_eq in E. congruence.
Qed.

Lemma groups_join_adds_member_once_witness :
  exists i g,
    findIndex (fun g => id_is (Some 5) (group_id g))
      (stored_groups (store_with_groups [ann] [bob] sample_groups)) = Some i /\
    nth_error (stored_groups (store_with_groups [ann] [bob] sample_groups)) i
      = Some g /\
    ~ In 2 (group_members g) /\
    nth_error
      (stored_groups
         (snd (groups_join quiet (Some 2) (Some 5)
                 (store_with_groups [ann] [bob] sample_groups)))) i
      = Some (set_members g (group_members g ++ [2])) /\
    count_occ Z.eq_dec (group_members g ++ [2]) 2 = 1%nat /\
    (forall j, j <> i ->
       nth_error
         (stored_groups
            (snd (groups_join quiet (Some 2) (Some 5)
                    (store_with_groups [ann] [bob] sample_groups)))) j
       = nth_error
           (stored_groups (store_with_groups [ann] [bob] sample_groups)) j).
Proof.
  apply (groups_join_adds_member_once quiet (Some 2) (Some 5)
           (store_with_groups [ann] [bob] sample_groups) 2); reflexivity.
Defined.

Lemma map_update_nth {A B : Type} (h : A -> B) (f : A -> A) (i : nat)
  (l : list A) :
  (forall x, h (f x) = h x) -> map h (update_nth i f l) = map h l.
Proof.
  intros Hf. revert i. induction l as [|a l IH]; intros [|i]; cbn; trivial.
  - now rewrite Hf.
  - now rewrite IH.
Qed.

(** X4. Updating a group whose first holder of the id is read as [g]: a
    caller who is not the owner of [g] is answered 403 and nothing is
    written; for the owner, with the write stored, the answer is success and
    the stored groups are the groups read with the name, description and
    icon of [g] replaced: no group changes its id, owner, members or
    creation time. *)
Theorem groups_update_is_owner_only (env : Env) (req : UpdateGroupReq)
  (groupId : option Z) (w : World) (ownerId : Z)
  (name description iconUrl : string) r v (i : nat) :
  truthy (ug_ownerId req) = Some ownerId ->
  truthy (ug_name req) = Some name ->
  ug_description req = Some description ->
  ug_iconUrl req = Some iconUrl ->
  latest w USER_GROUPS_BIN_ID = Resolved true (Some (JsonObject r v)) ->
  findIndex (fun g => id_is groupId (group_id g)) (stored_groups w) = Some i ->
  exists g,
    nth_error (stored_groups w) i = Some g /\
    (group_ownerId g <> ownerId ->
     groups_update env req groupId w
     = (mkReply 403 false "Unauthorized: You are not the owner of this group."
          NoExtra, w)) /\
    (group_ownerId g = ownerId ->
     put_outcome env USER_GROUPS_BIN_ID = PutStored ->
     fst (groups_update env req groupId w)
       = mkReply 200 true "Group details updated successfully." NoExtra /\
     stored_groups (snd (groups_update env req groupId w))
       = update_nth i (set_details name description iconUrl) (stored_groups w) /\
     map (fun g => (group_id g, group_ownerId g, group_members g,
                    group_createdAt g))
       (stored_groups (snd (groups_update env req groupId w)))
     = map (fun g => (group_id g, group_ownerId g, group_members g,
                      group_createdAt g))
         (stored_groups w)).
Proof.
  intros Ho Hn Hd Hic Hread Hi.
  rewrite (stored_groups_read _ _ _ _ Hread) in *.
  destruct (findIndex_Some _ _ _ Hi) as (g & Hg & _).
  exists g. split; [exact Hg|].
  assert (Hrun : groups_update env req groupId w =
            if negb (group_ownerId g =? ownerId)
            then (mkReply 403 false
                    "Unauthorized: You are not the owner of this group." NoExtra,
                  w)
            else
              match put_outcome env USER_GROUPS_BIN_ID with
              | PutStored =>
                  (mkReply 200 true "Group details updated successfully." NoExtra,
                   store (concurrent env w) USER_GROUPS_BIN_ID
                     (groups_doc
                        (update_nth i (set_details name description iconUrl)
                           (groups_of_record r))))
              | PutRefused =>
                  (mkReply 200 true "Group details updated successfully." NoExtra,
                   concurrent env w)
              | PutRejected => (internal_error, concurrent env w)
              end).
  { unfold groups_update. rewrite Ho, Hn, Hd, Hic.
    unfold try_catch, bind. rewrite (fetch_groups_ok _ _ _ Hread), Hi.
    unfold or_throw. rewrite Hg. unfold ret, respond. step_handler.
    destruct (negb (group_ownerId g =? ownerId)); [reflexivity|].
    unfold put_groups, put_all, bind, ret. cbn [issue_puts]. unfold issue_put.
    now destruct (put_outcome env USER_GROUPS_BIN_ID). }
  rewrite Hrun. split.
  - intros Hne. apply Z.eqb_neq in Hne. now rewrite Hne.
  - intros Heq Hput. apply Z.eqb_eq in Heq. rewrite Heq, Hput. cbn [negb fst snd].
    rewrite stored_groups_store. repeat split.
    now apply map_update_nth.
Qed.

Lemma groups_update_is_owner_only_witness :
  exists g,
    nth_error (stored_groups (store_with_groups [ann] [bob] sample_groups)) 1
      = Some g /\
    (group_ownerId g <> 1 ->
     groups_update quiet
       (mkUpdateGroupReq (Some 1) (Some "shogi") (Some "") (Some "")) (Some 2)
       (store_with_groups [ann] [bob] sample_groups)
     = (mkReply 403 false "Unauthorized: You are not the owner of this group."
          NoExtra, store_with_groups [ann] [bob] sample_groups)) /\
    (group_ownerId g = 1 ->
     put_outcome quiet USER_GROUPS_BIN_ID = PutStored ->
     fst (groups_update quiet
            (mkUpdateGroupReq (Some 1) (Some "shogi") (Some "") (Some ""))
            (Some 2) (store_with_groups [ann] [bob] sample_groups))
       = mkReply 200 true "Group details updated successfully." NoExtra /\
     stored_groups
       (snd (groups_update quiet
               (mkUpdateGroupReq (Some 1) (Some "shogi") (Some "") (Some ""))
               (Some 2) (store_with_groups [ann] [bob] sample_groups)))
       = update_nth 1 (set_details "shogi" "" "")
           (stored_groups (store_with_groups [ann] [bob] sample_groups)) /\
     map (fun g => (group_id g, group_ownerId g, group_members g,
                    group_createdAt g))
       (stored_groups
          (snd (groups_update quiet
                  (mkUpdateGroupReq (Some 1) (Some "shogi") (Some "") (Some ""))
                  (Some 2) (store_with_groups [ann] [bob] sample_groups))))
     = map (fun g => (group_id g, group_ownerId g, group_members g,
                      group_createdAt g))
         (stored_groups (store_with_groups [ann] [bob] sample_groups))).
Proof.
  apply (groups_update_is_owner_only quiet
           (mkUpdateGroupReq (Some 1) (Some "shogi") (Some "") (Some ""))
           (Some 2) (store_with_groups [ann] [bob] sample_groups)
           1 "shogi" "" "" (Some (groups_doc sample_groups)) 1%nat 1%nat);
    reflexivity.
Defined.

Lemma max_of_upper_bound (l : list Z) (x : Z) : In x l -> x <= max_of l.
Proof.
  unfold max_of. generalize (hd 0 l) as d.
  induction l as [|a l IH]; intros d; cbn; [intros []|].
  intros [<- | Hin]; [lia|]. specialize (IH d Hin). lia.
Qed.

Lemma new_group_id_above (env : Env) (req : CreateGroupReq) (userId : Z)
  (groupName groupDescription : string) (allGroups : list Group) (g : Group) :
  In g allGroups ->
  group_id g
  < group_id (new_group env req userId groupName groupDescription allGroups).
Proof.
  intros Hin. unfold new_group. destruct allGroups as [|a rest]; [destruct Hin|].
  cbn [group_id].
  pose proof (max_of_upper_bound (map group_id (a :: rest)) (group_id g)
                (in_map group_id _ _ Hin)).
  lia.
Qed.

(** X5. A group creation that goes through (reads delivered, payer able to
    pay, both writes stored): the stored groups are the groups read followed
    by the new group; the new group's id is greater than the id of every
    group read (and 1 when there was none), so no stored group shares it;
    its owner and only member is the creator. *)
Theorem create_group_assigns_fresh_id (env : Env) (req : CreateGroupReq)
  (w : World) (userId : Z) (groupName groupDescription : string)
  (userRecords : UserRecords) (l : Located) (payer : User)
  (r : option Document) (v : nat) :
  truthy (cg_userId req) = Some userId ->
  truthy (cg_groupName req) = Some groupName ->
  truthy (cg_groupDescription req) = Some groupDescription ->
  fetchAllUserRecords w = Some userRecords ->
  latest w USER_GROUPS_BIN_ID = Resolved true (Some (JsonObject r v)) ->
  findUserAndBin userRecords userId = Some l ->
  located_account (binRecords userRecords) l = Some payer ->
  5000 <= authTokens payer ->
  put_outcome env (binId l) = PutStored ->
  put_outcome env USER_GROUPS_BIN_ID = PutStored ->
  exists g,
    fst (create_group env req w)
      = mkReply 200 true "Group created successfully!" (NewGroup g) /\
    stored_groups (snd (create_group env req w)) = stored_groups w ++ [g] /\
    (forall g', In g' (stored_groups w) -> group_id g' < group_id g) /\
    (stored_groups w = [] -> group_id g = 1) /\
    group_ownerId g = userId /\
    group_members g = [userId].
Proof.
  intros Hu Hn Hd Hread Hgroups Hl Hacc Hbal Hput1 Hput2.
  rewrite (create_group_commits env req w userId groupName groupDescription
             userRecords l payer r v Hu Hn Hd Hread Hgroups Hl Hacc Hbal
             Hput1 Hput2).
  cbn [fst snd]. rewrite stored_groups_store, (stored_groups_read _ _ _ _ Hgroups).
  eexists. split; [reflexivity|]. split; [reflexivity|].
  split; [|split; [|split; reflexivity]].
  - intros g' Hin. now apply new_group_id_above.
  - intros ->. reflexivity.
Qed.

Lemma create_group_assigns_fresh_id_witness :
  exists g,
    fst (create_group quiet
           (mkCreateGroupReq (Some 1) (Some "bridge") (Some "club") None)
           (store_with_groups [ann] [bob] sample_groups))
      = mkReply 200 true "Group created successfully!" (NewGroup g) /\
    stored_groups
      (snd (create_group quiet
              (mkCreateGroupReq (Some 1) (Some "bridge") (Some "club") None)
              (store_with_groups [ann] [bob] sample_groups)))
      = stored_groups (store_with_groups [ann] [bob] sample_groups) ++ [g] /\
    (forall g', In g' (stored_groups (store_with_groups [ann] [bob] sample_groups))
                -> group_id g' < group_id g) /\
    (stored_groups (store_with_groups [ann] [bob] sample_groups) = [] ->
     group_id g = 1) /\
    group_ownerId g = 1 /\
    group_members g = [1].
Proof.
  apply (create_group_assigns_fresh_id quiet
           (mkCreateGroupReq (Some 1) (Some "bridge") (Some "club") None)
           (store_with_groups [ann] [bob] sample_groups) 1 "bridge" "club"
           (view_of [ann] [bob]) (mkLocated USERS_BIN_1 0) ann
           (Some (groups_doc sample_groups)) 1%nat);
    reflexivity.
Defined.

Lemma findIndex_app_last {A : Type} (p : A -> bool) (l : list A) (x : A) :
  (forall y, In y l -> p y = false) -> p x = true ->
  findIndex p (l ++ [x]) = Some (List.length l).
Proof.
  intros Hl Hx. induction l as [|a l IH]; cbn.
  - now rewrite Hx.
  - rewrite (Hl a (or_introl eq_refl)), IH; trivial.
    intros y Hy. apply Hl. now right.
Qed.

(** X6. Creating a group and then joining it.  After a group creation that
    went through, a join of the new group by its creator is answered
    "User is already a member." and writes nothing, whatever the fate of
    writes is by then. *)
Theorem creator_cannot_join_own_group (env env' : Env) (req : CreateGroupReq)
  (w : World) (userId : Z) (groupName groupDescription : string)
  (userRecords : UserRecords) (l : Located) (payer : User)
  (r : option Document) (v : nat) :
  truthy (cg_userId req) = Some userId ->
  truthy (cg_groupName req) = Some groupName ->
  truthy (cg_groupDescription req) = Some groupDescription ->
  fetchAllUserRecords w = Some userRecords ->
  latest w USER_GROUPS_BIN_ID = Resolved true (Some (JsonObject r v)) ->
  findUserAndBin userRecords userId = Some l ->
  located_account (binRecords userRecords) l = Some payer ->
  5000 <= authTokens payer ->
  put_outcome env (binId l) = PutStored ->
  put_outcome env USER_GROUPS_BIN_ID = PutStored ->
  groups_join env' (Some userId)
    (Some (group_id (new_group env req userId groupName groupDescription
                       (stored_groups w))))
    (snd (create_group env req w))
  = (mkReply 400 false "User is already a member." NoExtra,
     snd (create_group env req w)).
Proof.
  intros Hu Hn Hd Hread Hgroups Hl Hacc Hbal Hput1 Hput2.
  rewrite (create_group_commits env req w userId groupName groupDescription
             userRecords l payer r v Hu Hn Hd Hread Hgroups Hl Hacc Hbal
             Hput1 Hput2).
  cbn [snd]. rewrite (stored_groups_read _ _ _ _ Hgroups).
  set (gs := groups_of_record r).
  set (g := new_group env req userId groupName groupDescription gs).
  set (w' := store _ USER_GROUPS_BIN_ID _).
  assert (Hu' : truthy (Some userId) = Some userId).
  { apply truthy_Z_Some. split; trivial.
    now apply (truthy_Z_Some (cg_userId req) userId). }
  assert (Hread' : latest w' USER_GROUPS_BIN_ID
                   = Resolved true
                       (Some (JsonObject (Some (groups_doc (gs ++ [g])))
                                (S (revision_at
                                      (store (concurrent env w) (binId l)
                                         (users_doc
                                            (update_nth (userIndex l)
                                               (debit 5000)
                                               (bin_users (binRecords userRecords)
                                                  (binId l)))))
                                      USER_GROUPS_BIN_ID)))))
    by apply latest_store_same.
  assert (Hi : findIndex (fun g0 => id_is (Some (group_id g)) (group_id g0))
                 (groups_of_record (Some (groups_doc (gs ++ [g]))))
               = Some (List.length gs)).
  { cbn [groups_of_record groups_doc doc_groups]. apply findIndex_app_last.
    - intros y Hy. unfold id_is. apply Z.eqb_neq.
      pose proof (new_group_id_above env req userId groupName groupDescription
                    gs y Hy). fold g in H. lia.
    - unfold id_is. apply Z.eqb_refl. }
  destruct (groups_join_runs env' _ _ _ _ _ _ _ Hu' Hread' Hi)
    as (g0 & Hg0 & _ & Hrun).
  rewrite Hrun.
  cbn [groups_of_record groups_doc doc_groups] in Hg0.
  rewrite nth_error_app2, Nat.sub_diag in Hg0 by lia. cbn in Hg0.
  injection Hg0 as <-.
  assert (Hinc : includes (group_members g) userId = true).
  { apply includes_In. cbn. now left. }
  now rewrite Hinc.
Qed.

Lemma creator_cannot_join_own_group_witness :
  groups_join second_bin_refuses (Some 1)
    (Some (group_id
             (new_group quiet
                (mkCreateGroupReq (Some 1) (Some "bridge") (Some "club") None)
                1 "bridge" "club"
                (stored_groups (store_with_groups [ann] [bob] sample_groups)))))
    (snd (create_group quiet
            (mkCreateGroupReq (Some 1) (Some "bridge") (Some "club") None)
            (store_with_groups [ann] [bob] sample_groups)))
  = (mkReply 400 false "User is already a member." NoExtra,
     snd (create_group quiet
            (mkCreateGroupReq (Some 1) (Some "bridge") (Some "club") None)
            (store_with_groups [ann] [bob] sample_groups))).
Proof.
  apply (creator_cannot_join_own_group quiet second_bin_refuses
           (mkCreateGroupReq (Some 1) (Some "bridge") (Some "club") None)
           (store_with_groups [ann] [bob] sample_groups) 1 "bridge" "club"
           (view_of [ann] [bob]) (mkLocated USERS_BIN_1 0) ann
           (Some (groups_doc sample_groups)) 1%nat);
    reflexivity.
Defined.

(** ** An invariant of the groups bin *)

Lemma stored_groups_store_elsewhere (w : World) (b : string) (doc : Document) :
  b <> USER_GROUPS_BIN_ID ->
  stored_groups (store w b doc) = stored_groups w.
Proof.
  intros H. unfold stored_groups. rewrite latest_store_other; trivial.
  now apply not_eq_sym.
Qed.

Lemma located_bin_is_not_groups (w : World) (userRecords : UserRecords)
  (userId : Z) (l : Located) :
  fetchAllUserRecords w = Some userRecords ->
  findUserAndBin userRecords userId = Some l ->
  binId l <> USER_GROUPS_BIN_ID.
Proof.
  intros Hread Hl. apply findUserAndBin_entries_key in Hl.
  destruct (fetched_shape _ _ Hread) as (Hkeys & _). rewrite Hkeys in Hl.
  apply In_ALL_USERS_BIN_IDS in Hl. destruct Hl as [-> | ->]; discriminate.
Qed.

Lemma fetch_groups_cases (w : World) :
  (exists r v,
      latest w USER_GROUPS_BIN_ID = Resolved true (Some (JsonObject r v)) /\
      fetch_groups w = (Next (groups_of_record r), w)) \/
  fetch_groups w = (Raise, w).
Proof.
  destruct (latest w USER_GROUPS_BIN_ID) as [|[] [[|r v]|]] eqn:E;
    try (right; run_groups; rewrite E; reflexivity).
  left. exists r, v. split; trivial. now apply (fetch_groups_ok w r v).
Qed.

Section GroupsAfter.

Variable env : Env.
Hypothesis quiet_env : forall w0, concurrent env w0 = w0.

Lemma put_groups_after (gs : list Group) (w : World) :
  stored_groups (snd (put_groups env gs w)) = stored_groups w \/
  stored_groups (snd (put_groups env gs w)) = gs.
Proof.
  unfold put_groups, put_all, bind, ret. cbn [issue_puts]. unfold issue_put.
  rewrite quiet_env.
  destruct (put_outcome env USER_GROUPS_BIN_ID); cbn [snd await_all];
    auto using stored_groups_store.
Qed.

Lemma groups_delete_after (adminId groupId : option Z) (w : World) :
  stored_groups (snd (groups_delete env adminId groupId w)) = stored_groups w \/
  stored_groups (snd (groups_delete env adminId groupId w))
  = filter (fun g => negb (id_is groupId (group_id g))) (stored_groups w).
Proof.
  unfold groups_delete. destruct (isAdmin adminId w); cbn [negb]; [|now left].
  unfold try_catch, bind.
  destruct (fetch_groups_cases w) as [(r & v & Hread & ->) | ->]; [|now left].
  rewrite <- (stored_groups_read _ _ _ _ Hread).
  match goal with
  | |- context [put_groups env ?gs w] =>
      destruct (put_groups_after gs w) as [H | H];
      destruct (put_groups env gs w) as [[| |] w']; cbn [snd] in *; auto
  end.
Qed.

Lemma groups_join_after (userId groupId : option Z) (w : World) :
  stored_groups (snd (groups_join env userId groupId w)) = stored_groups w \/
  exists uid i g,
    nth_error (stored_groups w) i = Some g /\
    ~ In uid (group_members g) /\
    stored_groups (snd (groups_join env userId groupId w))
    = update_nth i (fun g => set_members g (group_members g ++ [uid]))
        (stored_groups w).
Proof.
  unfold groups_join. destruct (truthy userId) as [uid|]; [|now left].
  unfold try_catch, bind.
  destruct (fetch_groups_cases w) as [(r & v & Hread & ->) | ->]; [|now left].
  rewrite <- (stored_groups_read _ _ _ _ Hread).
  destruct (findIndex _ (stored_groups w)) as [i|] eqn:Hi; [|now left].
  destruct (findIndex_Some _ _ _ Hi) as (g & Hg & _).
  unfold or_throw. rewrite Hg. unfold ret, respond. step_handler.
  destruct (includes (group_members g) uid) eqn:Einc; [now left|].
  assert (Hnot : ~ In uid (group_members g)).
  { intros Hin. apply includes_In in Hin. congruence. }
  match goal with
  | |- context [put_groups env ?gs w] =>
      destruct (put_groups_after gs w) as [H | H];
      destruct (put_groups env gs w) as [[| |] w']; cbn [snd] in *; auto
  end; right; exists uid, i, g; repeat split; auto.
Qed.

Lemma groups_update_after (req : UpdateGroupReq) (groupId : option Z)
  (w : World) :
  stored_groups (snd (groups_update env req groupId w)) = stored_groups w \/
  exists name description iconUrl i,
    stored_groups (snd (groups_update env req groupId w))
    = update_nth i (set_details name description iconUrl) (stored_groups w).
Proof.
  unfold groups_update.
  destruct (truthy (ug_ownerId req)) as [ownerId|]; [|now left].
  destruct (truthy (ug_name req)) as [name|]; [|now left].
  destruct (ug_description req) as [description|]; [|now left].
  destruct (ug_iconUrl req) as [iconUrl|]; [|now left].
  unfold try_catch, bind.
  destruct (fetch_groups_cases w) as [(r & v & Hread & ->) | ->]; [|now left].
  rewrite <- (stored_groups_read _ _ _ _ Hread).
  destruct (findIndex _ (stored_groups w)) as [i|] eqn:Hi; [|now left].
  destruct (findIndex_Some _ _ _ Hi) as (g & Hg & _).
  unfold or_throw. rewrite Hg. unfold ret, respond. step_handler.
  destruct (negb (group_ownerId g =? ownerId)); [now left|].
  match goal with
  | |- context [put_groups env ?gs w] =>
      destruct (put_groups_after gs w) as [H | H];
      destruct (put_groups env gs w) as [[| |] w']; cbn [snd] in *; auto
  end; right; exists name, description, iconUrl, i; auto.
Qed.

Lemma create_group_after (req : CreateGroupReq) (w : World) :
  stored_groups (snd (create_group env req w)) = stored_groups w \/
  exists userId groupName groupDescription,
    stored_groups (snd (create_group env req w))
    = stored_groups w
      ++ [new_group env req userId groupName groupDescription (stored_groups w)].
Proof.
  unfold create_group.
  destruct (truthy (cg_userId req)) as [userId|]; [|now left].
  destruct (truthy (cg_groupName req)) as [groupName|]; [|now left].
  destruct (truthy (cg_groupDescription req)) as [groupDescription|];
    [|now left].
  run_handler.
  destruct (fetchAllUserRecords w) as [userRecords|] eqn:Hread; [|now left].
  step_handler.
  destruct (latest w USER_GROUPS_BIN_ID) as [|[] [[|r v]|]] eqn:Hgroups;
    try (now left).
  cbn [fst snd negb]. step_handler. fold (groups_of_record r).
  rewrite <- (stored_groups_read _ _ _ _ Hgroups).
  destruct (findUserAndBin userRecords userId) as [l|] eqn:Hl; [|now left].
  destruct (located_account (binRecords userRecords) l); [|now left].
  destruct (authTokens u <? 5000); [now left|].
  pose proof (located_bin_is_not_groups _ _ _ _ Hread Hl) as Hne.
  unfold put_all, put_users. rewrite quiet_env. cbn [issue_puts].
  unfold issue_put.
  destruct (put_outcome env (binId l)), (put_outcome env USER_GROUPS_BIN_ID);
    cbn [await_all forallb andb snd];
    rewrite ?stored_groups_store, ?stored_groups_store_elsewhere by exact Hne;
    try (now left); right; now exists userId, groupName, groupDescription.
Qed.

End GroupsAfter.

Lemma Forall_update_nth {A : Type} (P : A -> Prop) (f : A -> A) (i : nat)
  (l : list A) :
  Forall P l ->
  (forall x, nth_error l i = Some x -> P x -> P (f x)) ->
  Forall P (update_nth i f l).
Proof.
  intros Hall. revert i. induction Hall as [|a l Ha Hl IH]; intros [|i] Hf;
    cbn; constructor; auto.
Qed.

Lemma NoDup_map_filter {A : Type} (h : A -> Z) (p : A -> bool) (l : list A) :
  NoDup (map h l) -> NoDup (map h (filter p l)).
Proof.
  induction l as [|a l IH]; cbn; trivial.
  intros Hnd. inversion Hnd as [|? ? Hnot Hrest]; subst.
  destruct (p a); cbn; auto. constructor; auto.
  intros Hin. apply Hnot. apply in_map_iff in Hin.
  destruct Hin as (x & <- & Hx). apply filter_In in Hx.
  apply in_map. tauto.
Qed.

Lemma Forall_filter {A : Type} (P : A -> Prop) (p : A -> bool) (l : list A) :
  Forall P l -> Forall P (filter p l).
Proof.
  intros Hall. apply Forall_forall. intros x Hx. apply filter_In in Hx.
  rewrite Forall_forall in Hall. now apply Hall.
Qed.

Lemma well_formed_after_delete (groupId : option Z) (gs : list Group) :
  groups_well_formed gs ->
  groups_well_formed
    (filter (fun g => negb (id_is groupId (group_id g))) gs).
Proof.
  intros [Hids Hmembers]. split.
  - now apply NoDup_map_filter.
  - now apply Forall_filter.
Qed.

Lemma well_formed_after_join (uid : Z) (i : nat) (g : Group)
  (gs : list Group) :
  nth_error gs i = Some g ->
  ~ In uid (group_members g) ->
  groups_well_formed gs ->
  groups_well_formed
    (update_nth i (fun g => set_members g (group_members g ++ [uid])) gs).
Proof.
  intros Hg Hnot [Hids Hmembers]. split.
  - now rewrite map_update_nth.
  - apply Forall_update_nth; trivial.
    intros x Hx Hnd. rewrite Hg in Hx. injection Hx as <-.
    cbn [set_members group_members]. now apply NoDup_snoc.
Qed.

Lemma well_formed_after_update (name description iconUrl : string) (i : nat)
  (gs : list Group) :
  groups_well_formed gs ->
  groups_well_formed (update_nth i (set_details name description iconUrl) gs).
Proof.
  intros [Hids Hmembers]. split.
  - now rewrite map_update_nth.
  - apply Forall_update_nth; trivial.
Qed.

Lemma well_formed_after_create (env : Env) (req : CreateGroupReq)
  (userId : Z) (groupName groupDescription : string) (gs : list Group) :
  groups_well_formed gs ->
  groups_well_formed
    (gs ++ [new_group env req userId groupName groupDescription gs]).
Proof.
  intros [Hids Hmembers]. split.
  - rewrite map_app. cbn [map]. apply NoDup_snoc; trivial.
    intros Hin. apply in_map_iff in Hin. destruct Hin as (g & Heq & Hg).
    pose proof (new_group_id_above env req userId groupName groupDescription
                  gs g Hg).
    lia.
  - apply Forall_app. split; trivial. constructor; [|constructor].
    unfold new_group. cbn [group_members]. repeat constructor. intros [].
Qed.

(** X7. An invariant of the groups bin. With no other writer between a
    handler's read and its write, each of the four handlers that write the
    groups bin (create, join, update, delete) leaves it with pairwise distinct
    group ids and with no member listed twice in a group, provided it was so
    before; this holds for every request and whatever the backend answers
    to the writes. *)
Theorem group_handlers_keep_groups_well_formed (env : Env) (w : World) :
  (forall w0, concurrent env w0 = w0) ->
  groups_well_formed (stored_groups w) ->
  (forall req,
      groups_well_formed (stored_groups (snd (create_group env req w)))) /\
  (forall userId groupId,
      groups_well_formed
        (stored_groups (snd (groups_join env userId groupId w)))) /\
  (forall req groupId,
      groups_well_formed
        (stored_groups (snd (groups_update env req groupId w)))) /\
  (forall adminId groupId,
      groups_well_formed
        (stored_groups (snd (groups_delete env adminId groupId w)))).
Proof.
  intros Hquiet Hwf. split; [|split; [|split]].
  - intros req.
    destruct (create_group_after env Hquiet req w)
      as [-> | (userId & name & description & ->)]; trivial.
    now apply well_formed_after_create.
  - intros userId groupId.
    destruct (groups_join_after env Hquiet userId groupId w)
      as [-> | (uid & i & g & Hg & Hnot & ->)]; trivial.
    now apply (well_formed_after_join uid i g).
  - intros req groupId.
    destruct (groups_update_after env Hquiet req groupId w)
      as [-> | (name & description & iconUrl & i & ->)]; trivial.
    now apply well_formed_after_update.
  - intros adminId groupId.
    destruct (groups_delete_after env Hquiet adminId groupId w) as [-> | ->];
      trivial.
    now apply well_formed_after_delete.
Qed.

Lemma group_handlers_keep_groups_well_formed_witness :
  groups_well_formed
    (stored_groups
       (snd (groups_join quiet (Some 2) (Some 5)
               (store_with_groups [ann] [bob] sample_groups)))).
Proof.
  apply (group_handlers_keep_groups_well_formed quiet
           (store_with_groups [ann] [bob] sample_groups)).
  - reflexivity.
  - split.
    + cbn. repeat constructor; cbn; intuition discriminate.
    + cbn. repeat constructor; cbn; intuition discriminate.
Defined.

(** ** Friend requests *)

Lemma update_nth_compose {A : Type} (f g : A -> A) (i : nat) (l : list A) :
  update_nth i g (update_nth i f l) = update_nth i (fun x => g (f x)) l.
Proof.
  revert i. induction l as [|a l IH]; intros [|i]; cbn; trivial.
  now rewrite IH.
Qed.

Lemma friends_of_request_init (u : User) :
  friends_of (init_friends (init_friendRequests u)) = friends_of u.
Proof.
  now destruct u as [? ? ? ? ? [fs|] [rs|] ?].
Qed.

Lemma pending_request_init (u : User) :
  friendRequests (init_friends (init_friendRequests u)) = Some (pending u).
Proof.
  now destruct u as [? ? ? ? ? [fs|] [rs|] ?].
Qed.

Lemma friendRequests_request_edit (sender u : User) :
  friendRequests (request_edit sender u)
  = Some (pending u ++ [mkFriendRequest (user_id sender) (username sender)]).
Proof.
  unfold request_edit, push_request. now rewrite pending_request_init.
Qed.

Lemma friends_of_request_edit (sender u : User) :
  friends_of (request_edit sender u) = friends_of u.
Proof.
  now destruct u as [? ? ? ? ? [fs|] [rs|] ?].
Qed.

Lemma user_id_request_edit (sender u : User) :
  user_id (request_edit sender u) = user_id u.
Proof.
  now destruct u as [? ? ? ? ? [fs|] [rs|] ?].
Qed.

(** The handler on a store it can read, with the sender and the receiver
    found. *)
Lemma friends_request_runs (env : Env) (req : FriendReq) (w : World)
  (senderId receiverId : Z) (userRecords : UserRecords) (sender : User)
  (l : Located) (receiver : User) :
  truthy (fr_senderId req) = Some senderId ->
  truthy (fr_receiverId req) = Some receiverId ->
  fetchAllUserRecords w = Some userRecords ->
  find (fun u => user_id u =? senderId) (allUsers userRecords) = Some sender ->
  findUserAndBin userRecords receiverId = Some l ->
  located_account (binRecords userRecords) l = Some receiver ->
  friends_request env req w =
  if includes (friends_of receiver) senderId
  then (mkReply 400 false "You are already friends." NoExtra, w)
  else if existsb (fun r => req_from r =? senderId) (pending receiver)
  then (mkReply 400 false "Request already sent." NoExtra, w)
  else
    match put_outcome env (binId l) with
    | PutStored =>
        (mkReply 200 true "Friend request sent." NoExtra,
         store (concurrent env w) (binId l)
           (users_doc (update_nth (userIndex l) (request_edit sender)
                         (bin_users (binRecords userRecords) (binId l)))))
    | PutRefused =>
        (mkReply 200 true "Friend request sent." NoExtra, concurrent env w)
    | PutRejected => (internal_error, concurrent env w)
    end.
Proof.
  intros Hs Hr Hread Hsender Hl Hacc.
  unfold friends_request. rewrite Hs, Hr. run_handler. rewrite Hread.
  step_handler. rewrite Hsender, Hl, Hacc.
  rewrite !located_account_modify, same_located_refl, Hacc.
  cbn [option_map].
  fold (friends_of (init_friends (init_friendRequests receiver))).
  rewrite friends_of_request_init, pending_request_init.
  destruct (includes (friends_of receiver) senderId); trivial.
  destruct (existsb _ (pending receiver)); trivial.
  unfold put_all, put_users, modify_located. cbn [issue_puts]. unfold issue_put.
  rewrite !bin_users_modify_user, String.eqb_refl, !update_nth_compose.
  fold (request_edit sender).
  destruct (put_outcome env (binId l)); reflexivity.
Qed.

(** What the registry reads of any account after a handler has stored the
    array of one edited account, with no other write. *)
Lemma lookupAccount_after_edit (w : World) (userRecords : UserRecords)
  (l : Located) (f : User -> User) (userId : Z) :
  fetchAllUserRecords w = Some userRecords ->
  (forall u, user_id (f u) = user_id u) ->
  lookupAccount
    (store w (binId l)
       (users_doc (update_nth (userIndex l) f
                     (bin_users (binRecords userRecords) (binId l)))))
    userId
  = match findUserAndBin userRecords userId with
    | Some l' =>
        if same_located l l'
        then option_map f (located_account (binRecords userRecords) l')
        else located_account (binRecords userRecords) l'
    | None => None
    end.
Proof.
  intros Hread Hf.
  destruct (fetched_shape _ _ Hread) as (Hkeys & _ & Hs1 & Hs2).
  set (recs := modify_located (binRecords userRecords) l f).
  rewrite (lookupAccount_agrees _ recs).
  - unfold recs, modify_located.
    rewrite findUserAndBin_entries_modify by exact Hf.
    unfold findUserAndBin.
    destruct (findUserAndBin_entries (binRecords userRecords) userId) as [l'|];
      trivial.
    fold (modify_located (binRecords userRecords) l f).
    apply located_account_modify.
  - unfold recs, modify_located. now rewrite map_fst_modify_user.
  - intros b Hb. split.
    + apply read_fails_store. eapply fetched_readable; eauto.
    + rewrite stored_users_store. unfold recs, modify_located.
      rewrite bin_users_modify_user, (String.eqb_sym b).
      destruct (String.eqb (binId l) b) eqn:E.
      * apply String.eqb_eq in E. now rewrite E.
      * apply In_ALL_USERS_BIN_IDS in Hb. destruct Hb as [-> | ->]; congruence.
Qed.

Lemma lookupAccount_find (w : World) (userRecords : UserRecords) (userId : Z) :
  fetchAllUserRecords w = Some userRecords ->
  find (fun u => user_id u =? userId) (allUsers userRecords)
  = lookupAccount w userId.
Proof. unfold lookupAccount. now intros ->. Qed.

(** The two refusals of the friend-request handler, read off the registry. *)
Lemma friends_request_refuses (env : Env) (req : FriendReq) (w : World)
  (senderId receiverId : Z) (sender receiver : User) :
  truthy (fr_senderId req) = Some senderId ->
  truthy (fr_receiverId req) = Some receiverId ->
  lookupAccount w senderId = Some sender ->
  lookupAccount w receiverId = Some receiver ->
  (includes (friends_of receiver) senderId = true ->
   friends_request env req w
   = (mkReply 400 false "You are already friends." NoExtra, w)) /\
  (includes (friends_of receiver) senderId = false ->
   requests_from senderId receiver <> [] ->
   friends_request env req w
   = (mkReply 400 false "Request already sent." NoExtra, w)).
Proof.
  intros Hs Hr Hsender Hreceiver.
  destruct (lookupAccount_Some _ _ _ Hreceiver)
    as (userRecords & l & Hread & Hl & Hacc & _).
  rewrite <- (lookupAccount_find _ _ _ Hread) in Hsender.
  rewrite (friends_request_runs _ _ _ _ _ _ _ _ _ Hs Hr Hread Hsender Hl Hacc).
  split.
  - now intros ->.
  - intros -> Hpending.
    destruct (existsb _ (pending receiver)) eqn:E; trivial.
    exfalso. apply Hpending. unfold requests_from. fold (pending receiver).
    induction (pending receiver) as [|r rs IH]; trivial.
    cbn in E |- *. apply Bool.orb_false_iff in E. destruct E as [-> E].
    now apply IH.
Qed.

Lemma requests_from_nil (senderId : Z) (u : User) :
  existsb (fun r => req_from r =? senderId) (pending u) = false ->
  requests_from senderId u = [].
Proof.
  unfold requests_from. fold (pending u).
  induction (pending u) as [|r rs IH]; trivial.
  cbn. intros E. apply Bool.orb_false_iff in E. destruct E as [-> E].
  now apply IH.
Qed.

Lemma requests_from_request_edit (sender u : User) :
  requests_from (user_id sender) (request_edit sender u)
  = requests_from (user_id sender) u
    ++ [mkFriendRequest (user_id sender) (username sender)].
Proof.
  unfold requests_from. rewrite friendRequests_request_edit.
  fold (pending u). rewrite filter_app. cbn [filter req_from].
  now rewrite Z.eqb_refl.
Qed.

(** What a successful friend request leaves in the registry. *)
Lemma friends_request_sent (env : Env) (req : FriendReq) (w : World)
  (senderId receiverId : Z) (sender receiver : User) :
  truthy (fr_senderId req) = Some senderId ->
  truthy (fr_receiverId req) = Some receiverId ->
  (forall b, put_outcome env b = PutStored) ->
  (forall w0, concurrent env w0 = w0) ->
  lookupAccount w senderId = Some sender ->
  lookupAccount w receiverId = Some receiver ->
  success (fst (friends_request env req w)) = true ->
  includes (friends_of receiver) senderId = false /\
  requests_from senderId receiver = [] /\
  lookupAccount (snd (friends_request env req w)) receiverId
  = Some (request_edit sender receiver) /\
  (exists sender',
      lookupAccount (snd (friends_request env req w)) senderId = Some sender') /\
  forall userId,
    userId <> receiverId ->
    lookupAccount (snd (friends_request env req w)) userId
    = lookupAccount w userId.
Proof.
  intros Hs Hr Hput Hquiet Hsender Hreceiver.
  destruct (lookupAccount_Some _ _ _ Hreceiver)
    as (userRecords & l & Hread & Hl & Hacc & Hrid).
  pose proof Hsender as Hfind.
  rewrite <- (lookupAccount_find _ _ _ Hread) in Hfind.
  rewrite (friends_request_runs _ _ _ _ _ _ _ _ _ Hs Hr Hread Hfind Hl Hacc).
  destruct (includes (friends_of receiver) senderId); [discriminate|].
  destruct (existsb _ (pending receiver)) eqn:E; [discriminate|].
  rewrite Hput, Hquiet. cbn [fst snd success]. intros _.
  pose proof (lookupAccount_after_edit w userRecords l (request_edit sender))
    as Hafter.
  split; [reflexivity|]. split; [now apply requests_from_nil|].
  split; [|split].
  - rewrite Hafter by (trivial; apply user_id_request_edit).
    now rewrite Hl, same_located_refl, Hacc.
  - rewrite Hafter by (trivial; apply user_id_request_edit).
    rewrite (lookupAccount_located _ _ _ Hread) in Hsender.
    destruct (findUserAndBin userRecords senderId) as [ls|]; [|discriminate].
    rewrite Hsender. destruct (same_located l ls); cbn; eauto.
  - intros userId Hne.
    rewrite Hafter by (trivial; apply user_id_request_edit).
    rewrite (lookupAccount_located _ _ _ Hread).
    destruct (findUserAndBin userRecords userId) as [l'|] eqn:Hl'; trivial.
    destruct (same_located l l') eqn:Esame; trivial.
    apply same_located_eq in Esame. subst l'.
    destruct (located_account_found _ _ _ (fetched_NoDup _ _ Hread) Hl')
      as (u & Hu & Hid).
    congruence.
Qed.

(** X8. A friend request that is answered with success (its write stored, no
    other writer) found the sender neither among the receiver's friends nor
    among the receiver's pending requests; afterwards the registry reads the
    receiver with that one request from the sender, carrying the sender's id
    and username, appended to the pending requests, and every other account
    as before; the same request sent again is answered 400 "Request already
    sent." and writes nothing.  Nothing asks that sender and receiver
    differ. *)
Theorem friend_request_is_pending_once (env : Env) (req : FriendReq)
  (w : World) (senderId receiverId : Z) (sender receiver : User) :
  truthy (fr_senderId req) = Some senderId ->
  truthy (fr_receiverId req) = Some receiverId ->
  (forall b, put_outcome env b = PutStored) ->
  (forall w0, concurrent env w0 = w0) ->
  lookupAccount w senderId = Some sender ->
  lookupAccount w receiverId = Some receiver ->
  success (fst (friends_request env req w)) = true ->
  includes (friends_of receiver) senderId = false /\
  requests_from senderId receiver = [] /\
  (exists receiver',
      lookupAccount (snd (friends_request env req w)) receiverId
      = Some receiver' /\
      friendRequests receiver'
      = Some (pending receiver ++ [mkFriendRequest senderId (username sender)]) /\
      requests_from senderId receiver'
      = [mkFriendRequest senderId (username sender)] /\
      friends_of receiver' = friends_of receiver /\
      authTokens receiver' = authTokens receiver) /\
  (forall userId,
      userId <> receiverId ->
      lookupAccount (snd (friends_request env req w)) userId
      = lookupAccount w userId) /\
  friends_request env req (snd (friends_request env req w))
  = (mkReply 400 false "Request already sent." NoExtra,
     snd (friends_request env req w)).
Proof.
  intros Hs Hr Hput Hquiet Hsender Hreceiver Hok.
  destruct (friends_request_sent _ _ _ _ _ _ _ Hs Hr Hput Hquiet Hsender
              Hreceiver Hok)
    as (Hfriends & Hnone & Hafter & (sender' & Hsender') & Hframe).
  destruct (lookupAccount_Some _ _ _ Hsender) as (_ & _ & _ & _ & _ & Hsid).
  assert (Hreqs : requests_from senderId (request_edit sender receiver)
                  = [mkFriendRequest senderId (username sender)]).
  { rewrite <- Hsid at 1. rewrite requests_from_request_edit, Hsid.
    now rewrite Hnone. }
  split; trivial. split; trivial. split; [|split; trivial].
  - exists (request_edit sender receiver). split; trivial.
    split; [now rewrite friendRequests_request_edit, Hsid|].
    split; trivial. split; [apply friends_of_request_edit|].
    now destruct receiver as [? ? ? ? ? [fs|] [rs|] ?].
  - apply (friends_request_refuses env req _ senderId receiverId sender'
             (request_edit sender receiver)); trivial.
    + now rewrite friends_of_request_edit.
    + rewrite Hreqs. discriminate.
Qed.

Lemma friend_request_is_pending_once_witness :
  friends_request quiet (mkFriendReq (Some 2) (Some 1))
    (snd (friends_request quiet (mkFriendReq (Some 2) (Some 1))
            (store_of [ann] [bob])))
  = (mkReply 400 false "Request already sent." NoExtra,
     snd (friends_request quiet (mkFriendReq (Some 2) (Some 1))
            (store_of [ann] [bob]))).
Proof.
  apply (friend_request_is_pending_once quiet (mkFriendReq (Some 2) (Some 1))
           (store_of [ann] [bob]) 2 1 bob ann); reflexivity.
Defined.

(** ** Declining a request *)

Lemma friends_decline_runs (env : Env) (req : DeclineReq) (w : World)
  (declinerId requesterId : Z) (userRecords : UserRecords) (l : Located)
  (decliner : User) :
  truthy (fd_declinerId req) = Some declinerId ->
  truthy (fd_requesterId req) = Some requesterId ->
  fetchAllUserRecords w = Some userRecords ->
  findUserAndBin userRecords declinerId = Some l ->
  located_account (binRecords userRecords) l = Some decliner ->
  friends_decline env req w =
  match put_outcome env (binId l) with
  | PutStored =>
      (mkReply 200 true "Friend request declined." NoExtra,
       store (concurrent env w) (binId l)
         (users_doc (update_nth (userIndex l) (drop_requests_from requesterId)
                       (bin_users (binRecords userRecords) (binId l)))))
  | PutRefused =>
      (mkReply 200 true "Friend request declined." NoExtra, concurrent env w)
  | PutRejected => (internal_error, concurrent env w)
  end.
Proof.
  intros Hd Hr Hread Hl Hacc.
  unfold friends_decline. rewrite Hd, Hr. run_handler. rewrite Hread.
  step_handler. rewrite Hl, Hacc.
  unfold put_all, put_users, modify_located. cbn [issue_puts]. unfold issue_put.
  rewrite bin_users_modify_user, String.eqb_refl.
  destruct (put_outcome env (binId l)); reflexivity.
Qed.

Lemma user_id_drop_requests_from (x : Z) (u : User) :
  user_id (drop_requests_from x u) = user_id u.
Proof. reflexivity. Qed.

(** What the decline handler leaves in the registry. *)
Lemma friends_decline_declined (env : Env) (req : DeclineReq) (w : World)
  (declinerId requesterId : Z) (decliner : User) :
  truthy (fd_declinerId req) = Some declinerId ->
  truthy (fd_requesterId req) = Some requesterId ->
  (forall b, put_outcome env b = PutStored) ->
  (forall w0, concurrent env w0 = w0) ->
  lookupAccount w declinerId = Some decliner ->
  fst (friends_decline env req w)
  = mkReply 200 true "Friend request declined." NoExtra /\
  lookupAccount (snd (friends_decline env req w)) declinerId
  = Some (drop_requests_from requesterId decliner) /\
  forall userId,
    userId <> declinerId ->
    lookupAccount (snd (friends_decline env req w)) userId
    = lookupAccount w userId.
Proof.
  intros Hd Hr Hput Hquiet Hdecliner.
  destruct (lookupAccount_Some _ _ _ Hdecliner)
    as (userRecords & l & Hread & Hl & Hacc & Hid).
  rewrite (friends_decline_runs _ _ _ _ _ _ _ _ Hd Hr Hread Hl Hacc).
  rewrite Hput, Hquiet. cbn [fst snd].
  pose proof (lookupAccount_after_edit w userRecords l
                (drop_requests_from requesterId)) as Hafter.
  split; [reflexivity|]. split.
  - rewrite Hafter by (trivial; apply user_id_drop_requests_from).
    now rewrite Hl, same_located_refl, Hacc.
  - intros userId Hne.
    rewrite Hafter by (trivial; apply user_id_drop_requests_from).
    rewrite (lookupAccount_located _ _ _ Hread).
    destruct (findUserAndBin userRecords userId) as [l'|] eqn:Hl'; trivial.
    destruct (same_located l l') eqn:Esame; trivial.
    apply same_located_eq in Esame. subst l'.
    destruct (located_account_found _ _ _ (fetched_NoDup _ _ Hread) Hl')
      as (u & Hu & Hid').
    congruence.
Qed.

Lemma requests_from_drop_other (x y : Z) (u : User) :
  x <> y ->
  requests_from x (drop_requests_from y u) = requests_from x u.
Proof.
  intros Hne. unfold requests_from, drop_requests_from.
  cbn [set_friendRequests friendRequests]. fold (pending u).
  induction (pending u) as [|r rs IH]; trivial.
  cbn [filter]. destruct (req_from r =? y) eqn:Ey; cbn [negb filter].
  - apply Z.eqb_eq in Ey.
    assert (E : (req_from r =? x) = false) by (apply Z.eqb_neq; congruence).
    now rewrite E.
  - now rewrite IH.
Qed.

Lemma filter_none_negb {A : Type} (p : A -> bool) (l : list A) :
  filter p l = [] -> filter (fun x => negb (p x)) l = l.
Proof.
  induction l as [|a l IH]; cbn; trivial.
  destruct (p a); [discriminate|]. cbn. intros H. now rewrite IH.
Qed.

(** X9. Declining (its write stored, no other writer) answers success for
    every decliner the registry holds, whether or not a request of that
    requester was pending and whether or not the requester exists; afterwards
    the decliner has no pending request of that requester, the pending
    requests of every other sender are as before, the friends and the balance
    of the decliner are untouched, and every other account reads as before. *)
Theorem decline_removes_only_that_requester (env : Env) (req : DeclineReq)
  (w : World) (declinerId requesterId : Z) (decliner : User) :
  truthy (fd_declinerId req) = Some declinerId ->
  truthy (fd_requesterId req) = Some requesterId ->
  (forall b, put_outcome env b = PutStored) ->
  (forall w0, concurrent env w0 = w0) ->
  lookupAccount w declinerId = Some decliner ->
  fst (friends_decline env req w)
  = mkReply 200 true "Friend request declined." NoExtra /\
  (exists decliner',
      lookupAccount (snd (friends_decline env req w)) declinerId
      = Some decliner' /\
      requests_from requesterId decliner' = [] /\
      (forall senderId,
          senderId <> requesterId ->
          requests_from senderId decliner' = requests_from senderId decliner) /\
      friends decliner' = friends decliner /\
      authTokens decliner' = authTokens decliner) /\
  forall userId,
    userId <> declinerId ->
    lookupAccount (snd (friends_decline env req w)) userId
    = lookupAccount w userId.
Proof.
  intros Hd Hr Hput Hquiet Hdecliner.
  destruct (friends_decline_declined _ _ _ _ _ _ Hd Hr Hput Hquiet Hdecliner)
    as (Hreply & Hafter & Hframe).
  split; trivial. split; trivial.
  exists (drop_requests_from requesterId decliner). split; trivial.
  split; [apply requests_from_drop|]. split; [|now split].
  intros senderId Hne. now apply requests_from_drop_other.
Qed.

Lemma decline_removes_only_that_requester_witness :
  exists decliner',
    lookupAccount
      (snd (friends_decline quiet (mkDeclineReq (Some 1) (Some 2))
              (store_of [ann_asked_by_bob] [bob])))
      1
    = Some decliner' /\
    requests_from 2 decliner' = [].
Proof.
  destruct (decline_removes_only_that_requester quiet
              (mkDeclineReq (Some 1) (Some 2))
              (store_of [ann_asked_by_bob] [bob]) 1 2 ann_asked_by_bob)
    as (_ & (decliner' & Hread & Hnone & _) & _); try reflexivity.
  now exists decliner'.
Defined.

(** X10. Request, then decline.  After a friend request answered with
    success, the receiver declining the sender (writes stored, no other
    writer) answers success and takes the request back out: the receiver's
    pending requests are those of before the request, and so are the
    receiver's friends and balance. *)
Theorem request_then_decline_restores_pending (env : Env) (w : World)
  (senderId receiverId : Z) (sender receiver : User) :
  senderId <> 0 ->
  receiverId <> 0 ->
  (forall b, put_outcome env b = PutStored) ->
  (forall w0, concurrent env w0 = w0) ->
  lookupAccount w senderId = Some sender ->
  lookupAccount w receiverId = Some receiver ->
  success (fst (friends_request env
                  (mkFriendReq (Some senderId) (Some receiverId)) w)) = true ->
  let requested :=
    snd (friends_request env (mkFriendReq (Some senderId) (Some receiverId)) w) in
  let declined :=
    friends_decline env (mkDeclineReq (Some receiverId) (Some senderId))
      requested in
  success (fst declined) = true /\
  exists receiver',
    lookupAccount (snd declined) receiverId = Some receiver' /\
    pending receiver' = pending receiver /\
    friends_of receiver' = friends_of receiver /\
    authTokens receiver' = authTokens receiver.
Proof.
  intros Hs Hr Hput Hquiet Hsender Hreceiver Hok requested declined.
  assert (Hts : truthy (Some senderId) = Some senderId)
    by now apply truthy_Z_Some.
  assert (Htr : truthy (Some receiverId) = Some receiverId)
    by now apply truthy_Z_Some.
  destruct (friends_request_sent env
              (mkFriendReq (Some senderId) (Some receiverId)) w senderId
              receiverId sender receiver Hts Htr Hput Hquiet Hsender Hreceiver
              Hok)
    as (_ & Hnone & Hafter & _ & _).
  fold requested in Hafter.
  destruct (friends_decline_declined env
              (mkDeclineReq (Some receiverId) (Some senderId)) requested
              receiverId senderId (request_edit sender receiver) Htr Hts Hput
              Hquiet Hafter)
    as (Hreply & Hdeclined & _).
  fold declined in Hreply, Hdeclined.
  split; [now rewrite Hreply|].
  exists (drop_requests_from senderId (request_edit sender receiver)).
  split; trivial.
  destruct (lookupAccount_Some _ _ _ Hsender) as (_ & _ & _ & _ & _ & Hsid).
  split; [|split].
  - unfold pending at 1, drop_requests_from.
    cbn [set_friendRequests friendRequests].
    rewrite friendRequests_request_edit, filter_app, Hsid.
    cbn [filter req_from]. rewrite Z.eqb_refl. cbn [negb].
    rewrite app_nil_r. now apply filter_none_negb.
  - unfold friends_of at 1, drop_requests_from.
    cbn [set_friendRequests friends].
    apply friends_of_request_edit.
  - now destruct receiver as [? ? ? ? ? [fs|] [rs|] ?].
Qed.

Lemma request_then_decline_restores_pending_witness :
  exists receiver',
    lookupAccount
      (snd (friends_decline quiet (mkDeclineReq (Some 1) (Some 2))
              (snd (friends_request quiet (mkFriendReq (Some 2) (Some 1))
                      (store_of [ann] [bob])))))
      1
    = Some receiver' /\
    pending receiver' = pending ann.
Proof.
  destruct (request_then_decline_restores_pending quiet
              (store_of [ann] [bob]) 2 1 bob ann)
    as (_ & receiver' & Hread & Hpending & _);
    try reflexivity; try discriminate.
  now exists receiver'.
Defined.

(** ** Accepting, then asking again *)

Lemma includes_occurrences (x : Z) (u : User) :
  (0 < occurrences x (friends u))%nat -> includes (friends_of u) x = true.
Proof.
  unfold occurrences, friends_of, includes. intros H.
  apply (count_occ_In Z.eq_dec) in H.
  apply existsb_exists. exists x. split; trivial. apply Z.eqb_refl.
Qed.

(** After an accept answered with success, each of the two accounts lists
    the other among its friends. *)
Lemma friends_accept_befriends (env : Env) (req : AcceptReq) (w : World)
  (accepterId requesterId : Z) :
  truthy (fa_accepterId req) = Some accepterId ->
  truthy (fa_requesterId req) = Some requesterId ->
  (forall b, put_outcome env b = PutStored) ->
  (forall w0, concurrent env w0 = w0) ->
  success (fst (friends_accept env req w)) = true ->
  exists a' r',
    lookupAccount (snd (friends_accept env req w)) accepterId = Some a' /\
    lookupAccount (snd (friends_accept env req w)) requesterId = Some r' /\
    includes (friends_of a') requesterId = true /\
    includes (friends_of r') accepterId = true.
Proof.
  intros Ha Hr Hput Hquiet Hok.
  destruct (friends_accept_success_inv _ _ _ Hok)
    as (aid & rid & userRecords & la & lr & Ha' & Hr' & Hread & Hla & Hlr).
  rewrite Ha in Ha'. rewrite Hr in Hr'.
  injection Ha' as <-. injection Hr' as <-.
  pose proof (fetched_NoDup _ _ Hread) as Hnd.
  destruct (located_account_found _ _ _ Hnd Hla) as (a & Hacc_a & Hid_a).
  destruct (located_account_found _ _ _ Hnd Hlr) as (r & Hacc_r & Hid_r).
  rewrite (friends_accept_runs _ _ _ _ _ _ _ _ Ha Hr Hread Hla Hlr).
  cbv zeta. cbn [snd]. rewrite Hquiet.
  rewrite !(lookupAccount_after_accept _ _ _ _ _ _ _ _ Hput Hread), Hla, Hlr.
  destruct (accept_edits_accounts (binRecords userRecords) la lr
              accepterId requesterId) as [Ea Er].
  rewrite Ea, Er, Hacc_a, Hacc_r. cbn [option_map].
  destruct (same_located la lr) eqn:Esame.
  - apply same_located_eq in Esame. subst lr.
    assert (r = a) by congruence. subst r.
    assert (Eid : requesterId = accepterId) by congruence.
    clear Hid_a Hid_r. subst requesterId.
    do 2 eexists. repeat split; try reflexivity;
      apply includes_occurrences;
      rewrite (occurrences_add_twice _ (drop_requests_from accepterId a)); lia.
  - do 2 eexists. repeat split; try reflexivity; apply includes_occurrences.
    + rewrite (occurrences_add_init _ (drop_requests_from requesterId a)). lia.
    + rewrite occurrences_add_init. lia.
Qed.

(** X11. Accept, then ask again.  After an accept answered with success
    (writes stored, no other writer), a friend request between the two
    accounts, in either direction, is answered 400 "You are already friends."
    and writes nothing. *)
Theorem accepted_friends_cannot_request_again (env : Env) (w : World)
  (accepterId requesterId : Z) :
  accepterId <> 0 ->
  requesterId <> 0 ->
  (forall b, put_outcome env b = PutStored) ->
  (forall w0, concurrent env w0 = w0) ->
  success (fst (friends_accept env
                  (mkAcceptReq (Some accepterId) (Some requesterId)) w)) = true ->
  let accepted :=
    snd (friends_accept env (mkAcceptReq (Some accepterId) (Some requesterId)) w)
  in
  friends_request env (mkFriendReq (Some requesterId) (Some accepterId)) accepted
  = (mkReply 400 false "You are already friends." NoExtra, accepted) /\
  friends_request env (mkFriendReq (Some accepterId) (Some requesterId)) accepted
  = (mkReply 400 false "You are already friends." NoExtra, accepted).
Proof.
  intros Ha Hr Hput Hquiet Hok accepted.
  assert (Hta : truthy (Some accepterId) = Some accepterId)
    by now apply truthy_Z_Some.
  assert (Htr : truthy (Some requesterId) = Some requesterId)
    by now apply truthy_Z_Some.
  destruct (friends_accept_befriends env
              (mkAcceptReq (Some accepterId) (Some requesterId)) w accepterId
              requesterId Hta Htr Hput Hquiet Hok)
    as (a' & r' & Ha' & Hr' & Hfa & Hfr).
  fold accepted in Ha', Hr'. split.
  - now apply (friends_request_refuses env
                 (mkFriendReq (Some requesterId) (Some accepterId)) accepted
                 requesterId accepterId r' a').
  - now apply (friends_request_refuses env
                 (mkFriendReq (Some accepterId) (Some requesterId)) accepted
                 accepterId requesterId a' r').
Qed.

Lemma accepted_friends_cannot_request_again_witness :
  friends_request quiet (mkFriendReq (Some 2) (Some 1))
    (snd (friends_accept quiet (mkAcceptReq (Some 1) (Some 2))
            (store_of [ann_asked_by_bob] [bob])))
  = (mkReply 400 false "You are already friends." NoExtra,
     snd (friends_accept quiet (mkAcceptReq (Some 1) (Some 2))
            (store_of [ann_asked_by_bob] [bob]))).
Proof.
  apply (accepted_friends_cannot_request_again quiet
           (store_of [ann_asked_by_bob] [bob]) 1 2);
    try reflexivity; discriminate.
Defined.

(** ** Fees *)

Lemma stored_users_after_edit (w : World) (userRecords : UserRecords)
  (l : Located) (f : User -> User) (b : string) :
  fetchAllUserRecords w = Some userRecords ->
  In b ALL_USERS_BIN_IDS ->
  stored_users
    (store w (binId l)
       (users_doc (update_nth (userIndex l) f
                     (bin_users (binRecords userRecords) (binId l)))))
    b
  = bin_users (modify_located (binRecords userRecords) l f) b.
Proof.
  intros Hread Hb. rewrite stored_users_store. unfold modify_located.
  rewrite bin_users_modify_user, (String.eqb_sym b).
  destruct (String.eqb (binId l) b) eqn:E.
  - apply String.eqb_eq in E. now rewrite E.
  - now apply fetched_agrees.
Qed.

Lemma stored_total_fetched (w : World) (userRecords : UserRecords) :
  fetchAllUserRecords w = Some userRecords ->
  stored_total w = total_balance (binRecords userRecords).
Proof.
  intros Hread. destruct (fetched_shape _ _ Hread) as (Hkeys & _).
  apply stored_total_agrees; trivial.
  intros b Hb. now apply fetched_agrees.
Qed.

Lemma stored_total_after_edit (w : World) (userRecords : UserRecords)
  (l : Located) (f : User -> User) :
  fetchAllUserRecords w = Some userRecords ->
  stored_total
    (store w (binId l)
       (users_doc (update_nth (userIndex l) f
                     (bin_users (binRecords userRecords) (binId l)))))
  = total_balance (modify_located (binRecords userRecords) l f).
Proof.
  intros Hread. destruct (fetched_shape _ _ Hread) as (Hkeys & _).
  apply stored_total_agrees.
  - unfold modify_located. now rewrite map_fst_modify_user.
  - intros b Hb. now apply stored_users_after_edit.
Qed.

Lemma stored_total_store_groups (w : World) (doc : Document) :
  stored_total (store w USER_GROUPS_BIN_ID doc) = stored_total w.
Proof.
  unfold stored_total. rewrite ALL_USERS_BIN_IDS_eq. cbn [flat_map].
  now rewrite !stored_users_store_elsewhere by discriminate.
Qed.

(** Another id than the one an edit was located by reads as before. *)
Lemma lookupAccount_after_edit_other (w : World) (userRecords : UserRecords)
  (l : Located) (f : User -> User) (editedId userId : Z) :
  fetchAllUserRecords w = Some userRecords ->
  (forall u, user_id (f u) = user_id u) ->
  findUserAndBin userRecords editedId = Some l ->
  userId <> editedId ->
  lookupAccount
    (store w (binId l)
       (users_doc (update_nth (userIndex l) f
                     (bin_users (binRecords userRecords) (binId l)))))
    userId
  = lookupAccount w userId.
Proof.
  intros Hread Hf Hl Hne.
  rewrite (lookupAccount_after_edit _ _ _ _ _ Hread Hf).
  rewrite (lookupAccount_located _ _ _ Hread).
  destruct (findUserAndBin userRecords userId) as [l'|] eqn:Hl'; trivial.
  destruct (same_located l l') eqn:Esame; trivial.
  apply same_located_eq in Esame. subst l'.
  pose proof (fetched_NoDup _ _ Hread) as Hnd.
  destruct (located_account_found _ _ _ Hnd Hl) as (u & Hu & Hid).
  destruct (located_account_found _ _ _ Hnd Hl') as (u' & Hu' & Hid').
  congruence.
Qed.

(** X12. A fee payment answered with success (its write stored, no other
    writer) takes exactly the fee of 1000 out of the registry: the payer held
    at least the fee and holds the fee less, so no balance becomes negative;
    the sum of all stored balances is the former sum less the fee; and every
    other account reads as before. *)
Theorem pay_fee_takes_exactly_the_fee (env : Env) (w : World) (userId : Z) :
  (forall b, put_outcome env b = PutStored) ->
  (forall w0, concurrent env w0 = w0) ->
  success (fst (pay_fee env (Some userId) w)) = true ->
  (exists payer payer',
      lookupAccount w userId = Some payer /\
      lookupAccount (snd (pay_fee env (Some userId) w)) userId = Some payer' /\
      fee <= authTokens payer /\
      authTokens payer' = authTokens payer - fee /\
      0 <= authTokens payer') /\
  stored_total (snd (pay_fee env (Some userId) w)) = stored_total w - fee /\
  forall otherId,
    otherId <> userId ->
    lookupAccount (snd (pay_fee env (Some userId) w)) otherId
    = lookupAccount w otherId.
Proof.
  intros Hput Hquiet Hok.
  destruct (pay_fee_success_inv _ _ _ Hok)
    as (userRecords & l & payer & Hread & Hl & Hacc & Hfee).
  rewrite (pay_fee_commits _ _ _ _ _ _ Hread Hl Hacc Hfee), Hput, Hquiet.
  cbn [snd]. split; [|split].
  - exists payer, (debit fee payer).
    rewrite (lookupAccount_located _ _ _ Hread), Hl.
    rewrite (lookupAccount_after_store _ _ _ _ _ _ Hread Hl Hacc)
      by apply user_id_debit.
    cbn [debit set_authTokens authTokens]. repeat split; trivial. lia.
  - rewrite (stored_total_after_edit _ _ _ _ Hread).
    rewrite (total_balance_debit _ _ _ _ Hacc).
    now rewrite (stored_total_fetched _ _ Hread).
  - intros otherId Hne.
    apply (lookupAccount_after_edit_other _ _ _ _ userId); trivial.
Qed.

Lemma pay_fee_takes_exactly_the_fee_witness :
  stored_total (snd (pay_fee quiet (Some 1) (store_of [ann] [bob])))
  = stored_total (store_of [ann] [bob]) - fee.
Proof.
  apply (pay_fee_takes_exactly_the_fee quiet (store_of [ann] [bob]) 1);
    reflexivity.
Defined.

(** The group creation of a payer who can pay, whatever becomes of its two
    writes. *)
Lemma create_group_writes (env : Env) (req : CreateGroupReq) (w : World)
  (userId : Z) (groupName groupDescription : string)
  (userRecords : UserRecords) (l : Located) (payer : User)
  (r : option Document) (v : nat) :
  truthy (cg_userId req) = Some userId ->
  truthy (cg_groupName req) = Some groupName ->
  truthy (cg_groupDescription req) = Some groupDescription ->
  fetchAllUserRecords w = Some userRecords ->
  latest w USER_GROUPS_BIN_ID = Resolved true (Some (JsonObject r v)) ->
  findUserAndBin userRecords userId = Some l ->
  located_account (binRecords userRecords) l = Some payer ->
  5000 <= authTokens payer ->
  create_group env req w =
  let newGroup :=
    new_group env req userId groupName groupDescription (groups_of_record r) in
  let w1 :=
    match put_outcome env (binId l) with
    | PutStored =>
        store (concurrent env w) (binId l)
          (users_doc (update_nth (userIndex l) (debit 5000)
                        (bin_users (binRecords userRecords) (binId l))))
    | _ => concurrent env w
    end in
  let w2 :=
    match put_outcome env USER_GROUPS_BIN_ID with
    | PutStored =>
        store w1 USER_GROUPS_BIN_ID
          (groups_doc (groups_of_record r ++ [newGroup]))
    | _ => w1
    end in
  (match put_outcome env (binId l), put_outcome env USER_GROUPS_BIN_ID with
   | PutStored, PutStored =>
       mkReply 200 true "Group created successfully!" (NewGroup newGroup)
   | _, _ => internal_error
   end, w2).
Proof.
  unfold create_group. intros -> -> -> Hread Hgroups Hl Hacc Hbal.
  run_handler. rewrite Hread. step_handler. rewrite Hgroups.
  cbn [fst snd negb]. step_handler. rewrite Hl, Hacc.
  apply Z.ltb_ge in Hbal. rewrite Hbal.
  unfold put_all, put_users. cbn [issue_puts]. unfold issue_put.
  unfold modify_located. rewrite bin_users_modify_user, String.eqb_refl.
  destruct (put_outcome env (binId l)), (put_outcome env USER_GROUPS_BIN_ID);
    reflexivity.
Qed.

(** X13. The two writes of a group creation are not one transaction.  For a
    creator who can pay, with no other writer: when the write of the
    creator's partition is stored and the write of the groups bin is refused
    or fails, the answer is the 500 reply, the groups are as before, and the
    5000 tokens are gone from the registry; when the partition write is
    refused or fails and the groups write is stored, the answer is the 500
    reply, the new group is stored, and no balance has changed. *)
Theorem create_group_writes_are_not_atomic (env : Env) (req : CreateGroupReq)
  (w : World) (userId : Z) (groupName groupDescription : string)
  (userRecords : UserRecords) (l : Located) (payer : User)
  (r : option Document) (v : nat) :
  truthy (cg_userId req) = Some userId ->
  truthy (cg_groupName req) = Some groupName ->
  truthy (cg_groupDescription req) = Some groupDescription ->
  fetchAllUserRecords w = Some userRecords ->
  latest w USER_GROUPS_BIN_ID = Resolved true (Some (JsonObject r v)) ->
  findUserAndBin userRecords userId = Some l ->
  located_account (binRecords userRecords) l = Some payer ->
  5000 <= authTokens payer ->
  (forall w0, concurrent env w0 = w0) ->
  (put_outcome env (binId l) = PutStored ->
   put_outcome env USER_GROUPS_BIN_ID <> PutStored ->
   fst (create_group env req w) = internal_error /\
   stored_groups (snd (create_group env req w)) = stored_groups w /\
   stored_total (snd (create_group env req w)) = stored_total w - 5000) /\
  (put_outcome env (binId l) <> PutStored ->
   put_outcome env USER_GROUPS_BIN_ID = PutStored ->
   fst (create_group env req w) = internal_error /\
   stored_groups (snd (create_group env req w))
   = stored_groups w
     ++ [new_group env req userId groupName groupDescription (stored_groups w)] /\
   stored_total (snd (create_group env req w)) = stored_total w).
Proof.
  intros Hu Hn Hd Hread Hgroups Hl Hacc Hbal Hquiet.
  rewrite (create_group_writes _ _ _ _ _ _ _ _ _ _ _ Hu Hn Hd Hread Hgroups Hl
             Hacc Hbal).
  cbv zeta. cbn [fst snd]. rewrite Hquiet.
  rewrite (stored_groups_read _ _ _ _ Hgroups).
  pose proof (located_bin_is_not_groups _ _ _ _ Hread Hl) as Hne.
  split.
  - intros -> Hrefused.
    assert (Hw : stored_groups
                   (store w (binId l)
                      (users_doc (update_nth (userIndex l) (debit 5000)
                                    (bin_users (binRecords userRecords)
                                       (binId l)))))
                 = groups_of_record r
                 /\ stored_total
                      (store w (binId l)
                         (users_doc (update_nth (userIndex l) (debit 5000)
                                       (bin_users (binRecords userRecords)
                                          (binId l)))))
                    = stored_total w - 5000).
    { split.
      - rewrite stored_groups_store_elsewhere by exact Hne.
        apply (stored_groups_read _ _ _ _ Hgroups).
      - rewrite (stored_total_after_edit _ _ _ _ Hread).
        rewrite (total_balance_debit _ _ _ _ Hacc).
        now rewrite (stored_total_fetched _ _ Hread). }
    destruct (put_outcome env USER_GROUPS_BIN_ID); [congruence| |];
      (split; [reflexivity|exact Hw]).
  - intros Hrefused ->.
    assert (Hw : stored_groups
                   (store w USER_GROUPS_BIN_ID
                      (groups_doc
                         (groups_of_record r
                          ++ [new_group env req userId groupName
                                groupDescription (groups_of_record r)])))
                 = groups_of_record r
                   ++ [new_group env req userId groupName groupDescription
                         (groups_of_record r)]
                 /\ stored_total
                      (store w USER_GROUPS_BIN_ID
                         (groups_doc
                            (groups_of_record r
                             ++ [new_group env req userId groupName
                                   groupDescription (groups_of_record r)])))
                    = stored_total w).
    { split; [apply stored_groups_store | apply stored_total_store_groups]. }
    destruct (put_outcome env (binId l)); [congruence| |];
      (split; [reflexivity|exact Hw]).
Qed.

Lemma create_group_writes_are_not_atomic_witness :
  fst (create_group groups_bin_refuses
         (mkCreateGroupReq (Some 1) (Some "chess") (Some "club") None)
         (store_with_groups [ann] [bob] sample_groups))
  = internal_error /\
  stored_total
    (snd (create_group groups_bin_refuses
            (mkCreateGroupReq (Some 1) (Some "chess") (Some "club") None)
            (store_with_groups [ann] [bob] sample_groups)))
  = stored_total (store_with_groups [ann] [bob] sample_groups) - 5000.
Proof.
  destruct (create_group_writes_are_not_atomic groups_bin_refuses
              (mkCreateGroupReq (Some 1) (Some "chess") (Some "club") None)
              (store_with_groups [ann] [bob] sample_groups)
              1 "chess" "club"
              (view_of [ann] [bob]) (mkLocated USERS_BIN_1 0) ann
              (Some (groups_doc sample_groups)) 1)
    as [Hcharged _]; try reflexivity.
  destruct Hcharged as (Hreply & _ & Htotal);
    [reflexivity | discriminate |].
  now split.
Defined.

(** ** Passes on sale *)

Lemma fetch_gamepasses_read (w : World) ok r v :
  latest w AUTHDONATE_GAMEPASS_BIN_ID = Resolved ok (Some (JsonObject r v)) ->
  fetch_gamepasses w = (Next (stored_gamepasses w), w).
Proof.
  intros H. run_groups. unfold stored_gamepasses. rewrite H.
  cbn [fst snd]. step_handler. now destruct r.
Qed.

Lemma authdonate_list_read (w : World) (userId : Z) ok r v :
  userId <> 0 ->
  latest w AUTHDONATE_GAMEPASS_BIN_ID = Resolved ok (Some (JsonObject r v)) ->
  authdonate_list (Some userId) w
  = Passes (filter (fun gp => gp_ownerId gp =? userId) (stored_gamepasses w)).
Proof.
  intros Hid H. unfold authdonate_list.
  assert (Ht : truthy (Some userId) = Some userId) by now apply truthy_Z_Some.
  now rewrite Ht, (fetch_gamepasses_read _ _ _ _ H).
Qed.

Lemma authdonate_create_runs (env : Env) (dateNow : Z) (req : CreatePassReq)
  (w : World) (userId : Z) (name : string) (price : Z) ok r v :
  truthy (cp_userId req) = Some userId ->
  truthy (cp_name req) = Some name ->
  truthy (cp_price req) = Some price ->
  0 < price ->
  latest w AUTHDONATE_GAMEPASS_BIN_ID = Resolved ok (Some (JsonObject r v)) ->
  authdonate_create env dateNow req w =
  match put_outcome env AUTHDONATE_GAMEPASS_BIN_ID with
  | PutStored =>
      (mkReply 200 true "Gamepass created successfully!" NoExtra,
       store (concurrent env w) AUTHDONATE_GAMEPASS_BIN_ID
         (gamepasses_doc
            (stored_gamepasses w ++ [mkGamepass dateNow userId name price])))
  | PutRefused =>
      (mkReply 200 true "Gamepass created successfully!" NoExtra,
       concurrent env w)
  | PutRejected =>
      (mkReply 500 false "Server error creating gamepass." NoExtra,
       concurrent env w)
  end.
Proof.
  intros Hu Hn Hp Hpos H. unfold authdonate_create. rewrite Hu, Hn, Hp.
  assert (E : (price <=? 0) = false) by (apply Z.leb_gt; lia). rewrite E.
  unfold try_catch, bind. rewrite (fetch_gamepasses_read _ _ _ _ H).
  unfold put_all. cbn [issue_puts]. unfold issue_put.
  destruct (put_outcome env AUTHDONATE_GAMEPASS_BIN_ID); reflexivity.
Qed.

(** X14. Create, then list.  A pass created with owner, name and a price
    above 0 on a gamepass bin whose payload reads (write stored, no other
    writer) is answered with success, and the list endpoint then answers the
    owner with the passes it listed before followed by the new pass, with
    that owner and the name and price as sent, and answers every other user
    as before.  The pass id is the clock value of the request. *)
Theorem created_pass_is_listed (env : Env) (dateNow : Z) (req : CreatePassReq)
  (w : World) (userId : Z) (name : string) (price : Z) ok r v :
  truthy (cp_userId req) = Some userId ->
  truthy (cp_name req) = Some name ->
  truthy (cp_price req) = Some price ->
  0 < price ->
  latest w AUTHDONATE_GAMEPASS_BIN_ID = Resolved ok (Some (JsonObject r v)) ->
  put_outcome env AUTHDONATE_GAMEPASS_BIN_ID = PutStored ->
  (forall w0, concurrent env w0 = w0) ->
  fst (authdonate_create env dateNow req w)
  = mkReply 200 true "Gamepass created successfully!" NoExtra /\
  (exists before,
      authdonate_list (Some userId) w = Passes before /\
      authdonate_list (Some userId) (snd (authdonate_create env dateNow req w))
      = Passes (before ++ [mkGamepass dateNow userId name price])) /\
  forall otherId,
    otherId <> userId ->
    authdonate_list (Some otherId) (snd (authdonate_create env dateNow req w))
    = authdonate_list (Some otherId) w.
Proof.
  intros Hu Hn Hp Hpos H Hput Hquiet.
  rewrite (authdonate_create_runs _ _ _ _ _ _ _ _ _ _ Hu Hn Hp Hpos H).
  rewrite Hput, Hquiet. cbn [fst snd].
  assert (Hid : userId <> 0) by (apply truthy_Z_Some in Hu; tauto).
  set (new := mkGamepass dateNow userId name price).
  set (w' := store w AUTHDONATE_GAMEPASS_BIN_ID
               (gamepasses_doc (stored_gamepasses w ++ [new]))).
  assert (H' : latest w' AUTHDONATE_GAMEPASS_BIN_ID
               = Resolved true
                   (Some (JsonObject
                            (Some (gamepasses_doc (stored_gamepasses w ++ [new])))
                            (S (revision_at w AUTHDONATE_GAMEPASS_BIN_ID)))))
    by apply latest_store_same.
  assert (Hstored : stored_gamepasses w' = stored_gamepasses w ++ [new]).
  { unfold stored_gamepasses at 1. now rewrite H'. }
  split; [reflexivity|]. split.
  - exists (filter (fun gp => gp_ownerId gp =? userId) (stored_gamepasses w)).
    split; [now apply (authdonate_list_read w userId ok r v)|].
    rewrite (authdonate_list_read _ _ _ _ _ Hid H'), Hstored, filter_app.
    cbn [filter new gp_ownerId]. unfold new. cbn [gp_ownerId].
    now rewrite Z.eqb_refl.
  - intros otherId Hne. unfold authdonate_list.
    destruct (truthy (Some otherId)) as [oid|] eqn:Ho; trivial.
    apply truthy_Z_Some in Ho. destruct Ho as [[= <-] _].
    rewrite (fetch_gamepasses_read _ _ _ _ H'),
      (fetch_gamepasses_read _ _ _ _ H), Hstored, filter_app.
    cbn [filter]. unfold new. cbn [gp_ownerId].
    assert (E : (userId =? otherId) = false) by (apply Z.eqb_neq; congruence).
    now rewrite E, app_nil_r.
Qed.

Lemma created_pass_is_listed_witness :
  authdonate_list (Some 1)
    (snd (authdonate_create quiet 1700000000000
            (mkCreatePassReq (Some 1) (Some "vip") (Some 50))
            (store_of [ann] [bob])))
  = Passes [mkGamepass 1700000000000 1 "vip" 50].
Proof.
  destruct (created_pass_is_listed quiet 1700000000000
              (mkCreatePassReq (Some 1) (Some "vip") (Some 50))
              (store_of [ann] [bob]) 1 "vip" 50 true (Some empty_document) 1)
    as (_ & (before & Hbefore & Hafter) & _);
    [reflexivity | reflexivity | reflexivity | reflexivity | reflexivity
    | reflexivity | reflexivity |].
  cbv in Hbefore. injection Hbefore as <-. exact Hafter.
Defined.

(** ** Search *)

(** X15. The search endpoint and the handlers agree on the account an id
    denotes.  On a registry that reads, the search answers 200 with the
    public fields of exactly the account [findUserAndBin] locates for the id
    (the first one in bin order when several partitions hold the id), and 404
    exactly when [findUserAndBin] finds none; it never writes. *)
Theorem search_and_locator_agree (w : World) (searchId : Z)
  (userRecords : UserRecords) :
  fetchAllUserRecords w = Some userRecords ->
  snd (users_search (Some searchId) w) = w /\
  match findUserAndBin userRecords searchId with
  | Some l =>
      exists u,
        located_account (binRecords userRecords) l = Some u /\
        user_id u = searchId /\
        fst (users_search (Some searchId) w)
        = mkReply 200 true "" (FoundUser (publicUser u))
  | None => status (fst (users_search (Some searchId) w)) = 404
  end.
Proof.
  intros Hread.
  pose proof (lookupAccount_located _ _ searchId Hread) as Hlook.
  destruct (findUserAndBin userRecords searchId) as [l|] eqn:Hl.
  - destruct (located_account_found _ _ _ (fetched_NoDup _ _ Hread) Hl)
      as (u & Hu & Hid).
    rewrite Hu in Hlook. rewrite (users_search_found _ _ _ Hlook).
    split; trivial. now exists u.
  - rewrite <- (lookupAccount_find _ _ _ Hread) in Hlook.
    unfold users_search. run_handler. rewrite Hread. step_handler.
    destruct (allUsers userRecords) as [|a rest]; [now split|].
    now rewrite Hlook.
Qed.

Lemma search_and_locator_agree_witness :
  fst (users_search (Some 7) (store_of [account 7 "first" 1] [account 7 "second" 2]))
  = mkReply 200 true "" (FoundUser (publicUser (account 7 "first" 1))).
Proof.
  destruct (search_and_locator_agree
              (store_of [account 7 "first" 1] [account 7 "second" 2]) 7
              (view_of [account 7 "first" 1] [account 7 "second" 2]))
    as (_ & H); [reflexivity|].
  cbn in H. destruct H as (u & Hu & _ & Hreply).
  injection Hu as <-. exact Hreply.
Defined.

(* ================================================================= *)
(** * Properties of the hangman lobbies *)

Lemma read_bin_items {A : Type} (w : BinFetch A) (items : list A) :
  read_bin w = Some items -> bin_items w = items.
Proof.
  destruct w as [|[] [[|[[l|]|]]|]]; cbn; congruence.
Qed.

Lemma read_bin_of {A : Type} (items : list A) :
  read_bin (bin_of items) = Some items.
Proof. reflexivity. Qed.

Lemma updateHangmanLobbies_cases (outcome : PutOutcome) (lobbies : list Lobby)
  (w : BinFetch Lobby) :
  (outcome = PutStored /\
   updateHangmanLobbies outcome lobbies w = (Some tt, bin_of lobbies)) \/
  (outcome <> PutStored /\ updateHangmanLobbies outcome lobbies w = (None, w)).
Proof.
  destruct outcome; [left | right | right]; split; trivial; discriminate.
Qed.

Lemma is_state_eq (s s' : LobbyState) : is_state s s' = true <-> s = s'.
Proof. destruct s, s'; cbn; split; congruence. Qed.

Lemma array_includes_In (l : list string) (x : string) :
  array_includes l x = true <-> In x l.
Proof.
  unfold array_includes. rewrite existsb_exists. split.
  - intros (y & Hin & Hy). apply String.eqb_eq in Hy. now subst.
  - intros Hin. exists x. split; trivial. apply String.eqb_refl.
Qed.

Section LobbiesAfter.

Variable outcome : PutOutcome.
Variable w : BinFetch Lobby.

Ltac written :=
  match goal with
  | |- context [updateHangmanLobbies outcome ?ls w] =>
      destruct (updateHangmanLobbies_cases outcome ls w) as [[_ ->] | [_ ->]];
      cbn [snd bin_items bin_of]
  end.

Lemma hangman_create_lobby_after (lobbyCode : string) (userId : option Z)
  (username : option string) :
  bin_items (snd (hangman_create_lobby outcome lobbyCode userId username w))
  = bin_items w \/
  exists uid name,
    bin_items (snd (hangman_create_lobby outcome lobbyCode userId username w))
    = bin_items w
      ++ [mkLobby lobbyCode (mkPlayer uid name) None "" [] 0 host_turn
            waiting None].
Proof.
  unfold hangman_create_lobby, getHangmanLobbies.
  destruct (truthy userId) as [uid|]; [|now left].
  destruct (truthy username) as [name|]; [|now left].
  destruct (read_bin w) as [lobbies|] eqn:Hread; [|now left].
  pose proof (read_bin_items _ _ Hread) as Hitems. subst lobbies.
  written; [right; now exists uid, name | now left].
Qed.

Lemma hangman_join_lobby_after (userId : option Z)
  (username lobbyCode : option string) :
  bin_items (snd (hangman_join_lobby outcome userId username lobbyCode w))
  = bin_items w \/
  exists uid name i lobby,
    nth_error (bin_items w) i = Some lobby /\
    lobby_guest lobby = None /\
    bin_items (snd (hangman_join_lobby outcome userId username lobbyCode w))
    = update_nth i (seat_guest uid name) (bin_items w).
Proof.
  unfold hangman_join_lobby, getHangmanLobbies.
  destruct (truthy userId) as [uid|]; [|now left].
  destruct (truthy username) as [name|]; [|now left].
  destruct (truthy lobbyCode) as [code|]; [|now left].
  destruct (read_bin w) as [lobbies|] eqn:Hread; [|now left].
  pose proof (read_bin_items _ _ Hread) as Hitems. subst lobbies.
  destruct (findIndex (has_code code) (bin_items w)) as [i|]; [|now left].
  destruct (nth_error (bin_items w) i) as [lobby|] eqn:Hi; [|now left].
  destruct (lobby_guest lobby) eqn:Hguest; [now left|].
  written; [right; now exists uid, name, i, lobby
           | now left].
Qed.

Lemma hangman_set_word_after (userId : option Z)
  (lobbyCode word : option string) :
  bin_items (snd (hangman_set_word outcome userId lobbyCode word w))
  = bin_items w \/
  exists chosen i lobby,
    nth_error (bin_items w) i = Some lobby /\
    lobby_state lobby = choosing_word /\
    bin_items (snd (hangman_set_word outcome userId lobbyCode word w))
    = update_nth i (start_game chosen) (bin_items w).
Proof.
  unfold hangman_set_word, getHangmanLobbies.
  destruct (truthy userId) as [uid|]; [|now left].
  destruct (truthy lobbyCode) as [code|]; [|now left].
  destruct (truthy word) as [chosen|]; [|now left].
  destruct (read_bin w) as [lobbies|] eqn:Hread; [|now left].
  pose proof (read_bin_items _ _ Hread) as Hitems. subst lobbies.
  destruct (findIndex (has_code code) (bin_items w)) as [i|]; [|now left].
  destruct (nth_error (bin_items w) i) as [lobby|] eqn:Hi; [|now left].
  destruct (negb (player_id (lobby_host lobby) =? uid)); [now left|].
  destruct (is_state (lobby_state lobby) choosing_word) eqn:Hstate;
    cbn [negb]; [|now left].
  apply is_state_eq in Hstate.
  written; [right; now exists chosen, i, lobby
           | now left].
Qed.

Lemma hangman_guess_after (userId : option Z)
  (lobbyCode letter : option string) :
  bin_items (snd (hangman_guess outcome userId lobbyCode letter w))
  = bin_items w \/
  exists upperLetter i lobby,
    nth_error (bin_items w) i = Some lobby /\
    lobby_state lobby = playing /\
    ~ In upperLetter (guessedLetters lobby) /\
    bin_items (snd (hangman_guess outcome userId lobbyCode letter w))
    = update_nth i (apply_guess upperLetter) (bin_items w).
Proof.
  unfold hangman_guess, getHangmanLobbies.
  destruct (truthy userId) as [uid|]; [|now left].
  destruct (truthy lobbyCode) as [code|]; [|now left].
  destruct (truthy letter) as [guessed|]; [|now left].
  destruct (read_bin w) as [lobbies|] eqn:Hread; [|now left].
  pose proof (read_bin_items _ _ Hread) as Hitems. subst lobbies.
  destruct (findIndex (has_code code) (bin_items w)) as [i|]; [|now left].
  destruct (nth_error (bin_items w) i) as [lobby|] eqn:Hi; [|now left].
  cbv zeta.
  destruct (is_state (lobby_state lobby) playing) eqn:Hstate;
    cbn [negb]; [|now left].
  apply is_state_eq in Hstate.
  match goal with
  | |- context [if ?turn_check then (HangmanError 403 _, w) else _] =>
      destruct turn_check; [now left|]
  end.
  destruct (array_includes (guessedLetters lobby) (toUpperCase guessed))
    eqn:Hnew; [now left|].
  assert (Hnot : ~ In (toUpperCase guessed) (guessedLetters lobby)).
  { intros Hin. apply array_includes_In in Hin. congruence. }
  written; [right; now exists (toUpperCase guessed), i, lobby
           | now left].
Qed.

End LobbiesAfter.

Lemma NoDup_push {A : Type} (l : list A) (x : A) :
  NoDup l -> ~ In x l -> NoDup (l ++ [x]).
Proof.
  intros Hnd Hx. apply NoDup_app; trivial.
  - repeat constructor. intros [].
  - intros y Hin [<- | []]. contradiction.
Qed.

Lemma lobby_ok_new (lobbyCode : string) (host : Player) :
  lobby_ok (mkLobby lobbyCode host None "" [] 0 host_turn waiting None).
Proof.
  unfold lobby_ok. cbn. repeat split; try lia. constructor.
Qed.

Lemma lobby_ok_seat_guest (userId : Z) (username : string) (l : Lobby) :
  lobby_guest l = None -> lobby_ok l -> lobby_ok (seat_guest userId username l).
Proof.
  unfold lobby_ok. cbn [seat_guest guessedLetters wrongGuesses lobby_state
                          lobby_guest lobby_winner].
  intros Hguest (Hnd & Hwrong & Hmax & Hstate).
  repeat split; trivial; try lia; try discriminate;
    destruct (lobby_state l); intuition congruence.
Qed.

Lemma lobby_ok_start_game (word : string) (l : Lobby) :
  lobby_state l = choosing_word -> lobby_ok l -> lobby_ok (start_game word l).
Proof.
  unfold lobby_ok. cbn [start_game guessedLetters wrongGuesses lobby_state
                          lobby_guest lobby_winner].
  intros -> (Hnd & Hwrong & Hmax & Hguest & Hnone & Hwinner).
  rewrite Hnone in Hwrong. cbn in Hwrong.
  repeat split; trivial; lia.
Qed.

Lemma lobby_ok_apply_guess (upperLetter : string) (l : Lobby) :
  lobby_state l = playing ->
  ~ In upperLetter (guessedLetters l) ->
  lobby_ok l ->
  lobby_ok (apply_guess upperLetter l).
Proof.
  unfold lobby_ok. intros Hplaying Hnew (Hnd & Hwrong & Hmax & Hstate).
  rewrite Hplaying in Hstate. destruct Hstate as (Hguest & Hless & Hwinner).
  unfold apply_guess.
  set (wrong := if negb (string_includes (lobby_word l) upperLetter)
                then wrongGuesses l + 1 else wrongGuesses l).
  assert (Hw : wrongGuesses l <= wrong <= wrongGuesses l + 1).
  { unfold wrong. destruct (negb _); lia. }
  assert (Hlen : Z.of_nat (List.length (guessedLetters l ++ [upperLetter]))
                 = Z.of_nat (List.length (guessedLetters l)) + 1).
  { rewrite length_app. cbn [List.length]. lia. }
  pose proof (NoDup_push _ _ Hnd Hnew) as Hnd'.
  destruct (forallb _ (split_chars (lobby_word l)));
    [|destruct (6 <=? wrong) eqn:Hmaxed;
      [apply Z.leb_le in Hmaxed | apply Z.leb_gt in Hmaxed]];
    cbn [guessedLetters wrongGuesses lobby_state lobby_guest lobby_winner];
    rewrite ?Hplaying; repeat split; trivial; try lia; try discriminate.
Qed.

(** X16. An invariant of the hangman lobbies.  If every stored lobby is as
    the handlers leave one (no letter guessed twice; the wrong guesses at
    least 0, at most the number of guesses and at most 6; no guest, guess or
    winner while waiting; a guest and no guess or winner while the word is
    chosen; a guest, fewer than 6 wrong guesses and no winner while playing;
    a guest and a winner once finished), then so is every stored lobby after
    a create-lobby, join-lobby, set-word or guess request, whatever the
    request holds and whatever becomes of its write. *)
Theorem hangman_lobbies_stay_ok (outcome : PutOutcome) (w : BinFetch Lobby) :
  Forall lobby_ok (bin_items w) ->
  (forall lobbyCode userId username,
      Forall lobby_ok
        (bin_items
           (snd (hangman_create_lobby outcome lobbyCode userId username w)))) /\
  (forall userId username lobbyCode,
      Forall lobby_ok
        (bin_items
           (snd (hangman_join_lobby outcome userId username lobbyCode w)))) /\
  (forall userId lobbyCode word,
      Forall lobby_ok
        (bin_items (snd (hangman_set_word outcome userId lobbyCode word w)))) /\
  (forall userId lobbyCode letter,
      Forall lobby_ok
        (bin_items (snd (hangman_guess outcome userId lobbyCode letter w)))).
Proof.
  intros Hok. split; [|split; [|split]].
  - intros lobbyCode userId username.
    destruct (hangman_create_lobby_after outcome w lobbyCode userId username)
      as [-> | (uid & name & ->)]; trivial.
    apply Forall_app. split; trivial.
    constructor; [apply lobby_ok_new | constructor].
  - intros userId username lobbyCode.
    destruct (hangman_join_lobby_after outcome w userId username lobbyCode)
      as [-> | (uid & name & i & lobby & Hi & Hguest & ->)]; trivial.
    apply Forall_update_nth; trivial.
    intros x Hx. rewrite Hi in Hx. injection Hx as <-.
    now apply lobby_ok_seat_guest.
  - intros userId lobbyCode word.
    destruct (hangman_set_word_after outcome w userId lobbyCode word)
      as [-> | (chosen & i & lobby & Hi & Hstate & ->)]; trivial.
    apply Forall_update_nth; trivial.
    intros x Hx. rewrite Hi in Hx. injection Hx as <-.
    now apply lobby_ok_start_game.
  - intros userId lobbyCode letter.
    destruct (hangman_guess_after outcome w userId lobbyCode letter)
      as [-> | (upperLetter & i & lobby & Hi & Hstate & Hnew & ->)]; trivial.
    apply Forall_update_nth; trivial.
    intros x Hx. rewrite Hi in Hx. injection Hx as <-.
    now apply lobby_ok_apply_guess.
Qed.

Lemma hangman_lobbies_stay_ok_witness :
  Forall lobby_ok
    (bin_items
       (snd (hangman_guess PutStored (Some 2) (Some "1234") (Some "c")
               (bin_of [sample_lobby])))).
Proof.
  apply (hangman_lobbies_stay_ok PutStored (bin_of [sample_lobby])).
  constructor; [|constructor].
  unfold lobby_ok. cbn. repeat split; try lia; try discriminate. constructor.
Defined.

(** ** A finished game *)

Lemma find_has_code (code : string) (lobbies : list Lobby) (i : nat)
  (lobby : Lobby) :
  findIndex (has_code code) lobbies = Some i ->
  nth_error lobbies i = Some lobby ->
  find (has_code code) lobbies = Some lobby.
Proof.
  intros Hi Hl. now rewrite find_findIndex, Hi.
Qed.

(** X17. A finished game is frozen.  When the first lobby with a code is
    finished and has its guest, every join-lobby, set-word and guess request
    that names the code is refused and leaves the bin as it is, whoever sends
    it and whatever becomes of writes; polling the code keeps showing the
    lobby with its winner. *)
Theorem finished_game_is_frozen (outcome : PutOutcome) (w : BinFetch Lobby)
  (lobbies : list Lobby) (code : string) (i : nat) (lobby : Lobby) :
  getHangmanLobbies w = Some lobbies ->
  findIndex (has_code code) lobbies = Some i ->
  nth_error lobbies i = Some lobby ->
  lobby_state lobby = finished ->
  lobby_guest lobby <> None ->
  (forall userId username,
      snd (hangman_join_lobby outcome userId username (Some code) w) = w /\
      hangman_refused
        (fst (hangman_join_lobby outcome userId username (Some code) w))
      = true) /\
  (forall userId word,
      snd (hangman_set_word outcome userId (Some code) word w) = w /\
      hangman_refused
        (fst (hangman_set_word outcome userId (Some code) word w)) = true) /\
  (forall userId letter,
      snd (hangman_guess outcome userId (Some code) letter w) = w /\
      hangman_refused
        (fst (hangman_guess outcome userId (Some code) letter w)) = true) /\
  hangman_lobby code w = LobbyShown lobby.
Proof.
  intros Hread Hi Hl Hstate Hguest. split; [|split; [|split]].
  - intros userId username. unfold hangman_join_lobby.
    destruct (truthy userId); [|now split].
    destruct (truthy username); [|now split].
    destruct (truthy (Some code)) as [c|] eqn:Hc; [|now split].
    assert (c = code) by (unfold truthy in Hc; destruct (falsy code); congruence).
    subst c. rewrite Hread, Hi, Hl.
    destruct (lobby_guest lobby); [now split | congruence].
  - intros userId word. unfold hangman_set_word.
    destruct (truthy userId); [|now split].
    destruct (truthy (Some code)) as [c|] eqn:Hc; [|now split].
    assert (c = code) by (unfold truthy in Hc; destruct (falsy code); congruence).
    subst c. destruct (truthy word); [|now split].
    rewrite Hread, Hi, Hl, Hstate.
    destruct (negb _); now split.
  - intros userId letter. unfold hangman_guess.
    destruct (truthy userId); [|now split].
    destruct (truthy (Some code)) as [c|] eqn:Hc; [|now split].
    assert (c = code) by (unfold truthy in Hc; destruct (falsy code); congruence).
    subst c. destruct (truthy letter); [|now split].
    rewrite Hread, Hi, Hl. cbv zeta. rewrite Hstate. now split.
  - unfold hangman_lobby. rewrite Hread.
    now rewrite (find_has_code _ _ _ _ Hi Hl).
Qed.

Lemma finished_game_is_frozen_witness :
  snd (hangman_guess PutStored (Some 1) (Some "1234") (Some "x")
         (bin_of [sample_finished_lobby]))
  = bin_of [sample_finished_lobby].
Proof.
  apply (finished_game_is_frozen PutStored (bin_of [sample_finished_lobby])
           [sample_finished_lobby] "1234" 0 sample_finished_lobby);
    try reflexivity; discriminate.
Defined.

(** ** Who may guess *)

Lemma truthy_string_Some (s : string) : s <> "" -> truthy (Some s) = Some s.
Proof.
  intros Hs. unfold truthy, falsy, falsy_string.
  destruct (String.eqb s "") eqn:E; trivial.
  apply String.eqb_eq in E. contradiction.
Qed.

(** X18. The turn check binds the two players only.  In a game that is being
    played, a guess of a letter not guessed before by a user who is neither
    the host nor the guest is accepted whoever's turn it is: with the write
    stored, the guess is applied to the lobby exactly as a player's (the
    letter is recorded, a miss is counted, the game may end, otherwise the
    turn passes on), and the other lobbies are untouched. *)
Theorem outsider_can_guess (w : BinFetch Lobby) (lobbies : list Lobby)
  (code letter : string) (i : nat) (lobby : Lobby) (guest : Player)
  (userId : Z) :
  getHangmanLobbies w = Some lobbies ->
  findIndex (has_code code) lobbies = Some i ->
  nth_error lobbies i = Some lobby ->
  lobby_state lobby = playing ->
  lobby_guest lobby = Some guest ->
  userId <> 0 ->
  userId <> player_id (lobby_host lobby) ->
  userId <> player_id guest ->
  code <> "" ->
  letter <> "" ->
  ~ In (toUpperCase letter) (guessedLetters lobby) ->
  hangman_guess PutStored (Some userId) (Some code) (Some letter) w
  = (LobbyShown (apply_guess (toUpperCase letter) lobby),
     bin_of (update_nth i (apply_guess (toUpperCase letter)) lobbies)) /\
  guessedLetters (apply_guess (toUpperCase letter) lobby)
  = guessedLetters lobby ++ [toUpperCase letter] /\
  (lobby_state (apply_guess (toUpperCase letter) lobby) = playing ->
   lobby_turn (apply_guess (toUpperCase letter) lobby)
   = other_turn (lobby_turn lobby)).
Proof.
  intros Hread Hi Hl Hstate Hguest Hid Hhost Hnotguest Hcode Hletter Hnew.
  split; [|split].
  - unfold hangman_guess.
    assert (Hu : truthy (Some userId) = Some userId) by now apply truthy_Z_Some.
    rewrite Hu, (truthy_string_Some _ Hcode), (truthy_string_Some _ Hletter).
    rewrite Hread, Hi, Hl. cbv zeta. rewrite Hstate, Hguest.
    assert (E1 : (player_id (lobby_host lobby) =? userId) = false)
      by (apply Z.eqb_neq; congruence).
    assert (E2 : (player_id guest =? userId) = false)
      by (apply Z.eqb_neq; congruence).
    rewrite E1, E2. cbn [is_state negb andb orb].
    destruct (array_includes (guessedLetters lobby) (toUpperCase letter)) eqn:E.
    + apply array_includes_In in E. contradiction.
    + reflexivity.
  - unfold apply_guess.
    destruct (forallb _ _); [|destruct (6 <=? _)]; reflexivity.
  - unfold apply_guess.
    destruct (forallb _ _); [|destruct (6 <=? _)];
      cbn [lobby_state lobby_turn]; trivial; discriminate.
Qed.

Lemma outsider_can_guess_witness :
  hangman_guess PutStored (Some 3) (Some "1234") (Some "z")
    (bin_of [sample_lobby])
  = (LobbyShown (apply_guess "Z" sample_lobby),
     bin_of [apply_guess "Z" sample_lobby]).
Proof.
  apply (outsider_can_guess (bin_of [sample_lobby]) [sample_lobby] "1234" "z"
           0 sample_lobby (mkPlayer 2 "bob") 3);
    try reflexivity; try discriminate.
  cbn. tauto.
Defined.

(** ** Lobby codes *)

Lemma findIndex_app_first {A : Type} (p : A -> bool) (l l' : list A) (i : nat) :
  findIndex p l = Some i -> findIndex p (l ++ l') = Some i.
Proof.
  revert i. induction l as [|a l IH]; cbn; [discriminate|].
  intros i. destruct (p a); trivial.
  destruct (findIndex p l) as [j|]; [|discriminate].
  now rewrite (IH j eq_refl).
Qed.

(** X19. The code of a new lobby is not checked against the lobbies that
    exist.  When the code drawn is the code of a stored lobby, the creation
    (write stored) still answers 201 with that code and stores the new lobby
    behind the old ones; but the code keeps denoting the older lobby:
    polling it shows the older lobby, and join-lobby, set-word and guess find
    the older lobby at its index, so the new lobby cannot be reached. *)
Theorem colliding_lobby_code_keeps_the_older_lobby (w : BinFetch Lobby)
  (lobbies : list Lobby) (code : string) (i : nat) (older : Lobby)
  (userId : option Z) (username : option string) (uid : Z) (name : string) :
  getHangmanLobbies w = Some lobbies ->
  findIndex (has_code code) lobbies = Some i ->
  nth_error lobbies i = Some older ->
  truthy userId = Some uid ->
  truthy username = Some name ->
  let created := hangman_create_lobby PutStored code userId username w in
  let newLobby :=
    mkLobby code (mkPlayer uid name) None "" [] 0 host_turn waiting None in
  fst created = LobbyCreated code /\
  getHangmanLobbies (snd created) = Some (lobbies ++ [newLobby]) /\
  findIndex (has_code code) (lobbies ++ [newLobby]) = Some i /\
  nth_error (lobbies ++ [newLobby]) i = Some older /\
  hangman_lobby code (snd created) = LobbyShown older.
Proof.
  intros Hread Hi Hl Hu Hn created newLobby.
  assert (Hrun : created = (LobbyCreated code, bin_of (lobbies ++ [newLobby]))).
  { unfold created, hangman_create_lobby. now rewrite Hu, Hn, Hread. }
  rewrite Hrun. cbn [fst snd].
  pose proof (findIndex_app_first _ _ [newLobby] _ Hi) as Hi'.
  assert (Hl' : nth_error (lobbies ++ [newLobby]) i = Some older).
  { rewrite nth_error_app1; trivial. apply nth_error_Some. congruence. }
  repeat split; trivial.
  unfold hangman_lobby. unfold getHangmanLobbies. rewrite read_bin_of.
  now rewrite (find_has_code _ _ _ _ Hi' Hl').
Qed.

Lemma colliding_lobby_code_keeps_the_older_lobby_witness :
  hangman_lobby "1234"
    (snd (hangman_create_lobby PutStored "1234" (Some 3) (Some "cy")
            (bin_of [sample_lobby])))
  = LobbyShown sample_lobby.
Proof.
  apply (colliding_lobby_code_keeps_the_older_lobby (bin_of [sample_lobby])
           [sample_lobby] "1234" 0 sample_lobby (Some 3) (Some "cy") 3 "cy");
    reflexivity.
Defined.

(* ================================================================= *)
(** * Properties of the .imac websites *)

Lemma find_update_nth {A : Type} (p : A -> bool) (f : A -> A) (i : nat)
  (l : list A) :
  (forall x, p (f x) = p x) ->
  find p (update_nth i f l) =
  match findIndex p l with
  | Some j => if Nat.eqb i j then option_map f (nth_error l j)
              else nth_error l j
  | None => None
  end.
Proof.
  intros Hf. rewrite find_findIndex, findIndex_update_nth by exact Hf.
  destruct (findIndex p l) as [j|]; trivial. apply nth_error_update_nth.
Qed.

Lemma named_rewrite_site (name htmlContent updatedAt : string) (s : Website) :
  named name (rewrite_site htmlContent updatedAt s) = named name s.
Proof. reflexivity. Qed.

Lemma imac_create_runs (outcome : PutOutcome) (dateNow : Z)
  (isoNow isoLater : string) (req : SiteReq) (w : BinFetch Website)
  (creatorId : Z) (creatorUsername name htmlContent : string)
  (allWebsites : list Website) :
  truthy (sr_creatorId req) = Some creatorId ->
  truthy (sr_creatorUsername req) = Some creatorUsername ->
  truthy (sr_name req) = Some name ->
  sr_htmlContent req = Some htmlContent ->
  endsWith name ".imac" = true ->
  read_bin w = Some allWebsites ->
  imac_create outcome dateNow isoNow isoLater req w =
  match outcome with
  | PutStored =>
      (ImacSaved ("Website " ++ double_quote ++ name ++ double_quote
                  ++ " saved successfully."),
       bin_of (upsert_site dateNow isoNow isoLater creatorId creatorUsername
                 name htmlContent allWebsites))
  | PutRefused =>
      (ImacSaved ("Website " ++ double_quote ++ name ++ double_quote
                  ++ " saved successfully."), w)
  | PutRejected => (ImacError 500 "An internal server error occurred.", w)
  end.
Proof.
  intros Hc Hu Hn Hh Hends Hread. unfold imac_create.
  rewrite Hc, Hu, Hn, Hh, Hends, Hread. cbn [negb].
  now destruct outcome.
Qed.

(** What the website of a name is after an upsert of that name, and that
    the websites of other names are served as before. *)
Lemma find_upsert_site (dateNow : Z) (isoNow isoLater : string)
  (creatorId : Z) (creatorUsername name htmlContent : string)
  (allWebsites : list Website) :
  find (named name)
    (upsert_site dateNow isoNow isoLater creatorId creatorUsername name
       htmlContent allWebsites)
  = Some
      match find (named name) allWebsites with
      | Some site => rewrite_site htmlContent isoNow site
      | None =>
          mkWebsite dateNow creatorId creatorUsername name htmlContent isoNow
            isoLater
      end.
Proof.
  unfold upsert_site. rewrite (find_findIndex _ allWebsites).
  destruct (findIndex (named name) allWebsites) as [i|] eqn:Hi.
  - rewrite find_update_nth by apply named_rewrite_site.
    rewrite Hi, Nat.eqb_refl.
    destruct (findIndex_Some _ _ _ Hi) as (site & -> & _). reflexivity.
  - rewrite find_app, find_findIndex, Hi. unfold named. cbn [find site_name].
    now rewrite String.eqb_refl.
Qed.

Lemma find_upsert_site_other (dateNow : Z) (isoNow isoLater : string)
  (creatorId : Z) (creatorUsername name htmlContent other : string)
  (allWebsites : list Website) :
  other <> name ->
  option_map site_htmlContent
    (find (named other)
       (upsert_site dateNow isoNow isoLater creatorId creatorUsername name
          htmlContent allWebsites))
  = option_map site_htmlContent (find (named other) allWebsites).
Proof.
  intros Hne. unfold upsert_site.
  destruct (findIndex (named name) allWebsites) as [i|] eqn:Hi.
  - rewrite find_update_nth by apply named_rewrite_site.
    rewrite (find_findIndex _ allWebsites).
    destruct (findIndex (named other) allWebsites) as [j|] eqn:Hj; trivial.
    destruct (Nat.eqb i j) eqn:E; trivial.
    apply Nat.eqb_eq in E. subst j.
    destruct (findIndex_Some _ _ _ Hi) as (site & Hsite & Hname & _).
    destruct (findIndex_Some _ _ _ Hj) as (site' & Hsite' & Hother & _).
    rewrite Hsite in Hsite'. injection Hsite' as <-.
    unfold named in Hname, Hother.
    apply String.eqb_eq in Hname. apply String.eqb_eq in Hother. congruence.
  - rewrite find_app. destruct (find (named other) allWebsites); trivial.
    unfold named. cbn [find site_name].
    assert (E : String.eqb name other = false)
      by (apply String.eqb_neq; congruence).
    now rewrite E.
Qed.

Lemma map_site_name_upsert (dateNow : Z) (isoNow isoLater : string)
  (creatorId : Z) (creatorUsername name htmlContent : string)
  (allWebsites : list Website) :
  NoDup (map site_name allWebsites) ->
  NoDup (map site_name
           (upsert_site dateNow isoNow isoLater creatorId creatorUsername name
              htmlContent allWebsites)).
Proof.
  intros Hnd. unfold upsert_site.
  destruct (findIndex (named name) allWebsites) as [i|] eqn:Hi.
  - now rewrite map_update_nth.
  - rewrite map_app. cbn [map site_name]. apply NoDup_push; trivial.
    intros Hin. apply in_map_iff in Hin. destruct Hin as (site & Hname & Hsite).
    pose proof (proj1 (findIndex_None _ _) Hi site Hsite) as Hno.
    unfold named in Hno. rewrite Hname, String.eqb_refl in Hno. discriminate.
Qed.

(** X20. Save, then serve.  A website saved under a name that ends in .imac
    (bin read, write stored) is answered with success, and the name then
    serves the content saved; every other name is served as before; and if
    no two stored websites had the same name, no two have afterwards. *)
Theorem saved_site_is_served (dateNow : Z) (isoNow isoLater : string)
  (req : SiteReq) (w : BinFetch Website) (creatorId : Z)
  (creatorUsername name htmlContent : string) (allWebsites : list Website) :
  truthy (sr_creatorId req) = Some creatorId ->
  truthy (sr_creatorUsername req) = Some creatorUsername ->
  truthy (sr_name req) = Some name ->
  sr_htmlContent req = Some htmlContent ->
  endsWith name ".imac" = true ->
  read_bin w = Some allWebsites ->
  let saved := imac_create PutStored dateNow isoNow isoLater req w in
  fst saved
  = ImacSaved ("Website " ++ double_quote ++ name ++ double_quote
               ++ " saved successfully.") /\
  imac_get name (snd saved) = ImacContent htmlContent /\
  (forall other, other <> name -> imac_get other (snd saved) = imac_get other w) /\
  (NoDup (map site_name (bin_items w)) ->
   NoDup (map site_name (bin_items (snd saved)))).
Proof.
  intros Hc Hu Hn Hh Hends Hread saved. unfold saved.
  rewrite (imac_create_runs _ _ _ _ _ _ _ _ _ _ _ Hc Hu Hn Hh Hends Hread).
  cbn [fst snd]. split; [reflexivity|]. split; [|split].
  - unfold imac_get. rewrite read_bin_of. rewrite find_upsert_site.
    now destruct (find (named name) allWebsites).
  - intros other Hne. unfold imac_get. rewrite read_bin_of. rewrite Hread.
    pose proof (find_upsert_site_other dateNow isoNow isoLater creatorId
                  creatorUsername name htmlContent other allWebsites Hne) as H.
    destruct (find (named other) (upsert_site _ _ _ _ _ _ _ _)),
      (find (named other) allWebsites); cbn in H; congruence.
  - rewrite (read_bin_items _ _ Hread). cbn [bin_items bin_of].
    apply map_site_name_upsert.
Qed.

Lemma saved_site_is_served_witness :
  imac_get "home.imac"
    (snd (imac_create PutStored 1700000000001 "2025-02-02T00:00:00.000Z"
            "2025-02-02T00:00:00.001Z"
            (mkSiteReq (Some 1) (Some "ann") (Some "home.imac") (Some "<p>new</p>"))
            (bin_of [sample_site])))
  = ImacContent "<p>new</p>".
Proof.
  apply (saved_site_is_served 1700000000001 "2025-02-02T00:00:00.000Z"
           "2025-02-02T00:00:00.001Z"
           (mkSiteReq (Some 1) (Some "ann") (Some "home.imac") (Some "<p>new</p>"))
           (bin_of [sample_site]) 1 "ann" "home.imac" "<p>new</p>"
           [sample_site]);
    reflexivity.
Defined.

(** X21. Saving under a name that exists does not ask who saves.  When a
    website of the name is stored, a save of that name by any creator (write
    stored) replaces the content and the update time of the first website of
    the name and keeps its id, creator, creator name and creation time; the
    number of stored websites does not change. *)
Theorem save_overwrites_whoever_saves (dateNow : Z) (isoNow isoLater : string)
  (req : SiteReq) (w : BinFetch Website) (creatorId : Z)
  (creatorUsername name htmlContent : string) (allWebsites : list Website)
  (site : Website) :
  truthy (sr_creatorId req) = Some creatorId ->
  truthy (sr_creatorUsername req) = Some creatorUsername ->
  truthy (sr_name req) = Some name ->
  sr_htmlContent req = Some htmlContent ->
  endsWith name ".imac" = true ->
  read_bin w = Some allWebsites ->
  find (named name) allWebsites = Some site ->
  let saved := imac_create PutStored dateNow isoNow isoLater req w in
  exists site',
    find (named name) (bin_items (snd saved)) = Some site' /\
    site_htmlContent site' = htmlContent /\
    site_updatedAt site' = isoNow /\
    site_id site' = site_id site /\
    site_creatorId site' = site_creatorId site /\
    site_creatorUsername site' = site_creatorUsername site /\
    site_createdAt site' = site_createdAt site /\
    List.length (bin_items (snd saved)) = List.length allWebsites.
Proof.
  intros Hc Hu Hn Hh Hends Hread Hsite saved. unfold saved.
  rewrite (imac_create_runs _ _ _ _ _ _ _ _ _ _ _ Hc Hu Hn Hh Hends Hread).
  cbn [snd bin_items bin_of].
  exists (rewrite_site htmlContent isoNow site).
  rewrite find_upsert_site, Hsite. repeat split.
  unfold upsert_site. rewrite find_findIndex in Hsite.
  destruct (findIndex (named name) allWebsites) as [i|]; [|discriminate].
  clear. revert i. induction allWebsites as [|a l IH]; intros [|i]; cbn; trivial.
  now rewrite IH.
Qed.

Lemma save_overwrites_whoever_saves_witness :
  exists site',
    find (named "home.imac")
      (bin_items
         (snd (imac_create PutStored 1700000000001 "2025-02-02T00:00:00.000Z"
                 "2025-02-02T00:00:00.001Z"
                 (mkSiteReq (Some 2) (Some "bob") (Some "home.imac")
                    (Some "<p>bob</p>"))
                 (bin_of [sample_site]))))
    = Some site' /\
    site_htmlContent site' = "<p>bob</p>" /\
    site_creatorId site' = 1.
Proof.
  destruct (save_overwrites_whoever_saves 1700000000001
              "2025-02-02T00:00:00.000Z" "2025-02-02T00:00:00.001Z"
              (mkSiteReq (Some 2) (Some "bob") (Some "home.imac")
                 (Some "<p>bob</p>"))
              (bin_of [sample_site]) 2 "bob" "home.imac" "<p>bob</p>"
              [sample_site] sample_site)
    as (site' & Hfind & Hcontent & _ & _ & Hcreator & _);
    [reflexivity | reflexivity | reflexivity | reflexivity | reflexivity
    | reflexivity | reflexivity |].
  exists site'. now repeat split.
Defined.

(* ================================================================= *)
(** * Properties of the applications *)

Lemma applied_by_reapply (userId : Z) (answers : list string) (isoNow : string)
  (a : Application) :
  applied_by userId (reapply answers isoNow a) = applied_by userId a.
Proof. reflexivity. Qed.

Lemma applied_by_decide (userId : Z) (decision : string) (a : Application) :
  applied_by userId (decide_application decision a) = applied_by userId a.
Proof. reflexivity. Qed.

(** What a submission leaves in the bin: nothing new, the applicant's first
    application rewritten, or a first application appended. *)
Lemma applications_submit_after (outcome : PutOutcome) (isoNow : string)
  (userId : option Z) (username : option string)
  (answers : option (list string)) (w : BinFetch Application) :
  let after :=
    bin_items
      (snd (applications_submit outcome isoNow userId username answers w)) in
  after = bin_items w \/
  (exists uid i existing given,
      truthy userId = Some uid /\
      findIndex (applied_by uid) (bin_items w) = Some i /\
      nth_error (bin_items w) i = Some existing /\
      may_reapply existing = true /\
      after = update_nth i (reapply given isoNow) (bin_items w)) \/
  (exists uid name given,
      truthy userId = Some uid /\
      findIndex (applied_by uid) (bin_items w) = None /\
      after
      = bin_items w
        ++ [mkApplication uid name given "pending" (Some 0) isoNow]).
Proof.
  unfold applications_submit.
  destruct (truthy userId) as [uid|]; [|now left].
  destruct (truthy username) as [name|]; [|now left].
  destruct answers as [given|]; [|now left].
  destruct (read_bin w) as [allApps|] eqn:Hread; [|now left].
  pose proof (read_bin_items _ _ Hread) as Hitems. subst allApps.
  cbv zeta.
  destruct (findIndex (applied_by uid) (bin_items w)) as [i|] eqn:Hi.
  - destruct (nth_error (bin_items w) i) as [existing|] eqn:Hexisting;
      [|now left].
    destruct (may_reapply existing) eqn:Hmay; [|now left].
    destruct outcome; cbn [write_bin snd bin_items]; auto.
    right. left. now exists uid, i, existing, given.
  - destruct outcome; cbn [write_bin snd bin_items]; auto.
    right. right. now exists uid, name, given.
Qed.

(** What a decision leaves in the bin: nothing new, or the target's first
    application with the decision applied. *)
Lemma applications_decide_after (verify : User -> User) (env : Env)
  (outcome : PutOutcome) (targetUserId : option Z) (decision : option string)
  (st : World * BinFetch Application) :
  let after :=
    bin_items
      (snd (snd (applications_decide verify env outcome targetUserId decision
                   st))) in
  after = bin_items (snd st) \/
  exists uid given i,
    truthy targetUserId = Some uid /\
    findIndex (applied_by uid) (bin_items (snd st)) = Some i /\
    after = update_nth i (decide_application given) (bin_items (snd st)).
Proof.
  destruct st as [w apps]. unfold applications_decide. cbn [snd].
  destruct (truthy targetUserId) as [uid|]; [|now left].
  destruct (truthy decision) as [given|]; [|now left].
  destruct apps as [|ok json]; [now left|].
  destruct (fetchAllUserRecords w) as [userRecords|]; [|now left].
  destruct ok; cbn [negb]; [|now left].
  destruct json as [[|[[allApps|]|]]|]; cbn [record_strict]; try (now left).
  cbn [bin_items].
  destruct (findIndex (applied_by uid) allApps) as [i|] eqn:Hi; [|now left].
  destruct outcome; cbn [write_bin];
    match goal with
    | |- context [match ?b with (usersPut, w') => _ end] =>
        destruct b as [usersPut w']
    end;
    destruct (await_all (_ :: usersPut)); cbn [snd bin_items]; auto;
    right; now exists uid, given, i.
Qed.

(** X22. One application per applicant.  If no two stored applications have
    the same applicant, none have after a submission or a decision, whatever
    the request holds and whatever becomes of its writes: a submission only
    appends for an applicant who has none, and rewrites in place
    otherwise. *)
Theorem applicants_hold_one_application (verify : User -> User)
  (r : ApplicationRequest) (st : World * BinFetch Application) :
  NoDup (map app_userId (bin_items (snd st))) ->
  NoDup (map app_userId (bin_items (snd (serve_application verify r st)))).
Proof.
  intros Hnd. destruct r as [outcome isoNow userId username answers
                            | env outcome targetUserId decision];
    cbn [serve_application snd].
  - destruct (applications_submit_after outcome isoNow userId username answers
                (snd st))
      as [-> | [(uid & i & existing & given & _ & _ & _ & _ & ->)
               | (uid & name & given & _ & Hnone & ->)]]; trivial.
    + now rewrite map_update_nth.
    + rewrite map_app. cbn [map app_userId]. apply NoDup_push; trivial.
      intros Hin. apply in_map_iff in Hin. destruct Hin as (a & Ha & Hin).
      pose proof (proj1 (findIndex_None _ _) Hnone a Hin) as Hno.
      unfold applied_by in Hno. rewrite Ha, Z.eqb_refl in Hno. discriminate.
  - destruct (applications_decide_after verify env outcome targetUserId
                decision st)
      as [-> | (uid & given & i & _ & _ & ->)]; trivial.
    now rewrite map_update_nth.
Qed.

Lemma applicants_hold_one_application_witness :
  NoDup
    (map app_userId
       (bin_items
          (snd (serve_application (fun u => u)
                  (SubmitApplication PutStored "2025-02-02T00:00:00.000Z"
                     (Some 2) (Some "bob") (Some ["again"]))
                  (store_of [ann] [bob], bin_of [sample_application]))))).
Proof.
  apply (applicants_hold_one_application (fun u => u)
           (SubmitApplication PutStored "2025-02-02T00:00:00.000Z"
              (Some 2) (Some "bob") (Some ["again"]))
           (store_of [ann] [bob], bin_of [sample_application])).
  cbn. repeat constructor. intros [].
Defined.

(** X23. Applying again needs a denial.  A submission answered with success
    for an applicant who already has an application found that application
    denied with fewer than 2 retries counted; with the write stored, the
    status endpoint then shows the applicant as pending with the retries
    counted so far, and the number of stored applications is unchanged. *)
Theorem reapplying_needs_a_denial (outcome : PutOutcome) (isoNow : string)
  (userId : option Z) (username : option string)
  (answers : option (list string)) (w : BinFetch Application) (uid : Z)
  (allApps : list Application) (existing : Application) :
  truthy userId = Some uid ->
  read_bin w = Some allApps ->
  find (applied_by uid) allApps = Some existing ->
  fst (applications_submit outcome isoNow userId username answers w)
  = ApplicationDone "Application submitted successfully." ->
  app_status existing = "denied" /\
  (exists r, app_retries existing = Some r /\ r < 2) /\
  (outcome = PutStored ->
   applications_status (Some uid)
     (snd (applications_submit outcome isoNow userId username answers w))
   = ApplicationStatus "pending" (retries_or_0 existing) /\
   List.length
     (bin_items
        (snd (applications_submit outcome isoNow userId username answers w)))
   = List.length allApps).
Proof.
  intros Hu Hread Hfind. unfold applications_submit. rewrite Hu.
  destruct (truthy username) as [name|]; [|discriminate].
  destruct answers as [given|]; [|discriminate].
  rewrite Hread. cbv zeta. rewrite find_findIndex in Hfind.
  destruct (findIndex (applied_by uid) allApps) as [i|] eqn:Hi;
    [|discriminate].
  rewrite Hfind.
  destruct (may_reapply existing) eqn:Hmay; [|discriminate].
  intros _. unfold may_reapply in Hmay.
  apply andb_prop in Hmay. destruct Hmay as [Hdenied Hretries].
  apply String.eqb_eq in Hdenied.
  destruct (app_retries existing) as [r|] eqn:Hr; [|discriminate].
  apply Z.ltb_lt in Hretries.
  split; trivial. split; [now exists r|].
  intros ->. cbn [write_bin snd bin_items]. split.
  - unfold applications_status.
    assert (Ht : truthy (Some uid) = Some uid).
    { apply truthy_Z_Some. split; trivial. now apply truthy_Z_Some in Hu. }
    rewrite Ht. fold (bin_of (update_nth i (reapply given isoNow) allApps)).
    rewrite read_bin_of, find_update_nth by apply applied_by_reapply.
    rewrite Hi, Nat.eqb_refl, Hfind. reflexivity.
  - clear. revert i. induction allApps as [|a l IH]; intros [|i]; cbn; trivial.
    now rewrite IH.
Qed.

Lemma reapplying_needs_a_denial_witness :
  applications_status (Some 2)
    (snd (applications_submit PutStored "2025-02-02T00:00:00.000Z" (Some 2)
            (Some "bob") (Some ["again"]) (bin_of [sample_application])))
  = ApplicationStatus "pending" 1.
Proof.
  destruct (reapplying_needs_a_denial PutStored "2025-02-02T00:00:00.000Z"
              (Some 2) (Some "bob") (Some ["again"])
              (bin_of [sample_application]) 2 [sample_application]
              sample_application)
    as (_ & _ & Hstored);
    [reflexivity | reflexivity | reflexivity | reflexivity |].
  destruct Hstored as [Hstatus _]; [reflexivity|]. exact Hstatus.
Defined.

(** ** Two denials *)







(* ================================================================= *)
(** * Properties of the game workflow *)

Lemma read_bin_strict_items {A : Type} (w : BinFetch A) (items : list A) :
  read_bin_strict w = Some items -> bin_items w = items.
Proof.
  destruct w as [|[] [[|[[l|]|]]|]]; cbn; congruence.
Qed.

Lemma read_bin_strict_of {A : Type} (items : list A) :
  read_bin_strict (bin_of items) = Some items.
Proof. reflexivity. Qed.

Lemma filter_filter_negb {A : Type} (p : A -> bool) (l : list A) :
  filter p (filter (fun x => negb (p x)) l) = [].
Proof.
  induction l as [|a l IH]; cbn; trivial.
  destruct (p a) eqn:E; cbn; trivial. now rewrite E.
Qed.

Lemma filter_idem {A : Type} (p : A -> bool) (l : list A) :
  filter p (filter p l) = filter p l.
Proof.
  induction l as [|a l IH]; cbn; trivial.
  destruct (p a) eqn:E; cbn; trivial. now rewrite E, IH.
Qed.

(** X25. One submission per creator.  A game submitted with all required
    fields (submissions read, write stored) is answered with success, and
    afterwards the creator has exactly one stored submission, the new one,
    pending, with the id and time of the request; every earlier submission
    of that creator is gone, and the submissions of the other creators are
    stored as they were, in their order. *)
Theorem submit_game_replaces_the_creators_submission (dateNow : Z)
  (isoNow : string) (req : SubmitGameReq) (w : BinFetch Submission)
  (creatorId : Z) (name description thumbnail code : string)
  (allSubmissions : list Submission) :
  truthy (sg_creatorId req) = Some creatorId ->
  truthy (sg_name req) = Some name ->
  truthy (sg_description req) = Some description ->
  truthy (sg_thumbnail req) = Some thumbnail ->
  truthy (sg_code req) = Some code ->
  read_bin_strict w = Some allSubmissions ->
  let submitted := submit_game PutStored dateNow isoNow req w in
  let by_creator := fun s => sub_creatorId s =? creatorId in
  fst submitted = CreatorDone "Game submitted for review." /\
  filter by_creator (bin_items (snd submitted))
  = [mkSubmission dateNow creatorId (sg_creatorUsername req) name description
       thumbnail code (Some "pending") isoNow None] /\
  filter (fun s => negb (by_creator s)) (bin_items (snd submitted))
  = filter (fun s => negb (by_creator s)) allSubmissions.
Proof.
  intros Hc Hn Hd Ht Hcode Hread submitted by_creator.
  unfold submitted, submit_game. rewrite Hc, Hn, Hd, Ht, Hcode, Hread.
  cbn [put_unchecked write_bin fst snd bin_items].
  split; [reflexivity|]. rewrite !filter_app. cbn [filter].
  unfold by_creator at 2 4. cbn [sub_creatorId]. rewrite Z.eqb_refl.
  cbn [negb]. split.
  - now rewrite (filter_filter_negb by_creator).
  - now rewrite (filter_idem (fun s => negb (by_creator s))), app_nil_r.
Qed.

Lemma submit_game_replaces_the_creators_submission_witness :
  filter (fun s => sub_creatorId s =? 1)
    (bin_items
       (snd (submit_game PutStored 1700000000200 "2025-02-02T00:00:00.000Z"
               (mkSubmitGameReq (Some 1) (Some "ann") (Some "maze 2")
                  (Some "another maze") (Some "maze2.png")
                  (Some "<script>maze2()</script>"))
               (bin_of [sample_submission]))))
  = [mkSubmission 1700000000200 1 (Some "ann") "maze 2" "another maze"
       "maze2.png" "<script>maze2()</script>" (Some "pending")
       "2025-02-02T00:00:00.000Z" None].
Proof.
  apply (submit_game_replaces_the_creators_submission 1700000000200
           "2025-02-02T00:00:00.000Z"
           (mkSubmitGameReq (Some 1) (Some "ann") (Some "maze 2")
              (Some "another maze") (Some "maze2.png")
              (Some "<script>maze2()</script>"))
           (bin_of [sample_submission]) 1 "maze 2" "another maze" "maze2.png"
           "<script>maze2()</script>" [sample_submission]);
    reflexivity.
Defined.

Lemma find_none_forall {A : Type} (p : A -> bool) (l : list A) :
  (forall x, In x l -> p x = false) -> find p l = None.
Proof.
  induction l as [|a l IH]; cbn; trivial.
  intros H. rewrite (H a (or_introl eq_refl)). apply IH.
  intros x Hx. apply H. now right.
Qed.

Lemma length_splice_one {A : Type} (i : nat) (l : list A) (x : A) :
  nth_error l i = Some x -> S (List.length (splice_one i l)) = List.length l.
Proof.
  revert i. induction l as [|a l IH]; intros [|i]; cbn; try discriminate;
    trivial.
  intros H. now rewrite (IH i H).
Qed.

Lemma length_update_nth {A : Type} (i : nat) (f : A -> A) (l : list A) :
  List.length (update_nth i f l) = List.length l.
Proof.
  revert i. induction l as [|a l IH]; intros [|i]; cbn; trivial.
  now rewrite IH.
Qed.

Lemma splice_one_update_nth {A : Type} (i : nat) (f : A -> A) (l : list A) :
  splice_one i (update_nth i f l) = splice_one i l.
Proof.
  revert i. induction l as [|a l IH]; intros [|i]; cbn; trivial.
  now rewrite IH.
Qed.

(** The decision handler on bins that read, with the submission found and
    every write stored. *)
Lemma decide_game_runs (isoNow : string) (adminId : option Z) (gameId : Z)
  (decision : option string) (minPlayers maxPlayers : option Z)
  (subs : BinFetch Submission) (pub : BinFetch Game)
  (allSubmissions : list Submission) (allPublished : list Game) (i : nat)
  (submission : Submission) :
  read_bin_strict subs = Some allSubmissions ->
  read_bin_strict pub = Some allPublished ->
  findIndex (fun s => id_reads (Some gameId) (sub_id s)) allSubmissions
  = Some i ->
  nth_error allSubmissions i = Some submission ->
  decide_game PutStored PutStored isoNow adminId (Some gameId) decision
    minPlayers maxPlayers (subs, pub)
  = (CreatorDone ("Game has been " ++ decision_text decision ++ "."),
     if match decision with
        | Some d => String.eqb d "approved"
        | None => false
        end
     then (bin_of (splice_one i allSubmissions),
           bin_of (allPublished
                   ++ [published_from (decided decision isoNow submission)
                         minPlayers maxPlayers]))
     else (bin_of (update_nth i (decided decision isoNow) allSubmissions),
           pub)).
Proof.
  intros Hsubs Hpub Hi Hsubmission. unfold decide_game.
  unfold read_bin_strict in Hsubs, Hpub.
  destruct (fetch_json false subs) as [submissionsData|]; [|discriminate].
  destruct (fetch_json false pub) as [publishedData|]; [|discriminate].
  rewrite Hsubs, Hpub, Hi, Hsubmission.
  destruct (match decision with
            | Some d => String.eqb d "approved"
            | None => false
            end);
    cbn [put_unchecked write_bin]; rewrite ?splice_one_update_nth; reflexivity.
Qed.

(** X26. Approval publishes.  When the submission with the given id is
    approved (bins read, writes stored) and no published game has that id,
    the answer is success; the public endpoint then serves the code of the
    submission under that id; the submission is gone from the submissions,
    which are one fewer; and the published games are the former ones followed
    by the game, with the player counts of the request or 10 and 50.  Under
    any other decision the submission stays, marked with the decision, and
    the published games are untouched.  The admin id of the request plays no
    part. *)
Theorem approval_publishes_the_game (isoNow : string) (adminId : option Z)
  (gameId : Z) (decision : option string) (minPlayers maxPlayers : option Z)
  (subs : BinFetch Submission) (pub : BinFetch Game)
  (allSubmissions : list Submission) (allPublished : list Game) (i : nat)
  (submission : Submission) :
  read_bin_strict subs = Some allSubmissions ->
  read_bin_strict pub = Some allPublished ->
  findIndex (fun s => id_reads (Some gameId) (sub_id s)) allSubmissions
  = Some i ->
  nth_error allSubmissions i = Some submission ->
  (forall g, In g allPublished -> game_id g <> gameId) ->
  let decided_game :=
    decide_game PutStored PutStored isoNow adminId (Some gameId) decision
      minPlayers maxPlayers (subs, pub) in
  fst decided_game
  = CreatorDone ("Game has been " ++ decision_text decision ++ ".") /\
  (decision = Some "approved" ->
   games_get (Some gameId) (snd (snd decided_game))
   = GameCode (Some (sub_code submission)) /\
   bin_items (fst (snd decided_game)) = splice_one i allSubmissions /\
   S (List.length (bin_items (fst (snd decided_game))))
   = List.length allSubmissions /\
   exists game,
     bin_items (snd (snd decided_game)) = allPublished ++ [game] /\
     game_id game = gameId /\
     game_creatorId game = sub_creatorId submission /\
     game_minPlayers game = Some (or_default minPlayers 10) /\
     game_maxPlayers game = Some (or_default maxPlayers 50)) /\
  (decision <> Some "approved" ->
   snd (snd decided_game) = pub /\
   nth_error (bin_items (fst (snd decided_game))) i
   = Some (decided decision isoNow submission) /\
   List.length (bin_items (fst (snd decided_game)))
   = List.length allSubmissions).
Proof.
  intros Hsubs Hpub Hi Hsubmission Hfresh decided_game.
  unfold decided_game.
  rewrite (decide_game_runs _ _ _ _ _ _ _ _ _ _ _ _ Hsubs Hpub Hi Hsubmission).
  cbn [fst snd]. split; [reflexivity|].
  destruct (findIndex_Some _ _ _ Hi) as (s & Hs & Hid & _).
  assert (s = submission) by congruence. subst s.
  cbn [id_reads] in Hid. apply Z.eqb_eq in Hid.
  split.
  - intros ->. cbn [String.eqb Ascii.eqb Bool.eqb fst snd bin_items bin_of].
    split; [|split; [reflexivity|split]].
    + unfold games_get. rewrite read_bin_strict_of, find_app.
      rewrite find_none_forall.
      * cbn [find published_from game_id id_equals decided sub_id].
        rewrite Hid, Z.eqb_refl. reflexivity.
      * intros g Hg. cbn [id_equals]. apply Z.eqb_neq. now apply Hfresh.
    + now apply (length_splice_one _ _ submission).
    + eexists. split; [reflexivity|]. now repeat split.
  - intros Hnot.
    assert (E : match decision with
                | Some d => String.eqb d "approved"
                | None => false
                end = false).
    { destruct decision as [d|]; trivial.
      destruct (String.eqb d "approved") eqn:E; trivial.
      apply String.eqb_eq in E. congruence. }
    rewrite E. cbn [fst snd bin_items bin_of]. split; [reflexivity|]. split.
    + now rewrite nth_error_update_nth, Nat.eqb_refl, Hsubmission.
    + apply length_update_nth.
Qed.

Lemma approval_publishes_the_game_witness :
  games_get (Some 1700000000100)
    (snd (snd (decide_game PutStored PutStored "2025-02-02T00:00:00.000Z" None
                 (Some 1700000000100) (Some "approved") None None
                 (bin_of [sample_submission], bin_of [sample_game]))))
  = GameCode (Some "<script>maze()</script>").
Proof.
  destruct (approval_publishes_the_game "2025-02-02T00:00:00.000Z" None
              1700000000100 (Some "approved") None None
              (bin_of [sample_submission]) (bin_of [sample_game])
              [sample_submission] [sample_game] 0 sample_submission)
    as (_ & Happroved & _);
    [reflexivity | reflexivity | reflexivity | reflexivity | |].
  - intros g [<- | []]. discriminate.
  - destruct Happroved as [Hserved _]; [reflexivity|]. exact Hserved.
Defined.

(** ** Published games *)

Lemma find_filter_negb {A : Type} (p : A -> bool) (l : list A) :
  find p (filter (fun x => negb (p x)) l) = None.
Proof.
  apply find_none_forall. intros x Hx. apply filter_In in Hx.
  destruct Hx as [_ Hx]. now destruct (p x).
Qed.

Lemma find_filter_other {A : Type} (p q : A -> bool) (l : list A) :
  (forall x, q x = true -> p x = true) ->
  find q (filter p l) = find q l.
Proof.
  intros H. induction l as [|a l IH]; cbn; trivial.
  destruct (p a) eqn:Ep; cbn.
  - now rewrite IH.
  - destruct (q a) eqn:Eq; trivial. rewrite (H a Eq) in Ep. discriminate.
Qed.

(** X27. Editing and deleting a published game.  With the published games
    read and the write stored: after an edit of the code of a game that
    exists, the public endpoint serves the new code under its id and what
    it served before under every other id; after a deletion the id is
    answered 404, whether or not a game had it, and every other id is served
    as before.  Neither handler looks at the admin id of the request. *)
Theorem published_game_edit_and_delete (adminId : option Z) (gameId : Z)
  (code : option string) (w : BinFetch Game) (allPublished : list Game) :
  read_bin_strict w = Some allPublished ->
  ((exists g, In g allPublished /\ game_id g = gameId) ->
   fst (edit_game PutStored adminId (Some gameId) code w)
   = CreatorDone "Game code updated." /\
   games_get (Some gameId) (snd (edit_game PutStored adminId (Some gameId) code w))
   = GameCode code /\
   forall otherId,
     otherId <> gameId ->
     games_get (Some otherId)
       (snd (edit_game PutStored adminId (Some gameId) code w))
     = games_get (Some otherId) w) /\
  fst (delete_game PutStored adminId (Some gameId) w)
  = CreatorDone "Game deleted." /\
  games_get (Some gameId) (snd (delete_game PutStored adminId (Some gameId) w))
  = CreatorError 404 "Game not found." /\
  forall otherId,
    otherId <> gameId ->
    games_get (Some otherId)
      (snd (delete_game PutStored adminId (Some gameId) w))
    = games_get (Some otherId) w.
Proof.
  intros Hread. split.
  - intros (g & Hin & Hid). unfold edit_game. rewrite Hread.
    destruct (findIndex (fun g => id_equals (Some gameId) (game_id g))
                allPublished) as [i|] eqn:Hi.
    + cbn [put_unchecked write_bin fst snd].
      fold (bin_of (update_nth i (set_code code) allPublished)).
      split; [reflexivity|].
      destruct (findIndex_Some _ _ _ Hi) as (found & Hfound & Hp & _).
      split.
      * unfold games_get. rewrite read_bin_strict_of.
        rewrite find_update_nth by reflexivity.
        now rewrite Hi, Nat.eqb_refl, Hfound.
      * intros otherId Hne. unfold games_get.
        rewrite read_bin_strict_of, Hread.
        rewrite find_update_nth by reflexivity.
        rewrite (find_findIndex _ allPublished).
        destruct (findIndex (fun g0 => id_equals (Some otherId) (game_id g0))
                    allPublished) as [j|] eqn:Hj; trivial.
        destruct (Nat.eqb i j) eqn:E; trivial.
        apply Nat.eqb_eq in E. subst j.
        destruct (findIndex_Some _ _ _ Hj) as (found' & Hfound' & Hp' & _).
        rewrite Hfound in Hfound'. injection Hfound' as <-.
        cbn [id_equals] in Hp, Hp'.
        apply Z.eqb_eq in Hp. apply Z.eqb_eq in Hp'. congruence.
    + exfalso. pose proof (proj1 (findIndex_None _ _) Hi g Hin) as Hno.
      cbn [id_equals] in Hno. rewrite Hid, Z.eqb_refl in Hno. discriminate.
  - unfold delete_game. rewrite Hread.
    cbn [put_unchecked write_bin fst snd].
    fold (bin_of (filter (fun g => negb (id_equals (Some gameId) (game_id g)))
                    allPublished)).
    split; [reflexivity|]. unfold games_get. split.
    + rewrite read_bin_strict_of.
      now rewrite (find_filter_negb
                     (fun g => id_equals (Some gameId) (game_id g))).
    + intros otherId Hne. rewrite read_bin_strict_of, Hread.
      rewrite find_filter_other; trivial.
      intros x Hx. cbn [id_equals] in Hx |- *. apply Z.eqb_eq in Hx.
      assert (E : (game_id x =? gameId) = false)
        by (apply Z.eqb_neq; congruence).
      now rewrite E.
Qed.

Lemma published_game_edit_and_delete_witness :
  games_get (Some 1600000000000)
    (snd (delete_game PutStored None (Some 1600000000000) (bin_of [sample_game])))
  = CreatorError 404 "Game not found.".
Proof.
  apply (published_game_edit_and_delete None 1600000000000 None
           (bin_of [sample_game]) [sample_game]).
  reflexivity.
Defined.

(* ================================================================= *)
(** * Properties of the media endpoints *)

Lemma getMediaVideos_of (videos : list Video) :
  getMediaVideos (bin_of videos) = Some videos.
Proof. reflexivity. Qed.

Lemma has_id_toggle_like (draw : nat -> Z -> Z) (dateNowText isoNow : string)
  (userId : Z) (videoId : string) (v : Video) :
  has_id videoId (toggle_like draw dateNowText isoNow userId v)
  = has_id videoId v.
Proof.
  unfold toggle_like, like. destruct (includes (likers v) userId); trivial.
  now destruct (_ <=? 0).
Qed.

Lemma media_like_runs (draw : nat -> Z -> Z) (dateNowText isoNow : string)
  (userId : Z) (videoId : string) (w : BinFetch Video) (videos : list Video)
  (i : nat) (video : Video) :
  userId <> 0 ->
  videoId <> "" ->
  getMediaVideos w = Some videos ->
  findIndex (has_id videoId) videos = Some i ->
  nth_error videos i = Some video ->
  media_like PutStored draw dateNowText isoNow (Some userId) (Some videoId) w
  = (MediaVideo 200 (toggle_like draw dateNowText isoNow userId video),
     bin_of (update_nth i (toggle_like draw dateNowText isoNow userId) videos)).
Proof.
  intros Hu Hv Hread Hi Hvideo. unfold media_like.
  assert (Ht : truthy (Some userId) = Some userId) by now apply truthy_Z_Some.
  now rewrite Ht, (truthy_string_Some _ Hv), Hread, Hi, Hvideo.
Qed.

Lemma filter_out_pushed (userId : Z) (l : list Z) :
  ~ In userId l ->
  filter (fun id => negb (id =? userId)) (l ++ [userId]) = l.
Proof.
  intros Hnot. rewrite filter_app. cbn [filter]. rewrite Z.eqb_refl.
  cbn [negb]. rewrite app_nil_r.
  induction l as [|a l IH]; cbn; trivial.
  assert (E : (a =? userId) = false).
  { apply Z.eqb_neq. intros ->. apply Hnot. now left. }
  rewrite E. cbn [negb]. rewrite IH; trivial.
  intros Hin. apply Hnot. now right.
Qed.

Lemma includes_pushed (userId : Z) (l : list Z) :
  includes (l ++ [userId]) userId = true.
Proof.
  unfold includes. rewrite existsb_app. cbn. rewrite Z.eqb_refl.
  now rewrite Bool.orb_true_r.
Qed.

(** X28. Like, then unlike.  For a video that is found, has at least 0
    likes and does not list the user among its likers (videos read, writes
    stored): a like is answered with the video listing the user as its last
    liker and counting one like more; the same request sent again takes the
    like back, and the video then has the likers and the like count of
    before; views, title and creator never change.  If no liker was listed
    twice before, none is after the like. *)
Theorem like_then_unlike_restores (draw draw' : nat -> Z -> Z)
  (dateNowText isoNow dateNowText' isoNow' : string) (userId : Z)
  (videoId : string) (w : BinFetch Video) (videos : list Video) (i : nat)
  (video : Video) :
  userId <> 0 ->
  videoId <> "" ->
  getMediaVideos w = Some videos ->
  findIndex (has_id videoId) videos = Some i ->
  nth_error videos i = Some video ->
  ~ In userId (likers video) ->
  0 <= likes video ->
  let liked :=
    media_like PutStored draw dateNowText isoNow (Some userId) (Some videoId) w
  in
  let unliked :=
    media_like PutStored draw' dateNowText' isoNow' (Some userId)
      (Some videoId) (snd liked) in
  exists v1 v2,
    fst liked = MediaVideo 200 v1 /\
    fst unliked = MediaVideo 200 v2 /\
    likers v1 = likers video ++ [userId] /\
    likes v1 = likes video + 1 /\
    (NoDup (likers video) -> NoDup (likers v1)) /\
    likers v2 = likers video /\
    likes v2 = likes video /\
    views v2 = views video /\
    video_title v2 = video_title video /\
    video_creatorId v2 = video_creatorId video /\
    nth_error (bin_items (snd unliked)) i = Some v2.
Proof.
  intros Hu Hv Hread Hi Hvideo Hnew Hlikes liked unliked.
  assert (Hinc : includes (likers video) userId = false).
  { destruct (includes (likers video) userId) eqn:E; trivial.
    apply includes_In in E. contradiction. }
  set (v1 := toggle_like draw dateNowText isoNow userId video).
  assert (Hliked : liked
                   = (MediaVideo 200 v1,
                      bin_of (update_nth i
                                (toggle_like draw dateNowText isoNow userId)
                                videos))).
  { unfold liked. now apply media_like_runs. }
  assert (Hv1 : likers v1 = likers video ++ [userId]
                /\ likes v1 = likes video + 1
                /\ views v1 = views video
                /\ video_title v1 = video_title video
                /\ video_creatorId v1 = video_creatorId video).
  { unfold v1, toggle_like, like. rewrite Hinc.
    destruct (_ <=? 0); now repeat split. }
  destruct Hv1 as (Hlikers1 & Hlikes1 & Hviews1 & Htitle1 & Hcreator1).
  set (v2 := toggle_like draw' dateNowText' isoNow' userId v1).
  assert (Hunliked : unliked
                     = (MediaVideo 200 v2,
                        bin_of (update_nth i
                                  (toggle_like draw' dateNowText' isoNow'
                                     userId)
                                  (update_nth i
                                     (toggle_like draw dateNowText isoNow
                                        userId)
                                     videos)))).
  { unfold unliked. rewrite Hliked. cbn [snd].
    apply media_like_runs; trivial.
    - rewrite findIndex_update_nth; trivial.
      intros x. apply has_id_toggle_like.
    - now rewrite nth_error_update_nth, Nat.eqb_refl, Hvideo. }
  assert (Hv2 : v2 = unlike userId v1).
  { unfold v2, toggle_like. now rewrite Hlikers1, includes_pushed. }
  exists v1, v2. rewrite Hliked, Hunliked. cbn [fst snd bin_items bin_of].
  repeat split; trivial.
  - intros Hnd. rewrite Hlikers1. now apply NoDup_snoc.
  - rewrite Hv2. cbn [unlike likers]. rewrite Hlikers1.
    now apply filter_out_pushed.
  - rewrite Hv2. cbn [unlike likes]. rewrite Hlikes1. lia.
  - rewrite Hv2. cbn [unlike views]. exact Hviews1.
  - rewrite Hv2. cbn [unlike video_title]. exact Htitle1.
  - rewrite Hv2. cbn [unlike video_creatorId]. exact Hcreator1.
  - rewrite !nth_error_update_nth, Nat.eqb_refl, Hvideo. reflexivity.
Qed.

Lemma like_then_unlike_restores_witness :
  exists v1 v2,
    fst (media_like PutStored (fun _ _ => 0) "1700000000000"
           "2025-02-02T00:00:00.000Z" (Some 3) (Some "vid_1")
           (bin_of [sample_video]))
    = MediaVideo 200 v1 /\
    fst (media_like PutStored (fun _ _ => 0) "1700000000001"
           "2025-02-02T00:00:00.001Z" (Some 3) (Some "vid_1")
           (snd (media_like PutStored (fun _ _ => 0) "1700000000000"
                   "2025-02-02T00:00:00.000Z" (Some 3) (Some "vid_1")
                   (bin_of [sample_video]))))
    = MediaVideo 200 v2 /\
    likers v2 = [1] /\
    likes v2 = 3.
Proof.
  destruct (like_then_unlike_restores (fun _ _ => 0) (fun _ _ => 0)
              "1700000000000" "2025-02-02T00:00:00.000Z" "1700000000001"
              "2025-02-02T00:00:00.001Z" 3 "vid_1" (bin_of [sample_video])
              [sample_video] 0 sample_video)
    as (v1 & v2 & H1 & H2 & _ & _ & _ & Hlikers & Hlikes & _);
    [discriminate | discriminate | reflexivity | reflexivity | reflexivity
    | | |].
  - cbn. intros [H | []]. discriminate.
  - cbn. lia.
  - exists v1, v2. now repeat split.
Defined.

(** ** Moderation *)

(** X29. The two deletions of the media endpoints fail closed.  Unless the
    caller's id is present, not 0, and the first account of the registry with
    that id is named madeonice (in any letter case), DELETE /video and
    DELETE /comment answer 403 and leave the videos as they are, whatever
    the videos bin holds.  For an admin, with the videos read and the write
    stored, deleting a video answers success and stores the videos read less
    every video with the id, in their order. *)
Theorem media_deletions_need_admin (outcome : PutOutcome) (adminId : option Z)
  (videoId commentId : string) (w : World) (vids : BinFetch Video) :
  (~ names_admin w adminId ->
   media_delete_video outcome adminId videoId (w, vids)
   = (MediaError 403 "Unauthorized.", vids) /\
   media_delete_comment outcome adminId videoId commentId (w, vids)
   = (MediaError 403 "Unauthorized.", vids)) /\
  (names_admin w adminId ->
   forall videos,
     getMediaVideos vids = Some videos ->
     outcome = PutStored ->
     fst (media_delete_video outcome adminId videoId (w, vids))
     = MediaDone "Video deleted." /\
     bin_items (snd (media_delete_video outcome adminId videoId (w, vids)))
     = filter (fun v => negb (has_id videoId v)) videos /\
     forall v,
       In v (bin_items
               (snd (media_delete_video outcome adminId videoId (w, vids)))) ->
       video_id v <> videoId).
Proof.
  split.
  - intros Hno. unfold media_delete_video, media_delete_comment.
    destruct (isAdmin adminId w) eqn:E; [|now split].
    apply isAdmin_true in E. contradiction.
  - intros Hadmin videos Hread ->. apply isAdmin_true in Hadmin.
    unfold media_delete_video. rewrite Hadmin, Hread.
    cbn [negb updateMediaVideos write_bin fst snd bin_items].
    split; [reflexivity|]. split; [reflexivity|].
    intros v Hv. apply filter_In in Hv. destruct Hv as [_ Hv].
    unfold has_id in Hv. intros Heq. rewrite Heq, String.eqb_refl in Hv.
    discriminate.
Qed.

Lemma media_deletions_need_admin_witness :
  media_delete_video PutStored (Some 1) "vid_1"
    (store_of [ann] [bob], bin_of [sample_video])
  = (MediaError 403 "Unauthorized.", bin_of [sample_video]).
Proof.
  apply (media_deletions_need_admin PutStored (Some 1) "vid_1" "cmt_1"
           (store_of [ann] [bob]) (bin_of [sample_video])).
  intros (i & u & Hid & _ & Hlook & Hname).
  injection Hid as <-. cbv in Hlook. injection Hlook as <-.
  cbv in Hname. discriminate.
Defined.

(* ================================================================= *)
(** * Properties of the view generation job *)

Lemma between_range (draw : nat -> Z -> Z) (k : nat) (lo hi : Z) :
  draws_in_range draw -> lo <= hi -> lo <= between draw k lo hi <= hi.
Proof.
  intros Hdraw Hle. unfold between.
  pose proof (Hdraw k (hi - lo + 1)). lia.
Qed.

Lemma viewsToAdd_range (draw : nat -> Z -> Z) (k : nat) (tier : string)
  (isInitialPhase : bool) :
  draws_in_range draw ->
  1 <= viewsToAdd draw k tier isInitialPhase <= 15000000.
Proof.
  intros Hdraw. unfold viewsToAdd.
  destruct (String.eqb tier "viral"); [|destruct (String.eqb tier "popular")];
    destruct isInitialPhase;
    match goal with
    | |- _ <= between draw k ?lo ?hi <= _ =>
        pose proof (between_range draw k lo hi Hdraw); lia
    end.
Qed.

(** The loop ends: fuel for one round per view still owed is enough, and it
    leaves at least the likes it found and a countdown above 0. *)
Lemma like_loop_returns (draw : nat -> Z -> Z) (fuel k : nat)
  (likes countdown : Z) :
  draws_in_range draw ->
  (Z.to_nat (1 - countdown) <= fuel)%nat ->
  exists k' likes' countdown',
    like_loop fuel draw k likes countdown = Some (k', likes', countdown') /\
    likes <= likes' /\
    0 < countdown'.
Proof.
  intros Hdraw. revert k likes countdown.
  induction fuel as [|fuel IH]; intros k likes countdown Hfuel;
    cbn [like_loop]; destruct (countdown <=? 0) eqn:E.
  - apply Z.leb_le in E. lia.
  - apply Z.leb_gt in E. exists k, likes, countdown. repeat split; lia.
  - apply Z.leb_le in E.
    pose proof (between_range draw k 15 35 Hdraw) as Hstep.
    destruct (IH (S k) (likes + 1) (countdown + between draw k 15 35))
      as (k' & likes' & countdown' & Hrun & Hlikes & Hpos); [lia|].
    exists k', likes', countdown'. repeat split; trivial. lia.
  - apply Z.leb_gt in E. exists k, likes, countdown. repeat split; lia.
Qed.

Lemma tick_video_returns (draw : nat -> Z -> Z) (clock : nat -> Z)
  (fuel k : nat) (videoMeta : VideoMeta) (v : Video) :
  draws_in_range draw ->
  (Z.to_nat (15000001 - viewsUntilNextLike v) <= fuel)%nat ->
  exists k' v',
    tick_video fuel draw clock k videoMeta v = Some (k', v') /\
    only_gains v v' /\
    0 < viewsUntilNextLike v'.
Proof.
  intros Hdraw Hfuel. unfold tick_video. cbv zeta.
  set (add := viewsToAdd draw k (tier videoMeta)
                (clock k - startTime videoMeta <? 600000)).
  pose proof (viewsToAdd_range draw k (tier videoMeta)
                (clock k - startTime videoMeta <? 600000) Hdraw) as Hadd.
  fold add in Hadd.
  destruct (like_loop_returns draw fuel (S k) (likes v)
              (viewsUntilNextLike v - add) Hdraw)
    as (k' & likes' & countdown' & -> & Hlikes & Hpos); [lia|].
  eexists _, _. split; [reflexivity|].
  unfold only_gains. cbn. repeat split; trivial; lia.
Qed.

Lemma ticked_refl (v : Video) : ticked v v.
Proof. unfold ticked, only_gains. repeat split; trivial; lia. Qed.

Lemma ticked_trans (v1 v2 v3 : Video) :
  ticked v1 v2 -> ticked v2 v3 -> ticked v1 v3.
Proof.
  unfold ticked, only_gains.
  intros ((? & ? & ? & ? & ? & ? & ?) & ?) ((? & ? & ? & ? & ? & ? & ?) & ?).
  repeat split; try congruence; try lia; auto.
Qed.

Lemma Forall2_ticked_refl (l : list Video) : Forall2 ticked l l.
Proof. induction l; constructor; trivial. apply ticked_refl. Qed.

Lemma Forall2_ticked_trans (l1 l2 l3 : list Video) :
  Forall2 ticked l1 l2 -> Forall2 ticked l2 l3 -> Forall2 ticked l1 l3.
Proof.
  intros H12. revert l3.
  induction H12 as [|a b l1 l2 Hab H12 IH]; intros l3 H23;
    inversion H23; subst; constructor.
  - eapply ticked_trans; eauto.
  - now apply IH.
Qed.

Lemma Forall2_ticked_update (l : list Video) (i : nat) (v v' : Video) :
  nth_error l i = Some v ->
  ticked v v' ->
  Forall2 ticked l (update_nth i (fun _ => v') l).
Proof.
  revert i. induction l as [|a l IH]; intros [|i]; cbn; try discriminate.
  - intros [= ->] H. constructor; trivial. apply Forall2_ticked_refl.
  - intros Hi H. constructor; [apply ticked_refl | now apply IH].
Qed.

Lemma Forall2_ticked_nth (l l' : list Video) (i : nat) (v : Video) :
  Forall2 ticked l l' ->
  nth_error l i = Some v ->
  exists v', nth_error l' i = Some v' /\ ticked v v'.
Proof.
  intros H. revert i. induction H as [|a b l l' Hab H IH]; intros [|i]; cbn;
    try discriminate.
  - intros [= ->]. now exists b.
  - apply IH.
Qed.

Lemma Forall2_ticked_findIndex (l l' : list Video) (videoId : string) :
  Forall2 ticked l l' ->
  findIndex (has_id videoId) l' = findIndex (has_id videoId) l.
Proof.
  intros H. induction H as [|a b l l' Hab H IH]; cbn; trivial.
  destruct Hab as ((Hid & _) & _). unfold has_id at 1 3. rewrite Hid.
  now rewrite IH.
Qed.

(** The visit of the entries ends: with fuel for the views one round can
    add and for the countdowns the videos start from, no loop runs out; the
    videos only gain, and every video an entry names ends with a countdown
    above 0. *)
Lemma tick_entries_returns (draw : nat -> Z -> Z) (clock : nat -> Z)
  (fuel : nat) (M : Z) (entries : list (string * VideoMeta)) :
  draws_in_range draw ->
  0 <= M ->
  (Z.to_nat (15000001 + M) <= fuel)%nat ->
  forall (k : nat) (kept : list (string * VideoMeta)) (videos : list Video),
    Forall (fun v => - viewsUntilNextLike v <= M) videos ->
    exists kept' videos',
      tick_entries fuel draw clock k entries kept videos
      = Some (kept', videos') /\
      Forall2 ticked videos videos' /\
      forall videoId videoMeta i,
        In (videoId, videoMeta) entries ->
        findIndex (has_id videoId) videos = Some i ->
        exists v', nth_error videos' i = Some v' /\ 0 < viewsUntilNextLike v'.
Proof.
  intros Hdraw HM Hfuel.
  induction entries as [|[videoId videoMeta] rest IH]; intros k kept videos Hall;
    cbn [tick_entries].
  - exists kept, videos. split; trivial. split; [apply Forall2_ticked_refl|].
    intros ? ? ? [].
  - destruct (findIndex (has_id videoId) videos) as [i|] eqn:Hi.
    + destruct (findIndex_Some _ _ _ Hi) as (v & Hv & _). rewrite Hv.
      assert (Hbound : - viewsUntilNextLike v <= M).
      { rewrite Forall_forall in Hall. apply Hall.
        eapply nth_error_In; eauto. }
      destruct (tick_video_returns draw clock fuel k videoMeta v Hdraw)
        as (k' & v' & -> & Hgain & Hpos); [lia|].
      assert (Hticked : ticked v v') by (split; trivial).
      pose proof (Forall2_ticked_update videos i v v' Hv Hticked) as Hstep.
      destruct (IH k' (kept ++ [(videoId, videoMeta)])
                  (update_nth i (fun _ => v') videos))
        as (kept' & videos' & Hrun & Hrest & Hfound).
      { apply Forall_update_nth; trivial. intros x _ _. lia. }
      exists kept', videos'. split; trivial.
      split; [eapply Forall2_ticked_trans; eauto|].
      intros id m j [[= <- <-] | Hin] Hj.
      * rewrite Hi in Hj. injection Hj as <-.
        destruct (Forall2_ticked_nth _ _ i v' Hrest) as (v'' & Hv'' & Ht).
        { now rewrite nth_error_update_nth, Nat.eqb_refl, Hv. }
        exists v''. split; trivial. now apply Ht.
      * apply (Hfound id m j Hin).
        now rewrite (Forall2_ticked_findIndex _ _ id Hstep).
    + destruct (IH k kept videos Hall) as (kept' & videos' & Hrun & Hrest & Hfound).
      exists kept', videos'. split; trivial. split; trivial.
      intros id m j [[= <- <-] | Hin] Hj; [congruence|].
      now apply (Hfound id m j Hin).
Qed.

Lemma countdown_bound (videos : list Video) :
  exists M,
    0 <= M /\ Forall (fun v => - viewsUntilNextLike v <= M) videos.
Proof.
  induction videos as [|v l (M & HM & Hall)].
  - exists 0. split; [lia | constructor].
  - exists (Z.max M (- viewsUntilNextLike v)). split; [lia|].
    constructor; [lia|].
    eapply Forall_impl; [|exact Hall]. cbn. intros a Ha. lia.
Qed.

Lemma fetch_json_items {A : Type} (w : BinFetch A) (data : BinBody A) :
  fetch_json false w = Some data -> record_lenient data = bin_items w.
Proof.
  destruct w as [|ok [body|]]; cbn; try discriminate. now intros [= ->].
Qed.

Lemma Forall2_only_gains_refl (l : list Video) : Forall2 only_gains l l.
Proof.
  eapply Forall2_impl; [|apply Forall2_ticked_refl]. now intros a b [H _].
Qed.

(** X30. The view generation job ends, and adds only to the videos it is
    given.  With every random draw in its range, a run of the job never
    stays in its like loop: there is an amount of fuel from which on the
    model of the run returns.  When the videos bin answers with its videos
    (status ok, the array present), the run leaves every video with its id,
    title, creator, likers and comments and with at least the views and likes
    it had.  When the run reads both bins and its write of the videos is
    stored, every video that an entry of the view metadata names among the
    videos read ends with a countdown to its next like above 0.  The job
    does not test the status of its reads and takes an answer without the
    array for no videos: after such an answer of the videos bin, with the
    view metadata naming at least one video, a stored write of the videos
    leaves the videos bin holding the empty list, and a stored write of the
    metadata leaves it without entries. *)
Theorem view_job_ends_and_only_adds (draw : nat -> Z -> Z) (clock : nat -> Z)
  (outVideos outMeta : PutOutcome)
  (st : BinFetch (string * VideoMeta) * BinFetch Video) :
  draws_in_range draw ->
  exists N,
    forall fuel,
      (N <= fuel)%nat ->
      exists st',
        view_job fuel draw clock outVideos outMeta st = Some st' /\
        (forall videos,
            snd st = bin_of videos ->
            Forall2 only_gains videos (bin_items (snd st'))) /\
        (forall metaBody videosData activeVideos videoId videoMeta i,
            fetch_json false (fst st) = Some metaBody ->
            record_guarded metaBody = Some activeVideos ->
            fetch_json false (snd st) = Some videosData ->
            outVideos = PutStored ->
            In (videoId, videoMeta) activeVideos ->
            findIndex (has_id videoId) (bin_items (snd st)) = Some i ->
            exists v',
              nth_error (bin_items (snd st')) i = Some v' /\
              0 < viewsUntilNextLike v') /\
        (forall metaBody videosData entry rest,
            fetch_json false (fst st) = Some metaBody ->
            record_guarded metaBody = Some (entry :: rest) ->
            fetch_json false (snd st) = Some videosData ->
            record_lenient videosData = [] ->
            (outVideos = PutStored -> snd st' = bin_of []) /\
            (outMeta = PutStored -> fst st' = bin_of [])).
Proof.
  intros Hdraw. destruct st as [meta vids]. cbn [fst snd].
  destruct (countdown_bound (bin_items vids)) as (M & HM & Hall).
  exists (Z.to_nat (15000001 + M)). intros fuel Hfuel.
  unfold view_job.
  destruct (fetch_json false meta) as [metaBody|] eqn:Hmeta;
    [|exists (meta, vids); split; trivial; split;
      [intros videos ->; apply Forall2_only_gains_refl
      |split; intros; discriminate]].
  destruct (fetch_json false vids) as [videosData|] eqn:Hvids;
    [|exists (meta, vids); split; trivial; split;
      [intros videos ->; apply Forall2_only_gains_refl
      |split; intros; discriminate]].
  pose proof (fetch_json_items _ _ Hvids) as Hitems. rewrite Hitems.
  destruct (record_guarded metaBody) as [activeVideos|] eqn:Hactive;
    [|exists (meta, vids); split; trivial; split;
      [intros videos ->; apply Forall2_only_gains_refl
      |split; intros ? ? ? ? H1 H2; congruence]].
  destruct (tick_entries_returns draw clock fuel M activeVideos Hdraw HM Hfuel
              0%nat [] (bin_items vids) Hall)
    as (kept' & videos' & Hrun & Hticked & Hfound).
  rewrite Hrun.
  destruct activeVideos as [|entry rest].
  - exists (meta, vids). split; trivial.
    split; [intros videos ->; apply Forall2_only_gains_refl|].
    split.
    + intros ? ? ? ? ? ? H1 H2 _ _ Hin.
      assert (activeVideos = []) by congruence. subst. destruct Hin.
    + intros ? ? ? ? H1 H2. congruence.
  - assert (Hempty : bin_items vids = [] -> kept' = [] /\ videos' = []).
    { intros Hnil. rewrite Hnil in Hrun. clear - Hrun.
      assert (Hgen : forall entries k kept,
                 tick_entries fuel draw clock k entries kept []
                 = Some (kept, [])).
      { induction entries as [|[id m] entries IH]; intros k kept;
          cbn [tick_entries findIndex]; trivial. }
      rewrite Hgen in Hrun. now injection Hrun as <- <-. }
    destruct (updateMediaVideos outVideos videos' vids) as [putVideos vids']
      eqn:Hput.
    destruct (write_bin outMeta kept' meta) as [putMeta meta'] eqn:Hputmeta.
    exists (meta', vids'). split; trivial. cbn [fst snd].
    assert (Hvids' : (outVideos = PutStored -> vids' = bin_of videos')
                     /\ (outVideos <> PutStored -> vids' = vids)).
    { destruct outVideos; cbn in Hput; injection Hput as _ <-;
        split; trivial; try discriminate; congruence. }
    assert (Hmeta' : outMeta = PutStored -> meta' = bin_of kept').
    { intros ->. cbn in Hputmeta. now injection Hputmeta as _ <-. }
    destruct Hvids' as [Hstored Hkept].
    split; [|split].
    + intros videos ->. cbn [bin_items bin_of] in *.
      destruct outVideos;
        [rewrite (Hstored eq_refl); cbn [bin_items bin_of];
         now apply (Forall2_impl only_gains
                      (fun a b (H : ticked a b) => proj1 H))
        |rewrite Hkept by discriminate; apply Forall2_only_gains_refl
        |rewrite Hkept by discriminate; apply Forall2_only_gains_refl].
    + intros ? ? active videoId videoMeta i H1 H2 _ Hout Hin Hi.
      assert (active = entry :: rest) by congruence. subst active.
      rewrite (Hstored Hout). cbn [bin_items bin_of].
      now apply (Hfound videoId videoMeta i).
    + intros ? data ? ? _ _ Hdata Hnil.
      assert (Hnone : bin_items vids = []) by congruence.
      destruct (Hempty Hnone) as [-> ->]. split.
      * intros Hout. now apply Hstored.
      * intros Hout. now apply Hmeta'.
Qed.

Lemma view_job_ends_and_only_adds_witness :
  exists N,
    forall fuel,
      (N <= fuel)%nat ->
      exists st',
        view_job fuel (fun _ _ => 0) (fun _ => 1700000000000) PutStored
          PutStored
          (bin_of [("vid_1", mkVideoMeta "common" 1600000000000)],
           bin_of [sample_video])
        = Some st' /\
        Forall2 only_gains [sample_video] (bin_items (snd st')).
Proof.
  destruct (view_job_ends_and_only_adds (fun _ _ => 0)
              (fun _ => 1700000000000) PutStored PutStored
              (bin_of [("vid_1", mkVideoMeta "common" 1600000000000)],
               bin_of [sample_video]))
    as (N & HN).
  - intros k n Hn. lia.
  - exists N. intros fuel Hfuel.
    destruct (HN fuel Hfuel) as (st' & Hrun & Hgains & _).
    exists st'. split; trivial. now apply Hgains.
Defined.
